(** * Provider routing and request dispatch of the multi-AI browser extension

    A shallow embedding of the routing, dispatch, caching and usage
    accounting code of the extension's background service
    (src/background/aiRouter.ts, src/background/index.ts,
    src/background/apiManager.ts, src/services/storage.ts and the four
    provider adapters), with the properties its specification states
    and further properties of the same code.

    Conventions of the embedding:
    - a JavaScript [number] that the code computes with is a binary64
      float ([PrimFloat.float], the same IEEE 754 arithmetic); counters,
      lengths and [Date.now()] instants, which are integers, are [Z] or [nat];
    - a string is a [string] of 8-bit code units (Latin-1), the domain on
      which [btoa] is defined;
    - an [await] is a sequence point: asynchronous functions become state
      passing functions, and what the world does meanwhile is an argument;
    - a thrown exception is the [Throw] case of [Completion];
    - the storage service answers from a memo for 5 seconds: [Storage] and
      [Dispatch] are its calls, and [sendToAI] on a request object, on the
      objects that the memo holds; [Service] and [Entry] have the memo, the
      copy that [chrome.storage] keeps of the cache, and the request as
      [handleMessage] passes it; the lemmas of [ServiceFacts] and
      [sendToAI_served] say where the two agree. *)

From Stdlib Require Import ZArith String Ascii List Bool Floats Lia DecimalString Sorted.
From stdpp Require Import gmap strings list sorting.

Set Warnings "-inexact-float,-register-all".

Local Open Scope string_scope.
Local Open Scope Z_scope.

(** ** JavaScript values and builtins *)

Module JS.

(** An [Error] object, as far as the code reads it: [name] and [message]. *)
Record Error := mkError { name : string; message : string }.

Definition new_Error (msg : string) : Error := mkError "Error" msg.
Definition new_TypeError (msg : string) : Error := mkError "TypeError" msg.

(** The outcome of evaluating a block: a value, or a thrown [Error]. *)
Inductive Completion (A : Type) : Type :=
| Return (a : A)
| Throw (e : Error).
Arguments Return {A} a.
Arguments Throw {A} e.

Definition bind {A B} (c : Completion A) (k : A -> Completion B) : Completion B :=
  match c with
  | Return a => k a
  | Throw e => Throw e
  end.

(** [s || d] on an optional string: [undefined] and the empty string are falsy. *)
Definition or_string (s : option string) (d : string) : string :=
  match s with
  | Some (String c r) => String c r
  | _ => d
  end.

Definition truthy_string (s : option string) : bool :=
  match s with
  | Some (String _ _) => true
  | _ => false
  end.

(** Truthiness of a number: [0], [-0] and [NaN] are falsy. *)
Definition truthy_number (x : float) : bool :=
  negb (PrimFloat.eqb x 0 || PrimFloat.is_nan x).

(** [x || d] on an optional number. *)
Definition or_number (x : option float) (d : float) : float :=
  match x with
  | Some v => if truthy_number v then v else d
  | None => d
  end.

(** [Math.max] of two numbers: [NaN] is contagious and [+0] is above [-0]. *)
Definition Math_max (a b : float) : float :=
  if PrimFloat.is_nan a || PrimFloat.is_nan b then PrimFloat.nan
  else if PrimFloat.ltb a b then b
  else if PrimFloat.ltb b a then a
  else match PrimFloat.classify a with
       | NZero => b
       | _ => a
       end.

(** An integer as a number (exact below 2^53). *)
Definition number_of_Z (z : Z) : float :=
  if z <? 0 then PrimFloat.opp (PrimFloat.of_uint63 (Uint63.of_Z (- z)))
  else PrimFloat.of_uint63 (Uint63.of_Z z).

(** [String.prototype.toLowerCase] on Latin-1 code units. *)
Definition lower_char (c : ascii) : ascii :=
  let n := N_of_ascii c in
  if ((65 <=? n) && (n <=? 90))%N then ascii_of_N (n + 32)
  else if ((192 <=? n) && (n <=? 222) && negb (n =? 215))%N then ascii_of_N (n + 32)
  else c.

Fixpoint toLowerCase (s : string) : string :=
  match s with
  | EmptyString => EmptyString
  | String c r => String (lower_char c) (toLowerCase r)
  end.

(** [s.startsWith(p)]. *)
Fixpoint startsWith (p s : string) : bool :=
  match p, s with
  | EmptyString, _ => true
  | String a p', String b s' => if Ascii.eqb a b then startsWith p' s' else false
  | String _ _, EmptyString => false
  end.

(** [s.includes(p)]. *)
Fixpoint includes (p s : string) : bool :=
  startsWith p s ||
  match s with
  | EmptyString => false
  | String _ s' => includes p s'
  end.

(** [Array.prototype.sort(cmp)]: the sort is stable; [gt a b] says that
    [cmp(a, b)] is positive ([NaN] is not). *)
Section Sort.
Context {A : Type} (gt : A -> A -> bool).

Fixpoint sort_insert (x : A) (l : list A) : list A :=
  match l with
  | [] => [x]
  | y :: l' => if gt x y then y :: sort_insert x l' else x :: y :: l'
  end.

Definition Array_sort (l : list A) : list A := foldr sort_insert [] l.
End Sort.

(** [Array.prototype.slice(start, end)] for integer arguments. *)
Definition rel_index (len i : Z) : nat :=
  Z.to_nat (if i <? 0 then Z.max (len + i) 0 else Z.min i len).

Definition Array_slice {A} (l : list A) (b e : Z) : list A :=
  let len := Z.of_nat (length l) in
  let k := rel_index len b in
  let f := rel_index len e in
  take (f - k)%nat (drop k l).

(** [slice(start)], to the end of the array. *)
Definition Array_slice_from {A} (l : list A) (b : Z) : list A :=
  drop (rel_index (Z.of_nat (length l)) b) l.

End JS.

Import JS.

#[global] Instance Completion_ret : MRet Completion := @Return.
#[global] Instance Completion_bind : MBind Completion := fun A B k c => JS.bind c k.

(** ** The data model (src/types/ai.ts) *)

Inductive AIProvider := claude | chatgpt | gemini | grok.

#[global] Instance AIProvider_eq_dec : EqDecision AIProvider.
Proof. solve_decision. Defined.

Definition AIProvider_code (p : AIProvider) : nat :=
  match p with claude => 0 | chatgpt => 1 | gemini => 2 | grok => 3 end%nat.

Definition AIProvider_of_code (n : nat) : AIProvider :=
  match n with 0%nat => claude | 1%nat => chatgpt | 2%nat => gemini | _ => grok end.

#[global] Instance AIProvider_countable : Countable AIProvider.
Proof.
  apply (inj_countable' AIProvider_code AIProvider_of_code).
  intros []; reflexivity.
Defined.

(** The string a provider tag is at run time. *)
Definition AIProvider_name (p : AIProvider) : string :=
  match p with
  | claude => "claude"
  | chatgpt => "chatgpt"
  | gemini => "gemini"
  | grok => "grok"
  end.

Definition all_providers : list AIProvider := [claude; chatgpt; gemini; grok].

Inductive Role := system | user | assistant.

Definition Role_name (r : Role) : string :=
  match r with system => "system" | user => "user" | assistant => "assistant" end.

Record Tokens := { tk_input : float; tk_output : float }.

Record AIMessage := {
  role : Role;
  content : string;
  timestamp : option float;
  msg_provider : option AIProvider;
  msg_model : option string;
  tokens : option Tokens;
  cost : option float;
}.

Record PageContext := {
  url : string;
  title : string;
  selection : option string;
  visibleText : option string;
  fullHtml : option string;
}.

(** [AIRequest]. The type declares [provider] and [model] as required, but
    [sendToAI] and the adapters test both for absence, so they are options. *)
Record AIRequest := {
  provider : option AIProvider;
  model : option string;
  messages : list AIMessage;
  temperature : option float;
  maxTokens : option float;
  topP : option float;
  stream : option bool;
  systemPrompt : option string;
  context : option PageContext;
}.

Record Usage := {
  inputTokens : float;
  outputTokens : float;
  totalTokens : float;
}.

Record AIResponse := {
  r_provider : AIProvider;
  r_model : string;
  r_content : string;
  r_usage : option Usage;
  r_cost : option float;
  r_error : option string;
  r_streaming : option bool;
  r_responseTime : option Z;
}.

Inductive TaskType :=
| creative_writing | analysis | reasoning | code_generation | debugging
| technical_docs | research | real_time_info | translation | summarization
| casual_chat | data_extraction.

Definition TaskType_name (t : TaskType) : string :=
  match t with
  | creative_writing => "creative_writing"
  | analysis => "analysis"
  | reasoning => "reasoning"
  | code_generation => "code_generation"
  | debugging => "debugging"
  | technical_docs => "technical_docs"
  | research => "research"
  | real_time_info => "real_time_info"
  | translation => "translation"
  | summarization => "summarization"
  | casual_chat => "casual_chat"
  | data_extraction => "data_extraction"
  end.

Record Factors := {
  capabilityMatch : float;
  userPreference : float;
  costEfficiency : float;
  responseSpeed : float;
}.

Record RoutingScore := {
  rs_provider : AIProvider;
  score : float;
  factors : Factors;
}.

(** A routing rule; [pattern] is the list of alternatives of its regular
    expression, each a literal (the rules use no other construct). *)
Record AIRoutingRule := {
  rule_id : string;
  pattern : list string;
  rule_provider : AIProvider;
  priority : Z;
  taskTypes : list TaskType;
}.

(** ** Settings (src/types/extension.ts, src/services/storage.ts) *)

Record ProviderSettings := {
  enabled : bool;
  ps_model : string;
  ps_temperature : float;
  ps_maxTokens : float;
}.

Record ExtensionSettings := {
  defaultProvider : AIProvider;
  autoRouting : bool;
  providers : AIProvider -> ProviderSettings;
  cacheResponses : bool;
  cacheTTL : Z;
  concurrentRequests : Z;
}.

(** ** The router (src/background/aiRouter.ts) *)

Module Router.

Definition mkRule (id : string) (pat : list string) (p : AIProvider)
    (prio : Z) (tts : list TaskType) : AIRoutingRule :=
  {| rule_id := id; pattern := pat; rule_provider := p; priority := prio;
     taskTypes := tts |}.

(** [routingRules], in declaration order. *)
Definition routingRules : list AIRoutingRule := [
  mkRule "claude-creative"
    ["write"; "story"; "creative"; "poem"; "narrative"; "essay"; "article"]
    claude 10 [creative_writing];
  mkRule "claude-analysis"
    ["analyze"; "analysis"; "reasoning"; "explain"; "understand"; "complex"]
    claude 10 [analysis; reasoning];
  mkRule "chatgpt-code"
    ["code"; "program"; "function"; "debug"; "implement"; "javascript";
     "python"; "typescript"]
    chatgpt 10 [code_generation; debugging];
  mkRule "chatgpt-technical"
    ["technical"; "documentation"; "api"; "specification"]
    chatgpt 9 [technical_docs];
  mkRule "gemini-research"
    ["research"; "search"; "find"; "latest"; "news"; "current"; "google"]
    gemini 10 [research; real_time_info];
  mkRule "gemini-data"
    ["extract"; "data"; "table"; "csv"; "json"; "parse"]
    gemini 9 [data_extraction];
  mkRule "grok-casual"
    ["chat"; "casual"; "quick"; "simple"; "hey"; "hi"]
    grok 8 [casual_chat];
  mkRule "grok-social"
    ["tweet"; "post"; "social"; "twitter"; "x.com"]
    grok 10 [casual_chat]
].

(** [taskKeywords] of [detectTaskType], in key order. *)
Definition taskKeywords : list (TaskType * list string) := [
  (creative_writing, ["write"; "story"; "creative"; "poem"; "narrative"]);
  (analysis, ["analyze"; "analysis"; "explain"; "understand"]);
  (reasoning, ["reason"; "logic"; "deduce"; "conclude"]);
  (code_generation, ["code"; "program"; "function"; "implement"]);
  (debugging, ["debug"; "fix"; "error"; "bug"]);
  (technical_docs, ["document"; "api"; "technical"; "specification"]);
  (research, ["research"; "find"; "search"; "information"]);
  (real_time_info, ["latest"; "current"; "today"; "news"]);
  (translation, ["translate"; "translation"; "language"]);
  (summarization, ["summarize"; "summary"; "brief"; "tldr"]);
  (casual_chat, ["chat"; "talk"; "hey"; "hi"; "hello"]);
  (data_extraction, ["extract"; "parse"; "data"; "table"])
].

(** [pattern.test(content)] for an alternation of literals with the [i]
    flag, on content that [getRequestContent] has already lower-cased. *)
Definition test (pat : list string) (content : string) : bool :=
  existsb (fun w => includes w content) pat.

Record Metrics := { avgResponseTime : float; successRate : float }.

(** The mutable fields of an [AIRouter]. *)
Record State := {
  userPreferences : gmap string AIProvider;
  performanceMetrics : gmap AIProvider Metrics;
}.

(** [initializeMetrics]. *)
Definition initializeMetrics : gmap AIProvider Metrics :=
  <[grok := {| avgResponseTime := 1000; successRate := 0.95 |}]>
  (<[gemini := {| avgResponseTime := 1500; successRate := 0.96 |}]>
  (<[chatgpt := {| avgResponseTime := 1800; successRate := 0.97 |}]>
  (<[claude := {| avgResponseTime := 2000; successRate := 0.98 |}]> ∅))).

(** A router as the constructor leaves it when no usage is stored. *)
Definition init : State :=
  {| userPreferences := ∅; performanceMetrics := initializeMetrics |}.

(** [getRequestContent]: the last message and the context excerpt, joined
    by a space and lower-cased. *)
Definition getRequestContent (request : AIRequest) : string :=
  let lastMessage := last (messages request) in
  let ctx :=
    match context request with
    | None => ""
    | Some c =>
        if truthy_string (selection c) then or_string (selection c) ""
        else or_string (visibleText c) ""
    end in
  toLowerCase
    (or_string (content <$> lastMessage) "" +:+ " " +:+ ctx).

(** [detectTaskType]: the first rule that matches gives its first task type;
    then the first keyword entry that matches; then [casual_chat]. *)
Definition detectTaskType (request : AIRequest) : TaskType :=
  let content := getRequestContent request in
  match List.find (fun rule => test (pattern rule) content) routingRules with
  | Some rule => List.hd casual_chat (taskTypes rule)
  | None =>
      match List.find (fun kw => test (snd kw) content) taskKeywords with
      | Some kw => fst kw
      | None => casual_chat
      end
  end.

(** The [capabilities] table of [calculateCapabilityMatch]. *)
Definition capabilities (p : AIProvider) (t : TaskType) : float :=
  match p, t with
  | claude, creative_writing => 1.0 | claude, analysis => 1.0
  | claude, reasoning => 1.0 | claude, code_generation => 0.8
  | claude, debugging => 0.7 | claude, technical_docs => 0.8
  | claude, research => 0.6 | claude, real_time_info => 0.3
  | claude, translation => 0.8 | claude, summarization => 0.9
  | claude, casual_chat => 0.8 | claude, data_extraction => 0.7
  | chatgpt, creative_writing => 0.8 | chatgpt, analysis => 0.8
  | chatgpt, reasoning => 0.8 | chatgpt, code_generation => 1.0
  | chatgpt, debugging => 1.0 | chatgpt, technical_docs => 1.0
  | chatgpt, research => 0.7 | chatgpt, real_time_info => 0.4
  | chatgpt, translation => 0.9 | chatgpt, summarization => 0.8
  | chatgpt, casual_chat => 0.8 | chatgpt, data_extraction => 0.8
  | gemini, creative_writing => 0.7 | gemini, analysis => 0.8
  | gemini, reasoning => 0.8 | gemini, code_generation => 0.8
  | gemini, debugging => 0.7 | gemini, technical_docs => 0.8
  | gemini, research => 1.0 | gemini, real_time_info => 1.0
  | gemini, translation => 0.9 | gemini, summarization => 0.8
  | gemini, casual_chat => 0.7 | gemini, data_extraction => 0.9
  | grok, creative_writing => 0.6 | grok, analysis => 0.6
  | grok, reasoning => 0.6 | grok, code_generation => 0.6
  | grok, debugging => 0.5 | grok, technical_docs => 0.6
  | grok, research => 0.7 | grok, real_time_info => 0.9
  | grok, translation => 0.6 | grok, summarization => 0.7
  | grok, casual_chat => 1.0 | grok, data_extraction => 0.6
  end%float.

(** [calculateCapabilityMatch]. *)
Definition calculateCapabilityMatch (p : AIProvider) (taskType : TaskType)
    (request : AIRequest) : float :=
  let content := getRequestContent request in
  match List.find
          (fun rule => bool_decide (rule_provider rule = p)
                       && test (pattern rule) content)
          routingRules with
  | Some _ => 1.0%float
  | None => or_number (Some (capabilities p taskType)) 0.5
  end.

(** [calculateUserPreference]. *)
Definition calculateUserPreference (st : State) (p : AIProvider)
    (taskType : TaskType) : float :=
  let preferenceKey := TaskType_name taskType +:+ "-preference" in
  match userPreferences st !! preferenceKey with
  | Some preferred =>
      if bool_decide (preferred = p) then 1.0%float else 0.3%float
  | None =>
      or_number (successRate <$> (performanceMetrics st !! p)) 0.5
  end.

(** [estimateTokens]: about four characters per token. *)
Definition estimateTokens (request : AIRequest) : float * float :=
  let content := getRequestContent request in
  let inputTokens := number_of_Z ((Z.of_nat (String.length content) + 3) / 4) in
  let outputTokens := or_number (maxTokens request) 1000 in
  (inputTokens, outputTokens).

(** The [costs] table of [calculateCostEfficiency], per 1k tokens. *)
Definition costs (p : AIProvider) : float * float :=
  match p with
  | claude => (0.8, 2.4)
  | chatgpt => (1.0, 3.0)
  | gemini => (0.5, 1.5)
  | grok => (0.3, 0.9)
  end%float.

(** [calculateCostEfficiency]. *)
Definition calculateCostEfficiency (p : AIProvider) (request : AIRequest) : float :=
  let estimatedTokens := estimateTokens request in
  let cost := costs p in
  let estimatedCost :=
    ((fst estimatedTokens * fst cost + snd estimatedTokens * snd cost) / 1000)%float in
  let maxCost := 5%float in
  Math_max 0 (1 - estimatedCost / maxCost)%float.

(** [calculateResponseSpeed]. *)
Definition calculateResponseSpeed (st : State) (p : AIProvider) : float :=
  match performanceMetrics st !! p with
  | None => 0.5%float
  | Some metrics =>
      let maxTime := 5000%float in
      Math_max 0 (1 - avgResponseTime metrics / maxTime)%float
  end.

(** [calculateProviderScore]. *)
Definition calculateProviderScore (st : State) (p : AIProvider)
    (request : AIRequest) (taskType : TaskType) : RoutingScore :=
  let factors := {|
    capabilityMatch := calculateCapabilityMatch p taskType request;
    userPreference := calculateUserPreference st p taskType;
    costEfficiency := calculateCostEfficiency p request;
    responseSpeed := calculateResponseSpeed st p;
  |} in
  let score :=
    (capabilityMatch factors * 0.4 +
     userPreference factors * 0.3 +
     costEfficiency factors * 0.2 +
     responseSpeed factors * 0.1)%float in
  {| rs_provider := p; score := score; factors := factors |}.

(** [calculateScores]: one score per enabled provider, in the order of the
    literal array. *)
Definition calculateScores (st : State) (settings : ExtensionSettings)
    (request : AIRequest) : list RoutingScore :=
  let taskType := detectTaskType request in
  (fun p => calculateProviderScore st p request taskType) <$>
  filter (fun p => enabled (providers settings p) = true) all_providers.

(** The comparator [(a, b) => b.score - a.score] is positive. *)
Definition by_score_desc (a b : RoutingScore) : bool :=
  PrimFloat.ltb 0 (score b - score a)%float.

(** [route]. Reading [sorted[0].provider] of an empty array throws. *)
Definition route (st : State) (settings : ExtensionSettings)
    (request : AIRequest) : Completion AIProvider :=
  let scores := calculateScores st settings request in
  let sorted := Array_sort by_score_desc scores in
  match sorted with
  | best :: _ => Return (rs_provider best)
  | [] => Throw (new_TypeError
                   "Cannot read properties of undefined (reading 'provider')")
  end.

(** [updatePreference]. *)
Definition updatePreference (st : State) (taskType : TaskType)
    (p : AIProvider) : State :=
  {| userPreferences :=
       <[TaskType_name taskType +:+ "-preference" := p]> (userPreferences st);
     performanceMetrics := performanceMetrics st |}.

End Router.

(** ** The storage service (src/services/storage.ts, src/types/storage.ts) *)

Module Storage.

(** A [Map] keeps its keys in insertion order: [set] on a present key
    replaces the value where it stands, on a new key appends. *)
Section MapOps.
Context {V : Type}.

Fixpoint Map_get (k : string) (m : list (string * V)) : option V :=
  match m with
  | [] => None
  | (k', v) :: m' => if String.eqb k k' then Some v else Map_get k m'
  end.

Fixpoint Map_set (k : string) (v : V) (m : list (string * V)) : list (string * V) :=
  match m with
  | [] => [(k, v)]
  | (k', v') :: m' =>
      if String.eqb k k' then (k, v) :: m' else (k', v') :: Map_set k v m'
  end.

Fixpoint Map_delete (k : string) (m : list (string * V)) : list (string * V) :=
  match m with
  | [] => []
  | (k', v') :: m' =>
      if String.eqb k k' then Map_delete k m' else (k', v') :: Map_delete k m'
  end.

Definition Map_size (m : list (string * V)) : Z := Z.of_nat (length m).
End MapOps.

Record CachedResponse := {
  key : string;
  response : AIResponse;
  timestamp : Z;
  hits : Z;
  provider : AIProvider;
}.

Record ResponseCache := {
  entries : list (string * CachedResponse);
  maxSize : Z;
  ttl : Z;
}.

Record ProviderUsage := {
  pu_requests : Z;
  pu_tokens_input : float;
  pu_tokens_output : float;
  pu_cost : float;
  pu_errors : Z;
  pu_averageResponseTime : float;
}.

Record DailyUsage := {
  date : string;
  du_requests : Z;
  du_tokens : float;
  du_cost : float;
  du_providers : gmap AIProvider Z;
}.

(** [UsageStats], without [monthlyBudget] and [alerts]: the budget alert
    block of [trackUsage] only appends to [alerts], which nothing here reads. *)
Record UsageStats := {
  totalRequests : Z;
  totalTokens_input : float;
  totalTokens_output : float;
  totalCost : float;
  byProvider : gmap AIProvider ProviderUsage;
  dailyUsage : list DailyUsage;
}.

(** What the service holds, by key of [StorageData]: the objects that
    [get] hands out while its memo holds them. [apiKeys] is the outcome of
    [getAPIKey] per provider: the decrypted key, or [None] when no key is
    stored or it does not decrypt. *)
Record Store := {
  settings : option ExtensionSettings;
  apiKeys : AIProvider -> option string;
  usage : option UsageStats;
  cache : option ResponseCache;
}.

Definition with_cache (c : option ResponseCache) (s : Store) : Store :=
  {| settings := settings s; apiKeys := apiKeys s; usage := usage s; cache := c |}.

Definition with_usage (u : option UsageStats) (s : Store) : Store :=
  {| settings := settings s; apiKeys := apiKeys s; usage := u; cache := cache s |}.

(** [getDefaultSettings], the fields the dispatch path reads. *)
Definition getDefaultSettings : ExtensionSettings := {|
  defaultProvider := claude;
  autoRouting := true;
  providers := fun p =>
    {| enabled := true;
       ps_model := match p with
                   | claude => "claude-3-sonnet-20240229"
                   | chatgpt => "gpt-4-turbo-preview"
                   | gemini => "gemini-pro"
                   | grok => "grok-beta"
                   end;
       ps_temperature := 0.7;
       ps_maxTokens := 4000 |};
  cacheResponses := true;
  cacheTTL := 3600000;
  concurrentRequests := 3;
|}.

(** [getSettings]. *)
Definition getSettings (s : Store) : ExtensionSettings :=
  default getDefaultSettings (settings s).

(** [getAPIKey]. *)
Definition getAPIKey (s : Store) (p : AIProvider) : option string := apiKeys s p.

(** A service call on the objects of the memo: it reads and updates them
    and may throw. What [get] hands out here is what [set] was given, the
    very object, so that the entries of the cache are read as the [Map]
    they were written as, and a mutation is in the store even when the
    [set] that follows it throws. That is the service while the memo entry
    is less than 5 seconds old; what its calls do with the cache when the
    entry is older, or gone, is in [Service] below, which has the memo and
    the copy of [chrome.storage]. *)
Definition M (A : Type) : Type := Store -> Completion A * Store.

(** [set(key, value)]: [fails] is the error the underlying storage raises,
    if it does. *)
Definition set_result (fails : option JS.Error) : Completion unit :=
  match fails with
  | Some e => Throw e
  | None => Return tt
  end.

Definition with_hits (h : Z) (e : CachedResponse) : CachedResponse :=
  {| key := key e; response := response e; timestamp := timestamp e;
     hits := h; provider := provider e |}.

Definition with_entries (es : list (string * CachedResponse)) (c : ResponseCache)
    : ResponseCache :=
  {| entries := es; maxSize := maxSize c; ttl := ttl c |}.

(** [removeCachedResponse], on the cache object of the memo. *)
Definition removeCachedResponse (fails : option JS.Error) (k : string) : M unit :=
  fun s =>
    match cache s with
    | None => (Return tt, s)
    | Some c =>
        let c' := with_entries (Map_delete k (entries c)) c in
        (set_result fails, with_cache (Some c') s)
    end.

(** [getCachedResponse] at instant [now], on the cache object of the
    memo. *)
Definition getCachedResponse (now : Z) (fails : option JS.Error) (k : string)
    : M (option CachedResponse) :=
  fun s =>
    match cache s with
    | None => (Return None, s)
    | Some c =>
        match Map_get k (entries c) with
        | None => (Return None, s)
        | Some entry =>
            if ttl c <? now - timestamp entry then
              let '(r, s') := removeCachedResponse fails k s in
              (_ ← r; Return None, s')
            else
              let entry' := with_hits (hits entry + 1) entry in
              let c' := with_entries (Map_set k entry' (entries c)) c in
              (_ ← set_result fails; Return (Some entry'), with_cache (Some c') s)
        end
    end.

(** The comparator [(a, b) => a[1].timestamp - b[1].timestamp] is positive. *)
Definition by_timestamp (a b : string * CachedResponse) : bool :=
  0 <? timestamp (snd a) - timestamp (snd b).

(** The size check of [setCachedResponse]: the oldest entries go. *)
Definition enforce_maxSize (c : ResponseCache) : ResponseCache :=
  if maxSize c <? Map_size (entries c) then
    let sortedEntries := Array_sort by_timestamp (entries c) in
    let toRemove := Array_slice sortedEntries 0 (Map_size (entries c) - maxSize c) in
    with_entries
      (foldl (fun es kv => Map_delete (fst kv) es) (entries c) toRemove) c
  else c.

(** [setCachedResponse] at instant [now], on the cache object of the
    memo, or when there is none and nothing is stored. *)
Definition setCachedResponse (now : Z) (fails : option JS.Error) (k : string)
    (r : AIResponse) (p : AIProvider) : M unit :=
  fun s =>
    let c := default {| entries := []; maxSize := 100; ttl := 3600000 |} (cache s) in
    let entry := {| key := k; response := r; timestamp := now; hits := 0;
                    provider := p |} in
    let c1 := with_entries (Map_set k entry (entries c)) c in
    let c2 := enforce_maxSize c1 in
    match cache s, fails with
    | None, Some e => (Throw e, s)
    | _, _ => (set_result fails, with_cache (Some c2) s)
    end.

(** The time to live that applies to a store: that of its cache, or the
    one [setCachedResponse] gives the cache it creates. *)
Definition ttl_of (s : Store) : Z :=
  match cache s with
  | Some c => ttl c
  | None => 3600000
  end.

(** What every cache that [setCachedResponse] made and the service kept
    satisfies at instant [now], on a clock that does not run backwards: it
    has room for an entry, is not over its size, and holds no entry from
    the future. *)
Record cacheInv (now : Z) (c : ResponseCache) : Prop := {
  inv_room : 1 <= maxSize c;
  inv_size : Map_size (entries c) <= maxSize c;
  inv_past : Forall (fun kv => timestamp (snd kv) <= now) (entries c);
}.

Definition storeInv (now : Z) (s : Store) : Prop :=
  match cache s with
  | Some c => cacheInv now c
  | None => True
  end.

(** The instants of the entries, in the order of the map. *)
Definition stamps (es : list (string * CachedResponse)) : list Z :=
  (fun kv => timestamp (snd kv)) <$> es.

(** The keys a cache of size [m] holds after the writes [done] to an empty
    cache, when none of them is lost but to the size check. *)
Definition kept (m : Z) (done : list string) : list string :=
  if Z.of_nat (length done) <=? m then done else tail done.

(** The cache object at hand follows the writes [done]: it has the size
    [m] and the time to live [t], and the keys [kept], in the order of
    their instants, which lie between [lo0] and [lo]. *)
Definition tracks (m t lo0 lo : Z) (done : list string) (s : Store) : Prop :=
  match cache s with
  | None => done = [] /\ m = 100 /\ t = 3600000
  | Some c =>
      maxSize c = m /\ ttl c = t /\
      (entries c).*1 = kept m done /\
      StronglySorted Z.le (stamps (entries c)) /\
      Forall (fun z => lo0 <= z <= lo) (stamps (entries c))
  end.

End Storage.

(** ** The provider adapters (src/services/anthropic.ts, openai.ts,
    google.ts, xai.ts) *)

Module Adapter.

Inductive AdapterClass := ClaudeAPI | ChatGPTAPI | GeminiAPI | GrokAPI.

(** The [provider] tag each class writes into its responses. *)
Definition provider_of (a : AdapterClass) : AIProvider :=
  match a with
  | ClaudeAPI => claude
  | ChatGPTAPI => chatgpt
  | GeminiAPI => gemini
  | GrokAPI => grok
  end.

(** The model each class falls back to in [request.model || '...']. *)
Definition default_model (a : AdapterClass) : string :=
  match a with
  | ClaudeAPI => "claude-3-sonnet-20240229"
  | ChatGPTAPI => "gpt-4-turbo-preview"
  | GeminiAPI => "gemini-pro"
  | GrokAPI => "grok-beta"
  end.

(** The body of a 2xx reply, as far as [transformResponse] reads it: the
    first text, the model, and the usage counts. *)
Record WireUsage := { w_input : float; w_output : float; w_total : float }.

Record WireData := {
  w_text : option string;
  w_model : option string;
  w_usage : option WireUsage;
}.

(** What the [catch] of [sendRequest] receives: an [AxiosError] with
    [error.response], of which [handleError] reads [status] and
    [data?.error?.message], or an error without a response (the network
    failed, the signal aborted, or the [try] block itself threw). *)
Inductive Failure :=
| WithResponse (status : Z) (data_error_message : option string)
| WithoutResponse (e : JS.Error).

(** How the HTTP call of [sendRequest] ends. *)
Inductive Outcome :=
| Fulfilled (data : WireData)
| Rejected (error : Failure).

(** The [costs] table of each [calculateCost], per 1k tokens. *)
Definition costs (a : AdapterClass) (m : string) : option (float * float) :=
  match a with
  | ClaudeAPI =>
      if String.eqb m "claude-3-opus-20240229" then Some (0.015, 0.075)
      else if String.eqb m "claude-3-sonnet-20240229" then Some (0.003, 0.015)
      else if String.eqb m "claude-3-haiku-20240307" then Some (0.00025, 0.00125)
      else if String.eqb m "claude-2.1" then Some (0.008, 0.024)
      else if String.eqb m "claude-2.0" then Some (0.008, 0.024)
      else if String.eqb m "claude-instant-1.2" then Some (0.0008, 0.0024)
      else None
  | ChatGPTAPI =>
      if String.eqb m "gpt-4-turbo-preview" then Some (0.01, 0.03)
      else if String.eqb m "gpt-4" then Some (0.03, 0.06)
      else if String.eqb m "gpt-4-32k" then Some (0.06, 0.12)
      else if String.eqb m "gpt-3.5-turbo" then Some (0.0005, 0.0015)
      else if String.eqb m "gpt-3.5-turbo-16k" then Some (0.003, 0.004)
      else None
  | GeminiAPI =>
      if String.eqb m "gemini-pro" then Some (0.0005, 0.0015)
      else if String.eqb m "gemini-pro-vision" then Some (0.0005, 0.0015)
      else if String.eqb m "gemini-ultra" then Some (0.001, 0.003)
      else None
  | GrokAPI =>
      if String.eqb m "grok-beta" then Some (0.0003, 0.0009)
      else if String.eqb m "grok-1" then Some (0.0005, 0.0015)
      else if String.eqb m "grok-2" then Some (0.001, 0.003)
      else None
  end%float.

(** The entry [calculateCost] uses when the model is not in its table. *)
Definition fallback_cost (a : AdapterClass) : float * float :=
  match a with
  | ClaudeAPI => (0.003, 0.015)
  | ChatGPTAPI => (0.0005, 0.0015)
  | GeminiAPI => (0.0005, 0.0015)
  | GrokAPI => (0.0003, 0.0009)
  end%float.

(** [calculateCost]. *)
Definition calculateCost (a : AdapterClass) (m : string)
    (inputTokens outputTokens : float) : float :=
  let modelCost := default (fallback_cost a) (costs a m) in
  ((inputTokens * fst modelCost + outputTokens * snd modelCost) / 1000)%float.

Definition mkResponse (p : AIProvider) (m c : string) (u : option Usage)
    (k : option float) (e : option string) (s : option bool) : AIResponse :=
  {| r_provider := p; r_model := m; r_content := c; r_usage := u; r_cost := k;
     r_error := e; r_streaming := s; r_responseTime := None |}.

(** [transformResponse]. The Gemini class takes the model from the request
    alone and defaults absent counts to 0; the Claude class adds the total up. *)
Definition transformResponse (a : AdapterClass) (data : WireData)
    (request : AIRequest) : AIResponse :=
  let content := or_string (w_text data) "" in
  let m :=
    match a with
    | GeminiAPI => or_string (model request) (default_model a)
    | _ => or_string (w_model data) (or_string (model request) (default_model a))
    end in
  let usage :=
    match a, w_usage data with
    | _, None => None
    | ClaudeAPI, Some u =>
        Some {| inputTokens := w_input u; outputTokens := w_output u;
                totalTokens := (w_input u + w_output u)%float |}
    | GeminiAPI, Some u =>
        Some {| inputTokens := or_number (Some (w_input u)) 0;
                outputTokens := or_number (Some (w_output u)) 0;
                totalTokens := or_number (Some (w_total u)) 0 |}
    | _, Some u =>
        Some {| inputTokens := w_input u; outputTokens := w_output u;
                totalTokens := w_total u |}
    end in
  mkResponse (provider_of a) m content usage
    ((fun u => calculateCost a m (inputTokens u) (outputTokens u)) <$> usage)
    None None.

(** A status as [`${status}`] prints it. *)
Definition status_text (status : Z) : string :=
  DecimalString.NilZero.string_of_int (Z.to_int status).

(** The [switch (status)] of each [handleError]. *)
Definition classify (a : AdapterClass) (status : Z)
    (data_error_message : option string) : string :=
  let other := or_string data_error_message ("HTTP " +:+ status_text status +:+ " error") in
  match a with
  | ClaudeAPI =>
      if status =? 401 then "Invalid API key"
      else if status =? 429 then "Rate limit exceeded"
      else if (status =? 500) || (status =? 502) || (status =? 503)
      then "Claude API is temporarily unavailable"
      else other
  | ChatGPTAPI =>
      if status =? 401 then "Invalid API key"
      else if status =? 429 then "Rate limit exceeded. Please try again later."
      else if (status =? 500) || (status =? 502) || (status =? 503)
      then "OpenAI API is temporarily unavailable"
      else if status =? 400 then or_string data_error_message "Bad request"
      else other
  | GeminiAPI =>
      if status =? 400 then or_string data_error_message "Invalid request"
      else if (status =? 401) || (status =? 403) then "Invalid or missing API key"
      else if status =? 404 then "Model not found"
      else if status =? 429 then "Rate limit exceeded. Please try again later."
      else if (status =? 500) || (status =? 502) || (status =? 503)
      then "Gemini API is temporarily unavailable"
      else other
  | GrokAPI =>
      if status =? 401 then "Invalid API key"
      else if status =? 403 then "Access denied. Check your API key permissions."
      else if status =? 429
      then "Rate limit exceeded. Grok has fast responses but limited rate."
      else if (status =? 500) || (status =? 502) || (status =? 503)
      then "Grok API is temporarily unavailable"
      else if status =? 400 then or_string data_error_message "Bad request"
      else other
  end.

(** [handleError]. *)
Definition handleError (a : AdapterClass) (error : Failure)
    (request : AIRequest) : AIResponse :=
  let errorMessage :=
    match error with
    | WithResponse status data_error_message =>
        classify a status data_error_message
    | WithoutResponse e => message e
    end in
  mkResponse (provider_of a) (or_string (model request) (default_model a))
    "" None None (Some errorMessage) None.

(** [sendRequest]: everything is inside [try], and the [catch] returns. *)
Definition sendRequest (a : AdapterClass) (request : AIRequest)
    (outcome : Outcome) : AIResponse :=
  match outcome with
  | Fulfilled data => transformResponse a data request
  | Rejected error => handleError a error request
  end.

End Adapter.

(** ** The dispatch manager (src/background/apiManager.ts) *)

Module Manager.

Record StreamChunk := {
  delta : string;
  finished : bool;
  sc_provider : AIProvider;
  sc_model : string;
}.

(** What the manager hands to [sendStreamChunk] and [sendStreamEnd]: the
    type and the payload of the message for the content script. *)
Inductive Notification :=
| STREAM_CHUNK (requestId : string) (chunk : StreamChunk)
| STREAM_END (requestId : string).

(** The fields of an [APIManager]. An [AbortController] is an object with
    an identity, here a number; [aborted] holds the controllers whose signal
    is aborted. [notified] lists the calls of [sendStreamChunk] and
    [sendStreamEnd], in their order: a call is not awaited, and all it does
    at once is to ask for the active tab; what it sends, and whether it
    sends anything, is [forward] below. *)
Record State := {
  providers : gmap AIProvider Adapter.AdapterClass;
  activeRequests : gmap string nat;
  aborted : gset nat;
  notified : list Notification;
}.

(** The manager as its constructor leaves it. *)
Definition init : State := {|
  providers :=
    <[grok := Adapter.GrokAPI]> (<[gemini := Adapter.GeminiAPI]>
    (<[chatgpt := Adapter.ChatGPTAPI]> (<[claude := Adapter.ClaudeAPI]> ∅)));
  activeRequests := ∅;
  aborted := ∅;
  notified := [];
|}.

Definition with_active (r : gmap string nat) (m : State) : State :=
  {| providers := providers m; activeRequests := r; aborted := aborted m;
     notified := notified m |}.

Definition abort (c : nat) (m : State) : State :=
  {| providers := providers m; activeRequests := activeRequests m;
     aborted := {[c]} ∪ aborted m; notified := notified m |}.

(** The call [this.sendStreamChunk(requestId, chunk)] or
    [this.sendStreamEnd(requestId)], up to its [await]. *)
Definition notify (n : Notification) (m : State) : State :=
  {| providers := providers m; activeRequests := activeRequests m;
     aborted := aborted m; notified := (notified m ++ [n])%list |}.

(** [sendStreamChunk] and [sendStreamEnd] from their [await] on.
    [activeTab] is what the query for the active tab of the current window
    came back with: the [id] of the first tab found, [None] when no tab was
    found or the tab has no [id]. The notification is sent to that tab,
    unless there is none or its [id] is 0; the result is the message of
    [chrome.tabs.sendMessage], with the tab it goes to. *)
Definition forward (activeTab : option Z) (n : Notification)
    : option (Z * Notification) :=
  match activeTab with
  | Some tabId => if tabId =? 0 then None else Some (tabId, n)
  | None => None
  end.

(** The messages that the calls [ns] send, when the query of the [i]-th
    call comes back with [tabs i], by the order of the calls. *)
Definition forwarded (tabs : nat -> option Z) (ns : list Notification)
    : list (Z * Notification) :=
  omap (fun x => x) (imap (fun i n => forward (tabs i) n) ns).

(** [cancelRequest]. *)
Definition cancelRequest (requestId : string) (m : State) : State :=
  match activeRequests m !! requestId with
  | Some controller =>
      with_active (delete requestId (activeRequests m)) (abort controller m)
  | None => m
  end.

(** [cancelAllRequests]. *)
Definition cancelAllRequests (m : State) : State :=
  {| providers := providers m;
     activeRequests := ∅;
     aborted := map_fold (fun _ c s => {[c]} ∪ s) (aborted m) (activeRequests m);
     notified := notified m |}.

(** What another task may do to the manager while a call is suspended at an
    [await]: cancel, or be another [sendRequest] that registers its
    controller or reaches its [finally]. *)
Inductive Step :=
| Cancel (requestId : string)
| CancelAll
| Register (requestId : string) (controller : nat)
| Unregister (requestId : string).

Definition step (m : State) (s : Step) : State :=
  match s with
  | Cancel requestId => cancelRequest requestId m
  | CancelAll => cancelAllRequests m
  | Register requestId controller =>
      with_active (<[requestId := controller]> (activeRequests m)) m
  | Unregister requestId => with_active (delete requestId (activeRequests m)) m
  end.

Definition run (steps : list Step) (m : State) : State := foldl step m steps.

(** What one [sendRequest] meets: the id and controller it creates, the
    clock, what the adapter call yields, and what other tasks do meanwhile.
    [chunks] are the deliveries of a streaming call, each after the steps
    that precede it; [final] is what [streamRequest] settles with. *)
Record Call := {
  requestId : string;
  controller : nat;
  startTime : Z;
  endTime : Z;
  chunks : list (list Step * StreamChunk);
  during : list Step;
  unary : Adapter.Outcome;
  final : Completion AIResponse;
}.

Definition cancelled : JS.Error := new_Error "Request was cancelled".

(** The [onChunk] callback of [handleStreamingRequest], over the deliveries:
    the accumulated content, and whether the promise was rejected. *)
Fixpoint deliver (id : string) (c : nat) (cs : list (list Step * StreamChunk))
    (fullContent : string) (rejected : bool) (m : State)
    : string * bool * State :=
  match cs with
  | [] => (fullContent, rejected, m)
  | (steps, chunk) :: cs' =>
      let m1 := run steps m in
      if bool_decide (c ∈ aborted m1) then
        deliver id c cs' fullContent true m1
      else
        deliver id c cs' (fullContent +:+ delta chunk) rejected
          (notify (STREAM_CHUNK id chunk) m1)
  end.

(** [handleStreamingRequest]: a promise settles once, so a rejection from
    [onChunk] stands whatever [streamRequest] yields afterwards. *)
Definition handleStreamingRequest (call : Call) (m : State)
    : Completion AIResponse * State :=
  let '(fullContent, rejected, m1) :=
    deliver (requestId call) (controller call) (chunks call) "" false m in
  let m2 := run (during call) m1 in
  match final call with
  | Return finalResponse =>
      let m3 := notify (STREAM_END (requestId call)) m2 in
      let resolved :=
        {| r_provider := r_provider finalResponse;
           r_model := r_model finalResponse;
           r_content := fullContent;
           r_usage := r_usage finalResponse;
           r_cost := r_cost finalResponse;
           r_error := r_error finalResponse;
           r_streaming := Some true;
           r_responseTime := r_responseTime finalResponse |} in
      (if rejected then Throw cancelled else Return resolved, m3)
  | Throw e => (if rejected then Throw cancelled else Throw e, m2)
  end.

Definition with_responseTime (t : Z) (r : AIResponse) : AIResponse :=
  {| r_provider := r_provider r; r_model := r_model r; r_content := r_content r;
     r_usage := r_usage r; r_cost := r_cost r; r_error := r_error r;
     r_streaming := r_streaming r; r_responseTime := Some t |}.

(** The [try] block of [sendRequest], with its [catch]. *)
Definition attempt (a : Adapter.AdapterClass) (call : Call)
    (request : AIRequest) (m : State) : Completion AIResponse * State :=
  let '(r, m') :=
    if bool_decide (stream request = Some true) then
      handleStreamingRequest call m
    else
      (Return (Adapter.sendRequest a request (unary call)), run (during call) m) in
  match r with
  | Return response =>
      (Return (with_responseTime (endTime call - startTime call) response), m')
  | Throw error =>
      (if String.eqb (name error) "AbortError" then Throw cancelled
       else Throw error, m')
  end.

(** [sendRequest], for the request [{...request, provider, apiKey, settings}].
    The [finally] runs however the [try] block ends. *)
Definition sendRequest (call : Call) (request : AIRequest)
    (provider : AIProvider) (m : State) : Completion AIResponse * State :=
  match providers m !! provider with
  | None =>
      (Throw (new_Error ("Unknown provider: " +:+ AIProvider_name provider)), m)
  | Some a =>
      let m1 :=
        with_active (<[requestId call := controller call]> (activeRequests m)) m in
      let '(r, m2) := attempt a call request m1 in
      (r, with_active (delete (requestId call) (activeRequests m2)) m2)
  end.

End Manager.

(** ** Text builtins: number printing, [JSON.stringify], [btoa] *)

Module Text.

Definition digits_of (z : Z) : string :=
  DecimalString.NilZero.string_of_uint (N.to_uint (Z.to_N z)).

Fixpoint zeros (n : nat) : string :=
  match n with
  | O => ""
  | S n' => String "0" (zeros n')
  end.

Fixpoint take_str (n : nat) (s : string) : string :=
  match n, s with
  | S n', String c r => String c (take_str n' r)
  | _, _ => ""
  end.

Fixpoint drop_str (n : nat) (s : string) : string :=
  match n, s with
  | S n', String _ r => drop_str n' r
  | _, _ => s
  end.

(** A string without its trailing ["0"]s. *)
Fixpoint strip_zeros (s : string) : string :=
  match s with
  | "" => ""
  | String c r =>
      match strip_zeros r with
      | "" => if Ascii.eqb c "0" then "" else String c ""
      | r' => String c r'
      end
  end.

(** Exact comparisons of [a * 2^e2 * 10^e10] for positive or negative
    exponents: both sides are scaled to integers. *)
Definition scale (a e2 e10 : Z) : Z :=
  a * 2 ^ Z.max e2 0 * 10 ^ Z.max e10 0.

Definition unscale (a e2 e10 : Z) : Z :=
  a * 2 ^ Z.max (- e2) 0 * 10 ^ Z.max (- e10) 0.

Section Shortest.
(** The number [m * 2^e], with [m > 0]. *)
Variables (m e : Z).

(** [10^j <= m * 2^e]. *)
Definition above_pow10 (j : Z) : bool :=
  unscale (scale 1 0 j) e 0 <=? unscale (scale m e 0) 0 j.

Fixpoint magnitude (fuel : nat) (j : Z) : Z :=
  match fuel with
  | O => j
  | S fuel' => if above_pow10 (j + 1) then magnitude fuel' (j + 1) else j
  end.

(** [n0] with [10^(n0-1) <= m * 2^e < 10^n0]. *)
Definition decimal_exponent : Z :=
  magnitude 8 ((Z.log2 m + e) * 30103 / 100000 - 1) + 1.

(** The reals that round to [m * 2^e], in units of [2^(e-2)]: between the
    midpoints to the neighbouring floats, ends included when [m] is even. *)
Definition interval_lo : Z :=
  if (m =? 2 ^ 52) && (-1074 <? e) then 4 * m - 1 else 4 * m - 2.
Definition interval_hi : Z := 4 * m + 2.

(** [s * 10^q] rounds to [m * 2^e]. *)
Definition rounds_back (s q : Z) : bool :=
  let v := unscale (scale s 0 q) (e - 2) 0 in
  let lo := unscale (scale interval_lo (e - 2) 0) 0 q in
  let hi := unscale (scale interval_hi (e - 2) 0) 0 q in
  if Z.even m then (lo <=? v) && (v <=? hi) else (lo <? v) && (v <? hi).

(** The distance of [s * 10^q] to [m * 2^e], scaled. *)
Definition distance (s q : Z) : Z :=
  Z.abs (unscale (scale s 0 q) (e - 2) 0 - unscale (scale (4 * m) (e - 2) 0) 0 q).

(** The least number of digits [k] whose decimal [s * 10^(n0-k)] rounds
    back, with that [s]. *)
Fixpoint shortest (fuel : nat) (k : Z) : Z * Z :=
  let q := decimal_exponent - k in
  let s := unscale (scale m e 0) 0 q / unscale (scale 1 0 q) e 0 in
  match fuel with
  | O => (s, q)
  | S fuel' =>
      match rounds_back s q, rounds_back (s + 1) q with
      | true, true =>
          if distance (s + 1) q <? distance s q then (s + 1, q)
          else if distance s q <? distance (s + 1) q then (s, q)
          else if Z.even s then (s, q) else (s + 1, q)
      | true, false => (s, q)
      | false, true => (s + 1, q)
      | false, false => shortest fuel' (k + 1)
      end
  end.
End Shortest.

(** [Number::toString] for a positive finite number [m * 2^e]. *)
Definition positive_toString (m e : Z) : string :=
  let '(s, q) := shortest m e 17 1 in
  let all := digits_of s in
  let ds := strip_zeros all in
  let k := Z.of_nat (String.length ds) in
  let n := Z.of_nat (String.length all) + q in
  if (k <=? n) && (n <=? 21) then ds +:+ zeros (Z.to_nat (n - k))
  else if (0 <? n) && (n <=? 21) then
    take_str (Z.to_nat n) ds +:+ "." +:+ drop_str (Z.to_nat n) ds
  else if (-6 <? n) && (n <=? 0) then "0." +:+ zeros (Z.to_nat (- n)) +:+ ds
  else
    let ex := (if n - 1 <? 0 then "-" else "+") +:+ digits_of (Z.abs (n - 1)) in
    if k =? 1 then ds +:+ "e" +:+ ex
    else take_str 1 ds +:+ "." +:+ drop_str 1 ds +:+ "e" +:+ ex.

(** [Number::toString(x)], radix 10. *)
Definition Number_toString (x : float) : string :=
  match Prim2SF x with
  | S754_nan => "NaN"
  | S754_zero _ => "0"
  | S754_infinity s => if s then "-Infinity" else "Infinity"
  | S754_finite s m e =>
      (if s then "-" else "") +:+ positive_toString (Z.pos m) e
  end.

(** The double quote. *)
Definition dq : ascii := "034"%char.

Definition hex_digit (n : N) : ascii :=
  if (n <? 10)%N then ascii_of_N (48 + n) else ascii_of_N (87 + n).

(** [QuoteJSONString], per code unit. *)
Definition quote_char (c : ascii) : string :=
  let n := N_of_ascii c in
  if (n =? 8)%N then "\b"
  else if (n =? 9)%N then "\t"
  else if (n =? 10)%N then "\n"
  else if (n =? 12)%N then "\f"
  else if (n =? 13)%N then "\r"
  else if (n =? 34)%N then String "\" (String dq "")
  else if (n =? 92)%N then "\\"
  else if (n <? 32)%N then
    "\u00" +:+ String (hex_digit (n / 16)) (String (hex_digit (n mod 16)) "")
  else String c "".

Fixpoint quote_chars (s : string) : string :=
  match s with
  | "" => ""
  | String c r => quote_char c +:+ quote_chars r
  end.

Definition quote (s : string) : string :=
  String dq (quote_chars s) +:+ String dq "".

(** A value as [JSON.stringify] sees it. A property whose value is
    [undefined] ([None]) is left out of its object. *)
Inductive JSON :=
| JNull
| JBool (b : bool)
| JNumber (x : float)
| JString (s : string)
| JArray (items : list JSON)
| JObject (properties : list (string * option JSON)).

Definition number_text (x : float) : string :=
  match Prim2SF x with
  | S754_nan | S754_infinity _ => "null"
  | _ => Number_toString x
  end.

Definition join_comma (parts : list string) : string :=
  match parts with
  | [] => ""
  | p :: ps => foldl (fun acc q => acc +:+ "," +:+ q) p ps
  end.

(** [JSON.stringify(value)], without indentation. *)
Fixpoint JSON_stringify (v : JSON) : string :=
  match v with
  | JNull => "null"
  | JBool b => if b then "true" else "false"
  | JNumber x => number_text x
  | JString s => quote s
  | JArray items =>
      "[" +:+ join_comma
        ((fix each (l : list JSON) : list string :=
            match l with
            | [] => []
            | x :: l' => JSON_stringify x :: each l'
            end) items) +:+ "]"
  | JObject properties =>
      "{" +:+ join_comma
        ((fix each (l : list (string * option JSON)) : list string :=
            match l with
            | [] => []
            | (k, Some x) :: l' =>
                (quote k +:+ ":" +:+ JSON_stringify x) :: each l'
            | (_, None) :: l' => each l'
            end) properties) +:+ "}"
  end.

(** The base64 alphabet, by the six bits of an index, most significant first. *)
Definition sextet (b5 b4 b3 b2 b1 b0 : bool) : ascii :=
  let i := N_of_digits [b0; b1; b2; b3; b4; b5] in
  if (i <? 26)%N then ascii_of_N (65 + i)
  else if (i <? 52)%N then ascii_of_N (97 + (i - 26))
  else if (i <? 62)%N then ascii_of_N (48 + (i - 52))
  else if (i =? 62)%N then "+"%char
  else "/"%char.

(** The index of a character of the alphabet, as six bits. *)
Definition unsextet (c : ascii) : bool * bool * bool * bool * bool * bool :=
  let n := N_of_ascii c in
  let i :=
    if ((65 <=? n) && (n <=? 90))%N then (n - 65)%N
    else if ((97 <=? n) && (n <=? 122))%N then (n - 71)%N
    else if ((48 <=? n) && (n <=? 57))%N then (n + 4)%N
    else if (n =? 43)%N then 62%N
    else 63%N in
  (N.testbit i 5, N.testbit i 4, N.testbit i 3,
   N.testbit i 2, N.testbit i 1, N.testbit i 0).

(** The four characters of a group of three bytes [a], [b], [c]: the 24
    bits, six at a time. The first bit of [Ascii] is the least significant. *)
Definition quad1 (a : ascii) : ascii :=
  let '(Ascii a0 a1 a2 a3 a4 a5 a6 a7) := a in
  sextet a7 a6 a5 a4 a3 a2.

Definition quad2 (a b : ascii) : ascii :=
  let '(Ascii a0 a1 a2 a3 a4 a5 a6 a7) := a in
  let '(Ascii b0 b1 b2 b3 b4 b5 b6 b7) := b in
  sextet a1 a0 b7 b6 b5 b4.

Definition quad3 (b c : ascii) : ascii :=
  let '(Ascii b0 b1 b2 b3 b4 b5 b6 b7) := b in
  let '(Ascii c0 c1 c2 c3 c4 c5 c6 c7) := c in
  sextet b3 b2 b1 b0 c7 c6.

Definition quad4 (c : ascii) : ascii :=
  let '(Ascii c0 c1 c2 c3 c4 c5 c6 c7) := c in
  sextet c5 c4 c3 c2 c1 c0.

Definition encode3 (a b c : ascii) : string :=
  String (quad1 a) (String (quad2 a b) (String (quad3 b c) (String (quad4 c) ""))).

(** A last group of two bytes or of one is filled with zero bits and
    padded with ["="]. *)
Definition encode2 (a b : ascii) : string :=
  String (quad1 a) (String (quad2 a b) (String (quad3 b Ascii.zero) "=")).

Definition encode1 (a : ascii) : string :=
  String (quad1 a) (String (quad2 a Ascii.zero) "==").

(** [btoa], on code units up to 255. *)
Fixpoint btoa (s : string) : string :=
  match s with
  | "" => ""
  | String a "" => encode1 a
  | String a (String b "") => encode2 a b
  | String a (String b (String c r)) => encode3 a b c +:+ btoa r
  end.

End Text.

(** ** Calendar dates *)

Module Calendar.

(** The civil date of a day count since 1970-01-01 (proleptic Gregorian). *)
Definition civil_from_days (days : Z) : Z * Z * Z :=
  let z := days + 719468 in
  let era := z / 146097 in
  let doe := z - era * 146097 in
  let yoe := (doe - doe / 1460 + doe / 36524 - doe / 146096) / 365 in
  let doy := doe - (365 * yoe + yoe / 4 - yoe / 100) in
  let mp := (5 * doy + 2) / 153 in
  let d := doy - (153 * mp + 2) / 5 + 1 in
  let m := if mp <? 10 then mp + 3 else mp - 9 in
  let y := yoe + era * 400 + (if m <=? 2 then 1 else 0) in
  (y, m, d).

(** The day count of a civil date. *)
Definition days_from_civil (y m d : Z) : Z :=
  let y' := if m <=? 2 then y - 1 else y in
  let era := y' / 400 in
  let yoe := y' - era * 400 in
  let doy := (153 * (if 2 <? m then m - 3 else m + 9) + 2) / 5 + d - 1 in
  let doe := yoe * 365 + yoe / 4 - yoe / 100 + doy in
  era * 146097 + doe - 719468.

Definition pad (width : nat) (n : Z) : string :=
  let ds := Text.digits_of n in
  Text.zeros (width - String.length ds) +:+ ds.

(** The date part of [toISOString()]: four digits for the years 0 to 9999,
    a sign and six digits otherwise. *)
Definition date_text (days : Z) : string :=
  let '(y, m, d) := civil_from_days days in
  (if (0 <=? y) && (y <=? 9999) then pad 4 y
   else (if y <? 0 then "-" else "+") +:+ pad 6 (Z.abs y))
  +:+ "-" +:+ pad 2 m +:+ "-" +:+ pad 2 d.

Definition msPerDay : Z := 86400000.

(** [new Date(now).toISOString().split('T')[0]]: the date in UTC. *)
Definition isoDate (now : Z) : string := date_text (now / msPerDay).

(** The calendar date at [now] on a clock [offset] minutes ahead of UTC. *)
Definition localDate (offset now : Z) : string :=
  date_text ((now + offset * 60000) / msPerDay).

Definition digit_value (c : ascii) : option Z :=
  let n := Z.of_N (N_of_ascii c) in
  if (48 <=? n) && (n <=? 57) then Some (n - 48) else None.

(** The day count of a [YYYY-MM-DD] text. *)
Definition parse_date (s : string) : option Z :=
  match s with
  | String y1 (String y2 (String y3 (String y4 (String "-"
      (String m1 (String m2 (String "-" (String d1 (String d2 ""))))))))) =>
      match digit_value y1, digit_value y2, digit_value y3, digit_value y4,
            digit_value m1, digit_value m2, digit_value d1, digit_value d2 with
      | Some a, Some b, Some c, Some d, Some e, Some f, Some g, Some h =>
          Some (days_from_civil (1000 * a + 100 * b + 10 * c + d)
                  (10 * e + f) (10 * g + h))
      | _, _, _, _, _, _, _, _ => None
      end
  | _ => None
  end.

End Calendar.

(** ** The background entry points (src/background/index.ts) *)

Module Dispatch.

Definition tokens_json (t : Tokens) : Text.JSON :=
  Text.JObject [("input", Some (Text.JNumber (tk_input t)));
                ("output", Some (Text.JNumber (tk_output t)))].

Definition message_json (m : AIMessage) : Text.JSON :=
  Text.JObject [
    ("role", Some (Text.JString (Role_name (role m))));
    ("content", Some (Text.JString (content m)));
    ("timestamp", Text.JNumber <$> timestamp m);
    ("provider", (fun p => Text.JString (AIProvider_name p)) <$> msg_provider m);
    ("model", Text.JString <$> msg_model m);
    ("tokens", tokens_json <$> tokens m);
    ("cost", Text.JNumber <$> cost m)
  ].

(** The object [generateCacheKey] serializes: five fields of the request
    as it was received. *)
Definition cacheKey_json (request : AIRequest) : Text.JSON :=
  Text.JObject [
    ("provider",
       (fun p => Text.JString (AIProvider_name p)) <$> provider request);
    ("model", Text.JString <$> model request);
    ("messages", Some (Text.JArray (message_json <$> messages request)));
    ("temperature", Text.JNumber <$> temperature request);
    ("maxTokens", Text.JNumber <$> maxTokens request)
  ].

(** The text of the key object up to the name of a provider. *)
Definition key_prefix (p : AIProvider) : string :=
  "{" +:+ Text.quote "provider" +:+ ":" +:+ Text.quote (AIProvider_name p).

(** [generateCacheKey]. *)
Definition generateCacheKey (request : AIRequest) : string :=
  Text.btoa (Text.JSON_stringify (cacheKey_json request)).

(** The statistics [trackUsage] starts from when none are stored. *)
Definition emptyUsage : Storage.UsageStats := {|
  Storage.totalRequests := 0;
  Storage.totalTokens_input := 0;
  Storage.totalTokens_output := 0;
  Storage.totalCost := 0;
  Storage.byProvider := ∅;
  Storage.dailyUsage := [];
|}.

Definition emptyProviderUsage : Storage.ProviderUsage := {|
  Storage.pu_requests := 0;
  Storage.pu_tokens_input := 0;
  Storage.pu_tokens_output := 0;
  Storage.pu_cost := 0;
  Storage.pu_errors := 0;
  Storage.pu_averageResponseTime := 0;
|}.

(** [x += response.usage.f || 0], when the response has a usage. *)
Definition add_tokens (x : float) (f : Usage -> float) (response : AIResponse) : float :=
  match r_usage response with
  | Some u => (x + or_number (Some (f u)) 0)%float
  | None => x
  end.

(** [x += response.cost], when the cost is truthy. *)
Definition add_cost (x : float) (response : AIResponse) : float :=
  match r_cost response with
  | Some c => if truthy_number c then (x + c)%float else x
  | None => x
  end.

(** The "Update provider stats" block. *)
Definition updateProvider (response : AIResponse) (pu : Storage.ProviderUsage)
    : Storage.ProviderUsage := {|
  Storage.pu_requests := Storage.pu_requests pu + 1;
  Storage.pu_tokens_input := add_tokens (Storage.pu_tokens_input pu) inputTokens response;
  Storage.pu_tokens_output := add_tokens (Storage.pu_tokens_output pu) outputTokens response;
  Storage.pu_cost := add_cost (Storage.pu_cost pu) response;
  Storage.pu_errors :=
    if truthy_string (r_error response) then Storage.pu_errors pu + 1
    else Storage.pu_errors pu;
  Storage.pu_averageResponseTime := Storage.pu_averageResponseTime pu;
|}.

(** The bucket pushed when the day has none yet. *)
Definition newDay (today : string) (p : AIProvider) (response : AIResponse)
    : Storage.DailyUsage := {|
  Storage.date := today;
  Storage.du_requests := 1;
  Storage.du_tokens := or_number (totalTokens <$> r_usage response) 0;
  Storage.du_cost := or_number (r_cost response) 0;
  Storage.du_providers := {[ p := 1 ]};
|}.

(** The update of the day's bucket when [find] returns it. *)
Definition bumpDay (p : AIProvider) (response : AIResponse) (d : Storage.DailyUsage)
    : Storage.DailyUsage := {|
  Storage.date := Storage.date d;
  Storage.du_requests := Storage.du_requests d + 1;
  Storage.du_tokens := Storage.du_tokens d;
  Storage.du_cost := (Storage.du_cost d + or_number (r_cost response) 0)%float;
  Storage.du_providers :=
    <[ p := default 0 (Storage.du_providers d !! p) + 1 ]> (Storage.du_providers d);
|}.

(** [find(d => d.date === today)] and the update of what it returns, in place. *)
Fixpoint bumpFirst (today : string) (p : AIProvider) (response : AIResponse)
    (days : list Storage.DailyUsage) : option (list Storage.DailyUsage) :=
  match days with
  | [] => None
  | d :: days' =>
      if String.eqb (Storage.date d) today then Some (bumpDay p response d :: days')
      else (fun r => d :: r) <$> bumpFirst today p response days'
  end.

(** The "Update daily usage" block, with the [slice(-30)] that follows it. *)
Definition updateDaily (today : string) (p : AIProvider) (response : AIResponse)
    (days : list Storage.DailyUsage) : list Storage.DailyUsage :=
  let days' :=
    match bumpFirst today p response days with
    | Some updated => updated
    | None => (days ++ [newDay today p response])%list
    end in
  Array_slice_from days' (-30).

(** The statistics after one more response of [p], on the day [today]. *)
Definition record (today : string) (p : AIProvider) (response : AIResponse)
    (u : Storage.UsageStats) : Storage.UsageStats := {|
  Storage.totalRequests := Storage.totalRequests u + 1;
  Storage.totalTokens_input := add_tokens (Storage.totalTokens_input u) inputTokens response;
  Storage.totalTokens_output := add_tokens (Storage.totalTokens_output u) outputTokens response;
  Storage.totalCost := add_cost (Storage.totalCost u) response;
  Storage.byProvider :=
    <[ p := updateProvider response
              (default emptyProviderUsage (Storage.byProvider u !! p)) ]>
      (Storage.byProvider u);
  Storage.dailyUsage := updateDaily today p response (Storage.dailyUsage u);
|}.

(** [trackUsage] at instant [now]. The stored object is updated in place;
    a fresh one is stored by the final [set] only. *)
Definition trackUsage (now : Z) (fails : option JS.Error) (p : AIProvider)
    (response : AIResponse) : Storage.M unit :=
  fun s =>
    let today := Calendar.isoDate now in
    let u := record today p response (default emptyUsage (Storage.usage s)) in
    match Storage.usage s, fails with
    | None, Some e => (Throw e, s)
    | _, _ => (Storage.set_result fails, Storage.with_usage (Some u) s)
    end.

(** The requests counted on [day]: those of the bucket [find] returns. *)
Definition requestsOn (day : string) (days : list Storage.DailyUsage) : Z :=
  match List.find (fun d => String.eqb (Storage.date d) day) days with
  | Some d => Storage.du_requests d
  | None => 0
  end.

(** How many days before the day of [now], in UTC, a bucket is dated. *)
Definition daysOld (now : Z) (d : Storage.DailyUsage) : option Z :=
  (fun day => now / Calendar.msPerDay - day) <$> Calendar.parse_date (Storage.date d).

(** The services of the background script, the storage service by the
    objects that its memo holds. *)
Record World := {
  store : Storage.Store;
  aiRouter : Router.State;
  apiManager : Manager.State;
}.

(** The calls to [storageService.set] that one [sendToAI] can reach. *)
Inductive SetSite := OnCacheRead | OnCacheWrite | OnUsageWrite.

(** What one [sendToAI] meets: the clock at its three readings, the storage
    failures, and the adapter call. *)
Record Env := {
  cacheReadTime : Z;
  cacheWriteTime : Z;
  usageTime : Z;
  setFails : SetSite -> option JS.Error;
  call : Manager.Call;
}.

(** A step of [sendToAI]: it updates the services and may throw. *)
Definition Task (A : Type) : Type := World -> Completion A * World.

#[global] Instance Task_ret : MRet Task := fun A a w => (Return a, w).
#[global] Instance Task_bind : MBind Task := fun A B k t w =>
  match t w with
  | (Return a, w') => k a w'
  | (Throw e, w') => (Throw e, w')
  end.

Definition throw {A} (e : JS.Error) : Task A := fun w => (Throw e, w).

Definition pure {A} (c : World -> Completion A) : Task A := fun w => (c w, w).

Definition onStore {A} (m : Storage.M A) : Task A := fun w =>
  let '(r, s) := m (store w) in
  (r, {| store := s; aiRouter := aiRouter w; apiManager := apiManager w |}).

Definition onManager {A} (m : Manager.State -> Completion A * Manager.State)
    : Task A := fun w =>
  let '(r, a) := m (apiManager w) in
  (r, {| store := store w; aiRouter := aiRouter w; apiManager := a |}).

Definition with_provider (p : AIProvider) (request : AIRequest) : AIRequest :=
  {| provider := Some p; model := model request; messages := messages request;
     temperature := temperature request; maxTokens := maxTokens request;
     topP := topP request; stream := stream request;
     systemPrompt := systemPrompt request; context := context request |}.

(** "Determine which provider to use": the request's own provider when it
    has one, else the router's choice or the default provider. *)
Definition resolveProvider (request : AIRequest) : Task AIProvider :=
  pure (fun w =>
    let settings := Storage.getSettings (store w) in
    match provider request with
    | Some p => Return p
    | None =>
        if autoRouting settings then Router.route (aiRouter w) settings request
        else Return (defaultProvider settings)
    end).

(** The [try] block of [sendToAI], on a request object and on the objects
    that the memo of the storage service holds. *)
Definition attempt (env : Env) (request : AIRequest) : Task AIResponse :=
  p ← resolveProvider request;
  settings ← pure (fun w => Return (Storage.getSettings (store w)));
  apiKey ← pure (fun w => Return (Storage.getAPIKey (store w) p));
  _ ← (if truthy_string apiKey then mret tt
       else throw (new_Error ("API key not found for " +:+ AIProvider_name p)));
  cached ← (if cacheResponses settings then
              onStore (Storage.getCachedResponse (cacheReadTime env)
                         (setFails env OnCacheRead) (generateCacheKey request))
            else mret None);
  match cached with
  | Some entry => mret (Storage.response entry)
  | None =>
      response ← onManager (Manager.sendRequest (call env) (with_provider p request) p);
      _ ← (if cacheResponses settings && negb (truthy_string (r_error response)) then
             onStore (Storage.setCachedResponse (cacheWriteTime env)
                        (setFails env OnCacheWrite) (generateCacheKey request)
                        response p)
           else mret tt);
      _ ← onStore (trackUsage (usageTime env) (setFails env OnUsageWrite) p response);
      mret response
  end.

(** The response the [catch] of [sendToAI] builds. *)
Definition errorResponse (request : AIRequest) (error : JS.Error) : AIResponse := {|
  r_provider := default claude (provider request);
  r_model := or_string (model request) "";
  r_content := "";
  r_usage := None;
  r_cost := None;
  r_error := Some (message error);
  r_streaming := None;
  r_responseTime := None;
|}.

(** [sendToAI] on a request object, where its [catch] returns, and on the
    objects that the memo of the storage service holds. The call as
    [handleMessage] makes it, with what the payload has for a request, and
    with the cache as it reads back once the memo has timed out, is
    [Entry.sendToAI] below. *)
Definition sendToAI (env : Env) (request : AIRequest) (w : World)
    : AIResponse * World :=
  match attempt env request w with
  | (Return response, w') => (response, w')
  | (Throw error, w') => (errorResponse request error, w')
  end.

End Dispatch.

(** ** The memo of the storage service and the copy in [chrome.storage]
    (src/services/storage.ts) *)

Module Service.

(** The cache object as [get('cache', 'local')] hands it out: with the
    [Map] that the service put in it, or, when it was read back from
    [chrome.storage], with a plain object in its place, whose properties
    are listed in their order. *)
Inductive Held :=
| AsMap (c : Storage.ResponseCache)
| AsObject (c : Storage.ResponseCache).

(** [cacheTimeout]. *)
Definition cacheTimeout : Z := 5000.

(** What [chrome.storage] keeps of the cache object it is given: a [Map]
    has no enumerable property of its own and is stored as the empty
    object; the other fields are numbers. *)
Definition stored (value : Held) : Storage.ResponseCache :=
  match value with
  | AsMap c => Storage.with_entries [] c
  | AsObject c => c
  end.

(** The service, for the key [cache]: the entry of its memo, which is the
    object it handed out or was given last with the instant of that, and
    the value [chrome.storage.local] holds, as it reads back. *)
Record State := {
  memo : option (Held * Z);
  saved : option Storage.ResponseCache;
}.

(** Nothing stored, nothing remembered. *)
Definition init : State := {| memo := None; saved := None |}.

(** What [chrome.storage] does during one call of the service: whether its
    [get] fails, the error its [set] fails with, if it does, and whether
    the change event of the write reaches the listener of the service,
    which drops the memo entry of the key, only after the promise of the
    write has resolved. *)
Record Platform := {
  getFails : bool;
  setFails : option JS.Error;
  changedLate : bool;
}.

(** A storage that works, with its events in time. *)
Definition reliable : Platform :=
  {| getFails := false; setFails := None; changedLate := false |}.

(** The object in the memo is the one the caller updates. *)
Definition with_held (value : Held) (st : State) : State :=
  match memo st with
  | Some (_, timestamp) => {| memo := Some (value, timestamp); saved := saved st |}
  | None => st
  end.

(** [get('cache', 'local')] at the instant [now]: the memo entry while it
    is less than [cacheTimeout] old, else the copy of [chrome.storage],
    which is remembered in turn; [null], here [None], when the read fails
    or nothing is stored. *)
Definition get (now : Z) (io : Platform) (st : State) : option Held * State :=
  let read :=
    if getFails io then (None, st)
    else
      match saved st with
      | Some c =>
          (Some (AsObject c),
           {| memo := Some (AsObject c, now); saved := saved st |})
      | None => (None, st)
      end in
  match memo st with
  | Some (value, timestamp) =>
      if now - timestamp <? cacheTimeout then (Some value, st) else read
  | None => read
  end.

(** [set('cache', value, 'local')] at the instant [now]. *)
Definition set (now : Z) (io : Platform) (value : Held) (st : State)
    : Completion unit * State :=
  match setFails io with
  | Some e => (Throw e, st)
  | None =>
      (Return tt,
       {| memo := if changedLate io then None else Some (value, now);
          saved := Some (stored value) |})
  end.

(** [remove('cache', 'local')], which is [clearCache]. *)
Definition remove (fails : option JS.Error) (st : State)
    : Completion unit * State :=
  match fails with
  | Some e => (Throw e, st)
  | None => (Return tt, init)
  end.

(** [cache.entries = new Map(Object.entries(cache.entries))] when the
    entries are not a [Map]. *)
Definition asMap (value : Held) : Storage.ResponseCache :=
  match value with
  | AsMap c => c
  | AsObject c =>
      Storage.with_entries
        (foldl (fun m kv => Storage.Map_set kv.1 kv.2 m) [] (Storage.entries c)) c
  end.

(** The error of calling [cache.entries.get] on a plain object, in the
    words of V8 for the source as it is written. *)
Definition notAMap : JS.Error :=
  new_TypeError "cache.entries.get is not a function".

(** [removeCachedResponse] at the instant [now]. *)
Definition removeCachedResponse (now : Z) (io : Platform) (k : string)
    (st : State) : Completion unit * State :=
  let '(cache, st1) := get now io st in
  match cache with
  | None => (Return tt, st1)
  | Some value =>
      let c := asMap value in
      let c' := Storage.with_entries (Storage.Map_delete k (Storage.entries c)) c in
      set now io (AsMap c') (with_held (AsMap c') st1)
  end.

(** [getCachedResponse] at the instant [now]. There is no conversion here:
    on a copy read back from [chrome.storage], [cache.entries.get] is not
    a function. *)
Definition getCachedResponse (now : Z) (io : Platform) (k : string)
    (st : State) : Completion (option Storage.CachedResponse) * State :=
  let '(cache, st1) := get now io st in
  match cache with
  | None => (Return None, st1)
  | Some (AsObject _) => (Throw notAMap, st1)
  | Some (AsMap c) =>
      match Storage.Map_get k (Storage.entries c) with
      | None => (Return None, st1)
      | Some entry =>
          if Storage.ttl c <? now - Storage.timestamp entry then
            let '(r, st2) := removeCachedResponse now io k st1 in
            (_ ← r; Return None, st2)
          else
            let entry' := Storage.with_hits (Storage.hits entry + 1) entry in
            let c' :=
              Storage.with_entries
                (Storage.Map_set k entry' (Storage.entries c)) c in
            let '(r, st2) := set now io (AsMap c') (with_held (AsMap c') st1) in
            (_ ← r; Return (Some entry'), st2)
      end
  end.

(** [setCachedResponse] at the instant [now]. *)
Definition setCachedResponse (now : Z) (io : Platform) (k : string)
    (r : AIResponse) (p : AIProvider) (st : State)
    : Completion unit * State :=
  let '(cache, st1) := get now io st in
  let c :=
    match cache with
    | Some value => asMap value
    | None => {| Storage.entries := []; Storage.maxSize := 100;
                 Storage.ttl := 3600000 |}
    end in
  let entry := {| Storage.key := k; Storage.response := r;
                  Storage.timestamp := now; Storage.hits := 0;
                  Storage.provider := p |} in
  let c2 :=
    Storage.enforce_maxSize
      (Storage.with_entries (Storage.Map_set k entry (Storage.entries c)) c) in
  let st2 :=
    match cache with
    | Some _ => with_held (AsMap c2) st1
    | None => st1
    end in
  set now io (AsMap c2) st2.

(** The cache object that [setCachedResponse] writes into: the one that
    [get] hands back, its entries made a [Map], or a new one. *)
Definition opened (now : Z) (io : Platform) (st : State) : Storage.ResponseCache :=
  match fst (get now io st) with
  | Some value => asMap value
  | None => {| Storage.entries := []; Storage.maxSize := 100;
               Storage.ttl := 3600000 |}
  end.

(** The cache object of the memo, when it holds one with a [Map]. *)
Definition held (st : State) : option Storage.ResponseCache :=
  match memo st with
  | Some (AsMap c, _) => Some c
  | _ => None
  end.

(** A write of the cache, at an instant. *)
Record Write := {
  w_now : Z;
  w_key : string;
  w_response : AIResponse;
  w_provider : AIProvider;
}.

(** The entry that a write makes. *)
Definition entry_of (w : Write) : Storage.CachedResponse :=
  {| Storage.key := w_key w; Storage.response := w_response w;
     Storage.timestamp := w_now w; Storage.hits := 0;
     Storage.provider := w_provider w |}.

(** The service when the write [w] is all it holds: its entry in the cache
    object of the memo, and a copy without entries in [chrome.storage]. *)
Definition alone (w : Write) : State :=
  {| memo :=
       Some (AsMap {| Storage.entries := [(w_key w, entry_of w)];
                      Storage.maxSize := 100; Storage.ttl := 3600000 |},
             w_now w);
     saved :=
       Some {| Storage.entries := []; Storage.maxSize := 100;
               Storage.ttl := 3600000 |} |}.

(** Writes one after the other, on a storage that works. *)
Definition write (st : State) (w : Write) : State :=
  snd (setCachedResponse (w_now w) reliable (w_key w) (w_response w)
         (w_provider w) st).

Definition writes (ws : list Write) (st : State) : State := foldl write st ws.

(** Every write but the first comes after the one before it, and less
    than [cacheTimeout] after it. *)
Fixpoint close (ws : list Write) : bool :=
  match ws with
  | [] => true
  | w :: ws' =>
      match ws' with
      | [] => true
      | w' :: _ => (0 <=? w_now w' - w_now w) && (w_now w' - w_now w <? cacheTimeout)
      end && close ws'
  end.

(** Every write but the first comes [cacheTimeout] or more after the one
    before it. *)
Fixpoint spaced (ws : list Write) : bool :=
  match ws with
  | [] => true
  | w :: ws' =>
      match ws' with
      | [] => true
      | w' :: _ => cacheTimeout <=? w_now w' - w_now w
      end && spaced ws'
  end.

End Service.

(** ** [sendToAI] as it is called (src/background/index.ts) *)

Module Entry.

(** The services of the background script: what [get] hands back for the
    settings and the statistics, the outcome of [getAPIKey] per provider,
    the storage service for the key [cache], the router and the manager. *)
Record World := {
  settings : option ExtensionSettings;
  apiKeys : AIProvider -> option string;
  usage : option Storage.UsageStats;
  cache : Service.State;
  aiRouter : Router.State;
  apiManager : Manager.State;
}.

(** What one [sendToAI] meets: the clock at its three readings, what
    [chrome.storage] does at each of the three places that reach it, and
    the adapter call. *)
Record Env := {
  cacheReadTime : Z;
  cacheWriteTime : Z;
  usageTime : Z;
  chrome : Dispatch.SetSite -> Service.Platform;
  call : Manager.Call;
}.

(** A step of [sendToAI]: it updates the services and may throw. *)
Definition Task (A : Type) : Type := World -> Completion A * World.

#[global] Instance Task_ret : MRet Task := fun A a w => (Return a, w).
#[global] Instance Task_bind : MBind Task := fun A B k t w =>
  match t w with
  | (Return a, w') => k a w'
  | (Throw e, w') => (Throw e, w')
  end.

Definition throw {A} (e : JS.Error) : Task A := fun w => (Throw e, w).

Definition pure {A} (c : World -> Completion A) : Task A := fun w => (c w, w).

Definition onCache {A} (m : Service.State -> Completion A * Service.State)
    : Task A := fun w =>
  let '(r, c) := m (cache w) in
  (r, {| settings := settings w; apiKeys := apiKeys w; usage := usage w;
         cache := c; aiRouter := aiRouter w; apiManager := apiManager w |}).

Definition onManager {A} (m : Manager.State -> Completion A * Manager.State)
    : Task A := fun w =>
  let '(r, a) := m (apiManager w) in
  (r, {| settings := settings w; apiKeys := apiKeys w; usage := usage w;
         cache := cache w; aiRouter := aiRouter w; apiManager := a |}).

(** [getSettings]. *)
Definition getSettings (w : World) : ExtensionSettings :=
  default Storage.getDefaultSettings (settings w).

(** [trackUsage] at instant [now]. The object that [get] handed back is
    updated in place; a fresh one is kept by the final [set] only. *)
Definition trackUsage (now : Z) (fails : option JS.Error) (p : AIProvider)
    (response : AIResponse) : Task unit :=
  fun w =>
    let today := Calendar.isoDate now in
    let u := Dispatch.record today p response
               (default Dispatch.emptyUsage (usage w)) in
    let w' := {| settings := settings w; apiKeys := apiKeys w; usage := Some u;
                 cache := cache w; aiRouter := aiRouter w;
                 apiManager := apiManager w |} in
    match usage w, fails with
    | None, Some e => (Throw e, w)
    | _, _ => (Storage.set_result fails, w')
    end.

(** The error of reading a property of [undefined], in the words of V8. *)
Definition undefinedHas (property : string) : JS.Error :=
  new_TypeError
    ("Cannot read properties of undefined (reading '" +:+ property +:+ "')").

(** "Determine which provider to use": the provider of the request when it
    has one, else the choice of the router or the default provider. *)
Definition resolveProvider (settings : ExtensionSettings) (request : AIRequest)
    : Task AIProvider :=
  pure (fun w =>
    match provider request with
    | Some p => Return p
    | None =>
        if autoRouting settings then Router.route (aiRouter w) settings request
        else Return (defaultProvider settings)
    end).

(** The [try] block of [sendToAI]. The request is what the caller passes:
    [None] is [undefined], which [handleMessage] passes when the payload
    of the message has no [request]. *)
Definition attempt (env : Env) (request : option AIRequest) : Task AIResponse :=
  settings ← pure (fun w => Return (getSettings w));
  request ← match request with
            | Some request => mret request
            | None => throw (undefinedHas "provider")
            end;
  p ← resolveProvider settings request;
  apiKey ← pure (fun w => Return (apiKeys w p));
  _ ← (if truthy_string apiKey then mret tt
       else throw (new_Error ("API key not found for " +:+ AIProvider_name p)));
  cached ← (if cacheResponses settings then
              onCache (Service.getCachedResponse (cacheReadTime env)
                         (chrome env Dispatch.OnCacheRead)
                         (Dispatch.generateCacheKey request))
            else mret None);
  match cached with
  | Some entry => mret (Storage.response entry)
  | None =>
      response ← onManager (Manager.sendRequest (call env)
                              (Dispatch.with_provider p request) p);
      _ ← (if cacheResponses settings && negb (truthy_string (r_error response))
           then
             onCache (Service.setCachedResponse (cacheWriteTime env)
                        (chrome env Dispatch.OnCacheWrite)
                        (Dispatch.generateCacheKey request) response p)
           else mret tt);
      _ ← trackUsage (usageTime env)
            (Service.setFails (chrome env Dispatch.OnUsageWrite)) p response;
      mret response
  end.

(** The [catch] block of [sendToAI]: it reads [request.provider] and
    [request.model], and so throws in its turn when there is no request. *)
Definition recover (request : option AIRequest) (error : JS.Error)
    : Completion AIResponse :=
  match request with
  | Some request => Return (Dispatch.errorResponse request error)
  | None => Throw (undefinedHas "provider")
  end.

(** [sendToAI]. *)
Definition sendToAI (env : Env) (request : option AIRequest) (w : World)
    : Completion AIResponse * World :=
  match attempt env request w with
  | (Return response, w') => (Return response, w')
  | (Throw error, w') => (recover request error, w')
  end.

(** The services of [Dispatch] as the background script has them while
    the memo of the storage service holds the cache object, since the
    instant [t]; nothing is remembered when no cache is stored. *)
Definition serving (t : Z) (w : Dispatch.World) : World := {|
  settings := Storage.settings (Dispatch.store w);
  apiKeys := Storage.apiKeys (Dispatch.store w);
  usage := Storage.usage (Dispatch.store w);
  cache :=
    match Storage.cache (Dispatch.store w) with
    | Some c =>
        {| Service.memo := Some (Service.AsMap c, t);
           Service.saved := Some (Storage.with_entries [] c) |}
    | None => Service.init
    end;
  aiRouter := Dispatch.aiRouter w;
  apiManager := Dispatch.apiManager w;
|}.

(** What [Dispatch] meets, on a [chrome.storage] whose reads work and whose
    change events are in time. *)
Definition onPlatform (env : Dispatch.Env) : Env := {|
  cacheReadTime := Dispatch.cacheReadTime env;
  cacheWriteTime := Dispatch.cacheWriteTime env;
  usageTime := Dispatch.usageTime env;
  chrome := fun site =>
    {| Service.getFails := false;
       Service.setFails := Dispatch.setFails env site;
       Service.changedLate := false |};
  call := Dispatch.call env;
|}.

End Entry.

(** ** The routing policy as the specification words it *)

Module Policy.

(** "composite = 0.4 capability + 0.3 preference + 0.2 cost + 0.1 speed". *)
Definition composite (f : Factors) : float :=
  (0.4 * capabilityMatch f + 0.3 * userPreference f +
   0.2 * costEfficiency f + 0.1 * responseSpeed f)%float.

End Policy.

(** ** Sample inputs *)

Module Sample.

Definition say (r : Role) (text : string) : AIMessage := {|
  role := r; content := text; timestamp := None; msg_provider := None;
  msg_model := None; tokens := None; cost := None;
|}.

(** A request of one user message, with or without a provider. *)
Definition ask (p : option AIProvider) (text : string) : AIRequest := {|
  provider := p; model := None; messages := [say user text];
  temperature := None; maxTokens := None; topP := None; stream := None;
  systemPrompt := None; context := None;
|}.

(** The default settings with some providers switched off. *)
Definition only (on : AIProvider -> bool) : ExtensionSettings := {|
  defaultProvider := defaultProvider Storage.getDefaultSettings;
  autoRouting := autoRouting Storage.getDefaultSettings;
  providers := fun p =>
    {| enabled := on p;
       ps_model := ps_model (providers Storage.getDefaultSettings p);
       ps_temperature := ps_temperature (providers Storage.getDefaultSettings p);
       ps_maxTokens := ps_maxTokens (providers Storage.getDefaultSettings p) |};
  cacheResponses := cacheResponses Storage.getDefaultSettings;
  cacheTTL := cacheTTL Storage.getDefaultSettings;
  concurrentRequests := concurrentRequests Storage.getDefaultSettings;
|}.

(** An answer of [p] with the text [text]. *)
Definition answer (p : AIProvider) (text : string) : AIResponse :=
  Adapter.mkResponse p "m" text None None None None.

(** A store with nothing in it. *)
Definition emptyStore : Storage.Store := {|
  Storage.settings := None; Storage.apiKeys := fun _ => None;
  Storage.usage := None; Storage.cache := None;
|}.

(** A store that has every key. *)
Definition keyedStore : Storage.Store := {|
  Storage.settings := None; Storage.apiKeys := fun _ => Some "sk";
  Storage.usage := None; Storage.cache := None;
|}.

Definition piece (text : string) : Manager.StreamChunk := {|
  Manager.delta := text; Manager.finished := false;
  Manager.sc_provider := claude; Manager.sc_model := "m";
|}.

(** A unary call whose HTTP request is answered with the text [text]. *)
Definition answered (id : string) (text : string) : Manager.Call := {|
  Manager.requestId := id; Manager.controller := 1;
  Manager.startTime := 100; Manager.endTime := 350;
  Manager.chunks := []; Manager.during := [];
  Manager.unary :=
    Adapter.Fulfilled {| Adapter.w_text := Some text; Adapter.w_model := None;
                         Adapter.w_usage := None |};
  Manager.final := Throw (new_Error "not a streaming call");
|}.

(** A streaming call that is cancelled between its two chunks. *)
Definition cancelledStream : Manager.Call := {|
  Manager.requestId := "req-1"; Manager.controller := 1;
  Manager.startTime := 100; Manager.endTime := 350;
  Manager.chunks := [([], piece "He"); ([Manager.CancelAll], piece "llo")];
  Manager.during := [];
  Manager.unary := Adapter.Rejected (Adapter.WithResponse 500 None);
  Manager.final := Return (answer claude "He");
|}.

Definition streaming (request : AIRequest) : AIRequest := {|
  provider := provider request; model := model request;
  messages := messages request; temperature := temperature request;
  maxTokens := maxTokens request; topP := topP request; stream := Some true;
  systemPrompt := systemPrompt request; context := context request;
|}.

(** The services at start, with the default settings and every key. *)
Definition world : Dispatch.World := {|
  Dispatch.store := keyedStore;
  Dispatch.aiRouter := Router.init;
  Dispatch.apiManager := Manager.init;
|}.

(** The same services after the settings were saved as [settings]. *)
Definition configure (settings : ExtensionSettings) (w : Dispatch.World)
    : Dispatch.World := {|
  Dispatch.store :=
    {| Storage.settings := Some settings;
       Storage.apiKeys := Storage.apiKeys (Dispatch.store w);
       Storage.usage := Storage.usage (Dispatch.store w);
       Storage.cache := Storage.cache (Dispatch.store w) |};
  Dispatch.aiRouter := Dispatch.aiRouter w;
  Dispatch.apiManager := Dispatch.apiManager w;
|}.

(** A dispatch that starts at [t], whose storage works, and whose adapter
    call is [c]. *)
Definition env (t : Z) (c : Manager.Call) : Dispatch.Env := {|
  Dispatch.cacheReadTime := t;
  Dispatch.cacheWriteTime := t + 300;
  Dispatch.usageTime := t + 300;
  Dispatch.setFails := fun _ => None;
  Dispatch.call := c;
|}.

(** Statistics with one bucket, of the first day of 2024. *)
Definition sparseUsage : Storage.UsageStats := {|
  Storage.totalRequests := 1;
  Storage.totalTokens_input := 0;
  Storage.totalTokens_output := 0;
  Storage.totalCost := 0;
  Storage.byProvider := ∅;
  Storage.dailyUsage :=
    [{| Storage.date := "2024-01-01"; Storage.du_requests := 1;
        Storage.du_tokens := 0; Storage.du_cost := 0;
        Storage.du_providers := {[ claude := 1 ]} |}];
|}.

(** A store with those statistics. *)
Definition sparseStore : Storage.Store := {|
  Storage.settings := None; Storage.apiKeys := fun _ => None;
  Storage.usage := Some sparseUsage; Storage.cache := None;
|}.

(** 2024-06-02, 02:00:00 UTC: the evening of June 1st in New York. *)
Definition juneNight : Z := 1717293600000.

(** The offset of New York from UTC that night, in minutes. *)
Definition newYork : Z := -240.

End Sample.

(** ** More of the router (src/background/aiRouter.ts) *)

#[global] Instance TaskType_eq_dec : EqDecision TaskType.
Proof. solve_decision. Defined.

Module Fixed.

(** The integer [n] for which [n / 10^f - m * 2^e] is closest to zero, the
    larger one of two. *)
Definition nearest (m e : Z) (f : nat) : Z :=
  if 0 <=? e then m * 2 ^ e * 10 ^ Z.of_nat f
  else (2 * m * 10 ^ Z.of_nat f + 2 ^ (- e)) / (2 * 2 ^ (- e)).

(** The digits of [n] with a point before the last [f] of them. *)
Definition point (n : Z) (f : nat) : string :=
  let m := Text.digits_of n in
  match f with
  | O => m
  | _ =>
      let k := String.length m in
      let m' := if (k <=? f)%nat then Text.zeros (f + 1 - k) +:+ m else m in
      let k' := String.length m' in
      Text.take_str (k' - f) m' +:+ "." +:+ Text.drop_str (k' - f) m'
  end.

(** [Number.prototype.toFixed(f)], for [f] from 0 to 100. *)
Definition Number_toFixed (x : float) (f : nat) : string :=
  match Prim2SF x with
  | S754_nan => "NaN"
  | S754_infinity s => if s then "-Infinity" else "Infinity"
  | S754_zero _ => point 0 f
  | S754_finite s m e =>
      (if s then "-" else "") +:+
      (if (0 <=? e) && (10 ^ 21 <=? Z.pos m * 2 ^ e)
       then Text.positive_toString (Z.pos m) e
       else point (nearest (Z.pos m) e f) f)
  end.

End Fixed.

Module Advice.

(** A line feed. *)
Definition nl : string := String "010"%char "".

Record Explanation := {
  recommended : AIProvider;
  scores : list RoutingScore;
  taskType : TaskType;
  explanation : string;
}.

(** The template literal of [explainRouting], for the best score. *)
Definition explain (taskType : TaskType) (best : RoutingScore) : string :=
  "Task detected as " +:+ String Text.dq (TaskType_name taskType)
    +:+ String Text.dq "." +:+ nl +:+
  "      Best provider: " +:+ AIProvider_name (rs_provider best) +:+
    " (score: " +:+ Fixed.Number_toFixed (score best) 2 +:+ ")" +:+ nl +:+
  "      - Capability match: " +:+
    Fixed.Number_toFixed (capabilityMatch (factors best)) 2 +:+ nl +:+
  "      - User preference: " +:+
    Fixed.Number_toFixed (userPreference (factors best)) 2 +:+ nl +:+
  "      - Cost efficiency: " +:+
    Fixed.Number_toFixed (costEfficiency (factors best)) 2 +:+ nl +:+
  "      - Response speed: " +:+
    Fixed.Number_toFixed (responseSpeed (factors best)) 2.

(** [explainRouting]. The template reads [sorted[0].provider] first. *)
Definition explainRouting (st : Router.State) (settings : ExtensionSettings)
    (request : AIRequest) : Completion Explanation :=
  let scores := Router.calculateScores st settings request in
  let taskType := Router.detectTaskType request in
  let sorted := Array_sort Router.by_score_desc scores in
  match sorted with
  | best :: _ =>
      Return {| recommended := rs_provider best; scores := sorted;
                taskType := taskType; explanation := explain taskType best |}
  | [] => Throw (new_TypeError
                   "Cannot read properties of undefined (reading 'provider')")
  end.

(** The update of one provider's metrics in [loadUserPreferences], for the
    statistics [stats] of that provider. *)
Definition learn (stats : Storage.ProviderUsage) (metrics : Router.Metrics)
    : Router.Metrics :=
  if 10 <? Storage.pu_requests stats then
    {| Router.avgResponseTime :=
         or_number (Some (Storage.pu_averageResponseTime stats))
           (Router.avgResponseTime metrics);
       Router.successRate :=
         (1 - number_of_Z (Storage.pu_errors stats)
              / number_of_Z (Storage.pu_requests stats))%float |}
  else metrics.

(** [loadUserPreferences], when the stored statistics are [usage]. *)
Definition loadUserPreferences (usage : option Storage.UsageStats)
    (st : Router.State) : Router.State :=
  match usage with
  | None => st
  | Some u =>
      {| Router.userPreferences := Router.userPreferences st;
         Router.performanceMetrics :=
           map_imap (fun p metrics =>
                       Some match Storage.byProvider u !! p with
                            | Some stats => learn stats metrics
                            | None => metrics
                            end)
             (Router.performanceMetrics st) |}
  end.

End Advice.

(** ** Sums over the usage statistics *)

Module Accounting.

(** A response of a provider, tracked at an instant. *)
Definition Tracked : Type := Z * AIProvider * AIResponse.

(** The store after [trackUsage] ran for each of [calls], the storage
    accepting every write. *)
Definition tracked (calls : list Tracked) (s : Storage.Store) : Storage.Store :=
  foldl (fun s c => snd (Dispatch.trackUsage c.1.1 None c.1.2 c.2 s)) s calls.

(** The requests of all providers in [byProvider]. *)
Definition providerRequests (u : Storage.UsageStats) : Z :=
  foldr (fun p n =>
           default 0 (Storage.pu_requests <$> Storage.byProvider u !! p) + n)
    0 all_providers.

(** The requests of all providers in a day's [providers]. *)
Definition dayRequests (d : Storage.DailyUsage) : Z :=
  foldr (fun p n => default 0 (Storage.du_providers d !! p) + n) 0 all_providers.

(** A bucket in which the requests of the providers add up to its requests. *)
Definition balanced (d : Storage.DailyUsage) : Prop :=
  Storage.du_requests d = dayRequests d.

(** Statistics that hold no response time. *)
Definition untimed (u : Storage.UsageStats) : Prop :=
  forall p pu, Storage.byProvider u !! p = Some pu ->
               Storage.pu_averageResponseTime pu = 0%float.

End Accounting.

(** ** Cache maintenance (src/background/index.ts, src/services/storage.ts) *)

Module Maintenance.

(** The loop of the hourly timer over the entries [es] the cache had when
    it started: an expired entry is removed by [removeCachedResponse], whose
    [set] may fail. A [Map] has no key twice, so removing the entry at hand
    leaves the ones still to come. *)
Fixpoint removeExpired (now ttl : Z) (fails : string -> option JS.Error)
    (es : list (string * Storage.CachedResponse)) : Storage.M unit :=
  match es with
  | [] => fun s => (Return tt, s)
  | (k, entry) :: es' => fun s =>
      if ttl <? now - Storage.timestamp entry then
        match Storage.removeCachedResponse (fails k) k s with
        | (Return _, s') => removeExpired now ttl fails es' s'
        | (Throw e, s') => (Throw e, s')
        end
      else removeExpired now ttl fails es' s
  end.

(** The callback of [setInterval], run at [now] with no other task in
    between. *)
Definition cleanup (now : Z) (fails : string -> option JS.Error) : Storage.M unit :=
  fun s =>
    match Storage.cache s with
    | None => (Return tt, s)
    | Some c => removeExpired now (Storage.ttl c) fails (Storage.entries c) s
    end.

(** [clearCache]: [remove] drops the key, unless the storage fails. *)
Definition clearCache (fails : option JS.Error) : Storage.M unit :=
  fun s =>
    match fails with
    | Some e => (Throw e, s)
    | None => (Return tt, Storage.with_cache None s)
    end.

(** An entry that [now] finds within the time to live [ttl]. *)
Definition live (now ttl : Z) (kv : string * Storage.CachedResponse) : bool :=
  negb (ttl <? now - Storage.timestamp kv.2).

End Maintenance.

(** ** Conversations (src/services/storage.ts, src/types/extension.ts) *)

Module Conversations.

Record Conversation := {
  id : string;
  title : string;
  provider : AIProvider;
  messages : list AIMessage;
  context : option PageContext;
  createdAt : Z;
  updatedAt : Z;
  totalCost : option float;
  totalTokens : option Tokens;
  tags : option (list string);
}.

(** What the service holds under [conversations]: [None] when nothing is
    stored. *)
Definition Stored : Type := option (list Conversation).

(** [getConversations]. *)
Definition getConversations (s : Stored) : list Conversation := default [] s.

(** [findIndex(c => c.id === i)]: [None] stands for [-1]. *)
Fixpoint findIndex (i : string) (l : list Conversation) : option nat :=
  match l with
  | [] => None
  | c :: l' => if String.eqb (id c) i then Some O else S <$> findIndex i l'
  end.

(** [find(c => c.id === i)]. *)
Definition find (i : string) (l : list Conversation) : option Conversation :=
  List.find (fun c => String.eqb (id c) i) l.

(** [saveConversation]. The array in hand is the stored one, updated in
    place; the trimmed copy is stored by the [set], which may fail. *)
Definition saveConversation (fails : option JS.Error) (conversation : Conversation)
    (s : Stored) : Completion unit * Stored :=
  let conversations := getConversations s in
  let updated :=
    match findIndex (id conversation) conversations with
    | Some index => <[index := conversation]> conversations
    | None => conversation :: conversations
    end in
  let trimmed := Array_slice updated 0 100 in
  match fails with
  | None => (Return tt, Some trimmed)
  | Some e => (Throw e, (fun _ => updated) <$> s)
  end.

(** [deleteConversation]. *)
Definition deleteConversation (fails : option JS.Error) (i : string)
    (s : Stored) : Completion unit * Stored :=
  let conversations := getConversations s in
  let filtered := List.filter (fun c => negb (String.eqb (id c) i)) conversations in
  match fails with
  | None => (Return tt, Some filtered)
  | Some e => (Throw e, s)
  end.

End Conversations.

(** ** Prompt templates (src/services/storage.ts, src/types/extension.ts) *)

Module Templates.

Inductive PromptCategory :=
| coding | writing | research | analysis | creative | translation
| summarization | general.

Inductive VariableType :=
| text_type | selection_type | url_type | title_type | date_type | custom_type.

Record PromptVariable := {
  v_name : string;
  v_description : string;
  v_type : VariableType;
  defaultValue : option string;
  required : option bool;
}.

Record PromptTemplate := {
  id : string;
  name : string;
  description : string;
  category : PromptCategory;
  template : string;
  variables : list PromptVariable;
  provider : option AIProvider;
  isBuiltIn : bool;
  createdAt : option Z;
  updatedAt : option Z;
  usageCount : option Z;
}.

Definition nl : string := String "010"%char "".

Definition selectionVariable (description : string) : PromptVariable := {|
  v_name := "selection"; v_description := description; v_type := selection_type;
  defaultValue := None; required := Some true;
|}.

Definition builtIn (i n d : string) (c : PromptCategory) (t : string)
    (v : PromptVariable) : PromptTemplate := {|
  id := i; name := n; description := d; category := c; template := t;
  variables := [v]; provider := None; isBuiltIn := true;
  createdAt := None; updatedAt := None; usageCount := None;
|}.

(** [getBuiltInPromptTemplates]. *)
Definition getBuiltInPromptTemplates : list PromptTemplate := [
  builtIn "summarize-page" "Summarize Page"
    "Create a concise summary of the current page" summarization
    ("Please summarize the following content in 3-5 bullet points:"
       +:+ nl +:+ nl +:+ "{selection}")
    (selectionVariable "Selected text or page content");
  builtIn "explain-code" "Explain Code"
    "Get a detailed explanation of selected code" coding
    ("Please explain what this code does:" +:+ nl +:+ nl +:+ "```" +:+ nl
       +:+ "{selection}" +:+ nl +:+ "```")
    (selectionVariable "Selected code");
  builtIn "improve-writing" "Improve Writing"
    "Enhance clarity and style of selected text" writing
    ("Please improve the following text for clarity and style while maintaining its original meaning:"
       +:+ nl +:+ nl +:+ "{selection}")
    (selectionVariable "Selected text")
].

(** What the service holds under [promptTemplates]. *)
Definition Stored : Type := option (list PromptTemplate).

(** [getPromptTemplates]: a stored array, even an empty one, is truthy. *)
Definition getPromptTemplates (s : Stored) : list PromptTemplate :=
  default getBuiltInPromptTemplates s.

Fixpoint findIndex (i : string) (l : list PromptTemplate) : option nat :=
  match l with
  | [] => None
  | t :: l' => if String.eqb (id t) i then Some O else S <$> findIndex i l'
  end.

Definition find (i : string) (l : list PromptTemplate) : option PromptTemplate :=
  List.find (fun t => String.eqb (id t) i) l.

(** [savePromptTemplate]. *)
Definition savePromptTemplate (fails : option JS.Error) (template : PromptTemplate)
    (s : Stored) : Completion unit * Stored :=
  let templates := getPromptTemplates s in
  let updated :=
    match findIndex (id template) templates with
    | Some index => <[index := template]> templates
    | None => (templates ++ [template])%list
    end in
  match fails with
  | None => (Return tt, Some updated)
  | Some e => (Throw e, (fun _ => updated) <$> s)
  end.

(** [deletePromptTemplate]: the filter keeps a template when its id is
    another one and it is not built in. *)
Definition deletePromptTemplate (fails : option JS.Error) (i : string)
    (s : Stored) : Completion unit * Stored :=
  let templates := getPromptTemplates s in
  let filtered :=
    List.filter (fun t => negb (String.eqb (id t) i) && negb (isBuiltIn t))
      templates in
  match fails with
  | None => (Return tt, Some filtered)
  | Some e => (Throw e, s)
  end.

End Templates.

(** ** What the adapters send (src/services/anthropic.ts, openai.ts,
    google.ts, xai.ts) *)

Module Wire.

(** The object given to [configure], as far as the adapters read it. *)
Record Config := {
  apiKey : string;
  frequencyPenalty : option float;
  presencePenalty : option float;
  enableRealTime : option bool;
  safetyThreshold : option string;
}.

Definition nl : string := String "010"%char "".

(** [parts.join(sep)]. *)
Definition join (sep : string) (parts : list string) : string :=
  match parts with
  | [] => ""
  | p :: ps => foldl (fun acc q => acc +:+ sep +:+ q) p ps
  end.

(** The [parts] of [buildContextMessage]. The Grok class adds a note for
    the addresses of X. *)
Definition contextParts (a : Adapter.AdapterClass) (c : PageContext) : list string :=
  ((if truthy_string (selection c)
    then ["Selected text: " +:+ String Text.dq (or_string (selection c) "")
            +:+ String Text.dq ""]
    else []) ++
   (if truthy_string (visibleText c) && negb (truthy_string (selection c))
    then ["Page content: " +:+ Text.take_str 1000 (or_string (visibleText c) "")
            +:+ "..."]
    else []) ++
   (if truthy_string (Some (url c))
    then ("URL: " +:+ url c) ::
         match a with
         | Adapter.GrokAPI =>
             if includes "twitter.com" (url c) || includes "x.com" (url c)
             then ["Note: This is from X (Twitter), you may have real-time information about this."]
             else []
         | _ => []
         end
    else []) ++
   (if truthy_string (Some (title c)) then ["Page title: " +:+ title c] else []))%list.

(** The text of the message [buildContextMessage] returns, if it returns one. *)
Definition buildContextMessage (a : Adapter.AdapterClass) (c : PageContext)
    : option string :=
  match contextParts a c with
  | [] => None
  | parts => Some ("Context:" +:+ nl +:+ join nl parts)
  end.

(** The role each class sends a message with. *)
Definition wireRole (a : Adapter.AdapterClass) (r : Role) : string :=
  match a, r with
  | Adapter.ClaudeAPI, system => "assistant"
  | Adapter.GeminiAPI, assistant => "model"
  | Adapter.GeminiAPI, system => "user"
  | _, _ => Role_name r
  end.

(** [transformMessages]: the roles and contents sent, with the system
    prompt where the class puts it. The Claude class is not given the prompt. *)
Definition transformMessages (a : Adapter.AdapterClass) (msgs : list AIMessage)
    (systemPrompt : option string) : list (string * string) :=
  (match a with
   | Adapter.ClaudeAPI => []
   | Adapter.GeminiAPI =>
       if truthy_string systemPrompt
       then [("user", "System: " +:+ or_string systemPrompt "");
             ("model", "Understood. I will follow these instructions.")]
       else []
   | _ =>
       if truthy_string systemPrompt
       then [("system", or_string systemPrompt "")]
       else []
   end ++ ((fun m => (wireRole a (role m), content m)) <$> msgs))%list.

(** The messages of the request body: the context message goes first for
    the Claude and Gemini classes, last for the others. *)
Definition wireMessages (a : Adapter.AdapterClass) (request : AIRequest)
    : list (string * string) :=
  let messages := transformMessages a (messages request) (systemPrompt request) in
  match context request ≫= buildContextMessage a with
  | None => messages
  | Some text =>
      match a with
      | Adapter.ClaudeAPI | Adapter.GeminiAPI => ("user", text) :: messages
      | _ => (messages ++ [("user", text)])%list
      end
  end.

(** A message as the class writes it. *)
Definition messageObject (a : Adapter.AdapterClass) (m : string * string) : Text.JSON :=
  match a with
  | Adapter.GeminiAPI =>
      Text.JObject [("role", Some (Text.JString m.1));
                    ("parts", Some (Text.JArray
                       [Text.JObject [("text", Some (Text.JString m.2))]]))]
  | _ =>
      Text.JObject [("role", Some (Text.JString m.1));
                    ("content", Some (Text.JString m.2))]
  end.

(** [getSafetySettings]. *)
Definition getSafetySettings (config : Config) : Text.JSON :=
  let threshold := or_string (safetyThreshold config) "BLOCK_MEDIUM_AND_ABOVE" in
  Text.JArray
    ((fun category =>
        Text.JObject [("category", Some (Text.JString category));
                      ("threshold", Some (Text.JString threshold))])
     <$> ["HARM_CATEGORY_HARASSMENT"; "HARM_CATEGORY_HATE_SPEECH";
          "HARM_CATEGORY_SEXUALLY_EXPLICIT"; "HARM_CATEGORY_DANGEROUS_CONTENT"]).

(** [transformRequest]: the body of the HTTP request, with its properties
    in the order they are assigned. *)
Definition transformRequest (a : Adapter.AdapterClass) (config : Config)
    (request : AIRequest) : Text.JSON :=
  let messages := Text.JArray (messageObject a <$> wireMessages a request) in
  let model := Text.JString (or_string (model request) (Adapter.default_model a)) in
  let max_tokens := Text.JNumber (or_number (maxTokens request) 4000) in
  match a with
  | Adapter.ClaudeAPI =>
      Text.JObject [
        ("model", Some model);
        ("messages", Some messages);
        ("max_tokens", Some max_tokens);
        ("temperature", Text.JNumber <$> temperature request);
        ("top_p", Text.JNumber <$> topP request);
        ("system", if truthy_string (systemPrompt request)
                   then Text.JString <$> systemPrompt request else None)
      ]
  | Adapter.ChatGPTAPI =>
      Text.JObject [
        ("model", Some model);
        ("messages", Some messages);
        ("max_tokens", Some max_tokens);
        ("temperature", Text.JNumber <$> temperature request);
        ("top_p", Text.JNumber <$> topP request);
        ("frequency_penalty", Text.JNumber <$> frequencyPenalty config);
        ("presence_penalty", Text.JNumber <$> presencePenalty config)
      ]
  | Adapter.GrokAPI =>
      Text.JObject [
        ("model", Some model);
        ("messages", Some messages);
        ("max_tokens", Some max_tokens);
        ("temperature", Text.JNumber <$> temperature request);
        ("top_p", Text.JNumber <$> topP request);
        ("tools",
           match enableRealTime config with
           | Some false => None
           | _ => Some (Text.JArray
                          [Text.JObject [("type", Some (Text.JString "search"));
                                         ("enabled", Some (Text.JBool true))]])
           end)
      ]
  | Adapter.GeminiAPI =>
      Text.JObject [
        ("contents", Some messages);
        ("generationConfig", Some (Text.JObject [
           ("temperature", Some (Text.JNumber (or_number (temperature request) 0.7)));
           ("topP", Some (Text.JNumber (or_number (topP request) 0.95)));
           ("maxOutputTokens", Some max_tokens)]));
        ("safetySettings", Some (getSafetySettings config))
      ]
  end.

(** A page context with what no adapter reads left out: the HTML, the
    visible text when there is a selection, and the visible text beyond its
    first 1000 code units. *)
Definition excerpt (c : PageContext) : PageContext := {|
  url := url c;
  title := title c;
  selection := selection c;
  visibleText :=
    if truthy_string (selection c) then None
    else Text.take_str 1000 <$> visibleText c;
  fullHtml := None;
|}.

Definition with_context (c : option PageContext) (request : AIRequest) : AIRequest :=
  {| provider := provider request; model := model request;
     messages := messages request; temperature := temperature request;
     maxTokens := maxTokens request; topP := topP request;
     stream := stream request; systemPrompt := systemPrompt request;
     context := c |}.

(** The roles a class sends messages with. *)
Definition wireRoles (a : Adapter.AdapterClass) : list string :=
  match a with
  | Adapter.ClaudeAPI => ["user"; "assistant"]
  | Adapter.GeminiAPI => ["user"; "model"]
  | _ => ["system"; "user"; "assistant"]
  end.

End Wire.

(** ** The encryption service's helpers (src/services/encryption.ts) *)

Module Encryption.

(** The code unit at a position, as [charCodeAt] gives it. *)
Definition charCode (c : ascii) : Z := Z.of_N (N_of_ascii c).

(** The loop of [secureCompare] over two strings of one length. *)
Fixpoint differences (a b : string) (result : Z) : Z :=
  match a, b with
  | String x a', String y b' =>
      differences a' b' (Z.lor result (Z.lxor (charCode x) (charCode y)))
  | _, _ => result
  end.

(** [secureCompare]. *)
Definition secureCompare (a b : string) : bool :=
  if negb (String.length a =? String.length b)%nat then false
  else differences a b 0 =? 0.

(** ASCII whitespace, which [atob] skips. *)
Definition is_space (c : ascii) : bool :=
  let n := N_of_ascii c in
  ((n =? 9) || (n =? 10) || (n =? 12) || (n =? 13) || (n =? 32))%N.

Fixpoint strip (s : string) : string :=
  match s with
  | "" => ""
  | String c r => if is_space c then strip r else String c (strip r)
  end.

(** The characters of the base64 alphabet. *)
Definition is_base64 (c : ascii) : bool :=
  let n := N_of_ascii c in
  (((65 <=? n) && (n <=? 90)) || ((97 <=? n) && (n <=? 122))
   || ((48 <=? n) && (n <=? 57)) || (n =? 43) || (n =? 47))%N.

(** A string without the one or two ["="] it ends with. *)
Fixpoint unpad (s : string) : string :=
  match s with
  | "" => ""
  | "=" => ""
  | "==" => ""
  | String c r => String c (unpad r)
  end.

(** The bytes of a group of characters of the alphabet: three of four
    characters, two of three, one of two; a single character is left over. *)
Definition byte1 (a b : ascii) : ascii :=
  let '(a5, a4, a3, a2, a1, a0) := Text.unsextet a in
  let '(b5, b4, b3, b2, b1, b0) := Text.unsextet b in
  Ascii b4 b5 a0 a1 a2 a3 a4 a5.

Definition byte2 (b c : ascii) : ascii :=
  let '(b5, b4, b3, b2, b1, b0) := Text.unsextet b in
  let '(c5, c4, c3, c2, c1, c0) := Text.unsextet c in
  Ascii c2 c3 c4 c5 b0 b1 b2 b3.

Definition byte3 (c d : ascii) : ascii :=
  let '(c5, c4, c3, c2, c1, c0) := Text.unsextet c in
  let '(d5, d4, d3, d2, d1, d0) := Text.unsextet d in
  Ascii d0 d1 d2 d3 d4 d5 c0 c1.

Fixpoint decode (s : string) : option string :=
  match s with
  | "" => Some ""
  | String a "" => None
  | String a (String b "") => Some (String (byte1 a b) "")
  | String a (String b (String c "")) =>
      Some (String (byte1 a b) (String (byte2 b c) ""))
  | String a (String b (String c (String d r))) =>
      (fun rest => String (byte1 a b) (String (byte2 b c) (String (byte3 c d) rest)))
      <$> decode r
  end.

Fixpoint all_base64 (s : string) : bool :=
  match s with
  | "" => true
  | String c r => is_base64 c && all_base64 r
  end.

(** [atob]: the forgiving decoding of base64. It throws a [DOMException]
    named [InvalidCharacterError], with a message of the browser's own. *)
Definition atob (data : string) : Completion string :=
  let invalid :=
    mkError "InvalidCharacterError"
      "The string to be decoded is not correctly encoded." in
  let stripped := strip data in
  let body :=
    if (String.length stripped mod 4 =? 0)%nat then unpad stripped else stripped in
  if (String.length body mod 4 =? 1)%nat then Throw invalid
  else if negb (all_base64 body) then Throw invalid
  else match decode body with
       | Some bytes => Return bytes
       | None => Throw invalid
       end.

(** [bufferToBase64]. *)
Definition bufferToBase64 (buffer : list Byte.byte) : string :=
  Text.btoa (string_of_list_byte buffer).

(** [base64ToBuffer]. *)
Definition base64ToBuffer (base64 : string) : Completion (list Byte.byte) :=
  binary ← atob base64; Return (list_byte_of_string binary).

(** What [atob] checks and computes, on the text that [btoa] writes for [s]. *)
Record decodes (s : string) : Prop := {
  no_space : strip (Text.btoa s) = Text.btoa s;
  in_fours : (String.length (Text.btoa s) mod 4 = 0)%nat;
  not_one : (String.length (unpad (Text.btoa s)) mod 4 =? 1)%nat = false;
  in_alphabet : all_base64 (unpad (Text.btoa s)) = true;
  read_back : decode (unpad (Text.btoa s)) = Some s;
}.

End Encryption.

(** ** The context manager (src/background/contextManager.ts) *)

Module Context.

(** A page context as the manager holds it, [metadata] included. *)
Record TabContext := {
  page : PageContext;
  metadata : option (list (string * Text.JSON));
}.

(** [tabContexts], by tab id. *)
Definition State : Type := gmap Z TabContext.

(** [getContext]: [reply] is what the content script of the tab answers
    when it is asked, [None] when the request fails or nothing comes back. *)
Definition getContext (reply : option TabContext) (tabId : Z) (st : State)
    : option TabContext * State :=
  match st !! tabId with
  | Some context => (Some context, st)
  | None =>
      match reply with
      | Some context => (Some context, <[tabId := context]> st)
      | None => (None, st)
      end
  end.

(** [updateTabContext], for a tab with the given [url] and [title]. *)
Definition updateTabContext (tabId : Z) (tab_url tab_title : option string)
    (st : State) : State :=
  let existing := st !! tabId in
  <[tabId :=
      {| page :=
           {| url := or_string tab_url "";
              title := or_string tab_title "";
              selection := existing ≫= (fun c => selection (page c));
              visibleText := existing ≫= (fun c => visibleText (page c));
              fullHtml := existing ≫= (fun c => fullHtml (page c)) |};
         metadata := existing ≫= metadata |}]> st.

(** [clearTabContext]. *)
Definition clearTabContext (tabId : Z) (st : State) : State := delete tabId st.

(** [clearAllContexts]. *)
Definition clearAllContexts (st : State) : State := ∅.

Inductive Sharing := share_none | share_selection | share_visible | share_full.

Record PrivacySettings := {
  excludedDomains : list string;
  sensitiveMode : bool;
  clearHistoryOnClose : bool;
  anonymousAnalytics : bool;
  contextSharing : Sharing;
}.

(** The [privacy] part of [getDefaultSettings]. *)
Definition defaultPrivacy : PrivacySettings := {|
  excludedDomains :=
    ["bank*"; "*banking*"; "*paypal.com"; "*stripe.com"; "*.gov";
     "*healthcare*"; "*medical*"];
  sensitiveMode := false;
  clearHistoryOnClose := false;
  anonymousAnalytics := false;
  contextSharing := share_selection;
|}.

(** [pattern.replace(/\*/g, '.*')]. *)
Fixpoint replaceStars (pattern : string) : string :=
  match pattern with
  | "" => ""
  | String c r =>
      if Ascii.eqb c "*" then String "." (String "*" (replaceStars r))
      else String c (replaceStars r)
  end.

(** The scripts [getContextWithPrivacy] can run in the tab. *)
Inductive Script := ExtractSelection | ExtractVisibleText | ExtractFullHTML.

(** What the browser answers: the tab, or the error of [chrome.tabs.get];
    [new RegExp(source).test(input)], which throws on a malformed source;
    and what each script returns, [None] when it fails. *)
Record Browser := {
  tab : Completion (option string * option string);
  RegExp_test : string -> string -> Completion bool;
  executeScript : Script -> option string;
}.

(** [excludedDomains.some(...)], which stops at the first match. *)
Fixpoint some_excluded (b : Browser) (patterns : list string) (input : string)
    : Completion bool :=
  match patterns with
  | [] => Return false
  | pattern :: rest =>
      matched ← RegExp_test b (replaceStars pattern) input;
      if (matched : bool) then Return true else some_excluded b rest input
  end.

(** [getContextWithPrivacy]: the context, and the scripts that were run in
    the tab, in order. *)
Definition getContextWithPrivacy (privacy : PrivacySettings) (b : Browser)
    : Completion (TabContext * list Script) :=
  '(tab_url, tab_title) ← tab b;
  isExcluded ← some_excluded b (excludedDomains privacy) (or_string tab_url "");
  let shared (s : Script) : option string := Some (or_string (executeScript b s) "") in
  let context (sel vis html : option string) meta := {|
    page := {| url := or_string tab_url ""; title := or_string tab_title "";
               selection := sel; visibleText := vis; fullHtml := html |};
    metadata := meta |} in
  if (isExcluded : bool) || sensitiveMode privacy then
    Return (context (Some "") (Some "") (Some "")
              (Some [("excluded", Text.JBool true)]), [])
  else
    match contextSharing privacy with
    | share_none => Return (context None None None None, [])
    | share_selection =>
        Return (context (shared ExtractSelection) None None None,
                [ExtractSelection])
    | share_visible =>
        Return (context (shared ExtractSelection) (shared ExtractVisibleText)
                  None None,
                [ExtractSelection; ExtractVisibleText])
    | share_full =>
        Return (context (shared ExtractSelection) (shared ExtractVisibleText)
                  (shared ExtractFullHTML) None,
                [ExtractSelection; ExtractVisibleText; ExtractFullHTML])
    end.

(** The scripts a sharing level allows. *)
Definition permits (level : Sharing) (s : Script) : bool :=
  match level, s with
  | share_none, _ => false
  | share_selection, ExtractSelection => true
  | share_selection, _ => false
  | share_visible, ExtractFullHTML => false
  | share_visible, _ => true
  | share_full, _ => true
  end.

End Context.

(** ** Settings updates (src/services/storage.ts) *)

Module Settings.

(** A JavaScript value as [deepMerge] can meet it. An object is the map of
    its own properties; their order, which [deepMerge] does not depend on,
    is left out. *)
Inductive Value :=
| VUndefined
| VNull
| VBool (b : bool)
| VNumber (x : float)
| VString (s : string)
| VArray (items : list Value)
| VObject (properties : gmap string Value).

(** Truthiness. *)
Definition truthy (v : Value) : bool :=
  match v with
  | VUndefined | VNull => false
  | VBool b => b
  | VNumber x => truthy_number x
  | VString s => negb (String.eqb s "")
  | VArray _ | VObject _ => true
  end.

(** The name of the property at an index. *)
Definition indexName (i : nat) : string := Text.digits_of (Z.of_nat i).

(** The properties at the indices of a sequence. *)
Definition indexed (items : list Value) : gmap string Value :=
  list_to_map (imap (fun i v => (indexName i, v)) items).

Fixpoint characters (s : string) : list Value :=
  match s with
  | "" => []
  | String c r => VString (String c "") :: characters r
  end.

(** [{ ...v }]: the own enumerable properties of a value. *)
Definition spread (v : Value) : gmap string Value :=
  match v with
  | VObject properties => properties
  | VArray items => indexed items
  | VString s => indexed (characters s)
  | _ => ∅
  end.

(** [result[key] || {}]. *)
Definition or_empty (current : option Value) : Value :=
  match current with
  | Some c => if truthy c then c else VObject ∅
  | None => VObject ∅
  end.

(** What the loop of [deepMerge] assigns to [result[key]] for the source
    value [v], when [result[key]] was [current]: for an object that is
    neither [null] nor an array, the merge of [current || {}] with it; for
    anything else, the value itself. Property names are other than
    [__proto__]. *)
Fixpoint assign (current : option Value) (v : Value) {struct v} : Value :=
  match v with
  | VObject source =>
      let result := spread (or_empty current) in
      VObject (map_imap (fun key v' => Some (assign (result !! key) v')) source
               ∪ result)
  | _ => v
  end.

(** [deepMerge(target, source)], for a source that is an object. *)
Definition deepMerge (target : Value) (source : gmap string Value)
    : gmap string Value :=
  let result := spread target in
  map_imap (fun key v => Some (assign (result !! key) v)) source ∪ result.

(** [a.k1.k2...], by own properties. *)
Fixpoint get_path (path : list string) (v : Value) : option Value :=
  match path with
  | [] => Some v
  | key :: rest => spread v !! key ≫= get_path rest
  end.

(** A path that leaves the objects of [source] at its last key. *)
Fixpoint untouched (source : gmap string Value) (path : list string) : Prop :=
  match path with
  | [] => False
  | [key] => source !! key = None
  | key :: rest =>
      source !! key = None \/
      exists inner, source !! key = Some (VObject inner) /\ untouched inner rest
  end.

(** Nesting depth, to reason by induction on values. *)
Fixpoint depth (v : Value) : nat :=
  match v with
  | VObject properties =>
      S (map_fold (fun _ v' deepest => Nat.max (depth v') deepest) 0%nat
           properties)
  | _ => 0%nat
  end.

(** What is not merged but assigned as it is. *)
Definition assigned_whole (v : Value) : bool :=
  match v with
  | VObject _ => false
  | _ => true
  end.

Definition object (properties : list (string * Value)) : Value :=
  VObject (list_to_map properties).

(** [getDefaultSettings], as a value. *)
Definition getDefaultSettings : Value :=
  let providerSettings (model : string) :=
    object [("enabled", VBool true); ("model", VString model);
            ("temperature", VNumber 0.7); ("maxTokens", VNumber 4000)] in
  object [
    ("general", object [
       ("defaultProvider", VString "claude");
       ("autoRouting", VBool true);
       ("keyboardShortcuts", object [
          ("toggleSidebar", VString "Cmd+Shift+A");
          ("openCommandPalette", VString "Cmd+Shift+K");
          ("quickAsk", VString "Cmd+Shift+Space")]);
       ("language", VString "en");
       ("notifications", VBool true)]);
    ("providers", object [
       ("claude", providerSettings "claude-3-sonnet-20240229");
       ("chatgpt", providerSettings "gpt-4-turbo-preview");
       ("gemini", providerSettings "gemini-pro");
       ("grok", providerSettings "grok-beta")]);
    ("privacy", object [
       ("excludedDomains", VArray (VString <$>
          ["bank*"; "*banking*"; "*paypal.com"; "*stripe.com"; "*.gov";
           "*healthcare*"; "*medical*"]));
       ("sensitiveMode", VBool false);
       ("clearHistoryOnClose", VBool false);
       ("anonymousAnalytics", VBool false);
       ("contextSharing", VString "selection")]);
    ("advanced", object [
       ("developerMode", VBool false);
       ("rateLimiting", object [("enabled", VBool true);
                                ("requestsPerMinute", VNumber 20)]);
       ("concurrentRequests", VNumber 3);
       ("cacheResponses", VBool true);
       ("cacheTTL", VNumber 3600000);
       ("debugLogging", VBool false)]);
    ("appearance", object [
       ("theme", VString "auto");
       ("fontSize", VString "medium");
       ("fontFamily", VString "system-ui");
       ("accentColor", VString "#6366f1");
       ("compactMode", VBool false)])
  ].

(** [getSettings], for what is stored under [settings]. *)
Definition getSettings (stored : option Value) : Value :=
  match stored with
  | Some settings => if truthy settings then settings else getDefaultSettings
  | None => getDefaultSettings
  end.

(** [updateSettings]. *)
Definition updateSettings (fails : option JS.Error)
    (updates : gmap string Value) (stored : option Value)
    : Completion unit * option Value :=
  let current := getSettings stored in
  let merged := VObject (deepMerge current updates) in
  match fails with
  | None => (Return tt, Some merged)
  | Some e => (Throw e, stored)
  end.

(** [initializeDefaultSettings]. *)
Definition initializeDefaultSettings (fails : option JS.Error)
    (stored : option Value) : Completion unit * option Value :=
  if from_option truthy false stored then (Return tt, stored)
  else
    match fails with
    | None => (Return tt, Some getDefaultSettings)
    | Some e => (Throw e, stored)
    end.

End Settings.

(** ** The message handler (src/background/index.ts) *)

Module Messages.

(** [message.payload], by the fields that [handleMessage] takes from it. *)
Record Payload := {
  request : option AIRequest;
  updates : option (gmap string Settings.Value);
  conversation : option Conversations.Conversation;
  provider : option AIProvider;
  apiKey : option string;
  masterPassword : option string;
}.

Record ExtensionMessage := {
  type : string;
  payload : option Payload;
}.

(** [sender.tab?.id]. *)
Record MessageSender := {
  tab_id : option Z;
}.

(** What [handleMessage] awaits: how each call settles, and the
    [TypeError] of taking a field from a payload that is [undefined]. *)
Record Services := {
  sendToAI : option AIRequest -> Completion AIResponse;
  getContext : Z -> Completion (option Context.TabContext);
  getSettings : Completion Settings.Value;
  updateSettings : option (gmap string Settings.Value) -> Completion unit;
  saveConversation : option Conversations.Conversation -> Completion unit;
  getConversations : Completion (list Conversations.Conversation);
  clearConversations : Completion unit;
  saveAPIKey : option AIProvider -> option string -> option string
               -> Completion unit;
  destructured : string -> JS.Error;
}.

(** What is passed to [sendResponse]. *)
Inductive Response :=
| AnswerOf (response : AIResponse)
| ContextOf (context : option Context.TabContext)
| SettingsOf (settings : Settings.Value)
| HistoryOf (conversations : list Conversations.Conversation)
| Success
| Failure (error : string).

(** What the handler does that others see. *)
Inductive Effect :=
| sendResponse (response : Response)
| tabs_sendMessage (tabId : Z) (type : string).

(** [if (tabId)]. *)
Definition tab (sender : MessageSender) : option Z :=
  match tab_id sender with
  | Some tabId => if tabId =? 0 then None else Some tabId
  | None => None
  end.

(** [const { field } = message.payload]. *)
Definition field {A : Type} (sv : Services) (message : ExtensionMessage)
    (name : string) (get : Payload -> A) : Completion A :=
  match payload message with
  | Some p => Return (get p)
  | None => Throw (destructured sv name)
  end.

(** The [try] block of [handleMessage]. *)
Definition dispatch (sv : Services) (message : ExtensionMessage)
    (sender : MessageSender) : Completion (list Effect) :=
  if String.eqb (type message) "SEND_TO_AI" then
    request ← field sv message "request" request;
    response ← sendToAI sv request;
    Return [sendResponse (AnswerOf response)]
  else if String.eqb (type message) "GET_CONTEXT" then
    match tab sender with
    | Some tabId =>
        context ← getContext sv tabId;
        Return [sendResponse (ContextOf context)]
    | None => Return []
    end
  else if String.eqb (type message) "GET_SETTINGS" then
    settings ← getSettings sv;
    Return [sendResponse (SettingsOf settings)]
  else if String.eqb (type message) "UPDATE_SETTINGS" then
    updates ← field sv message "updates" updates;
    _ ← updateSettings sv updates;
    Return [sendResponse Success]
  else if String.eqb (type message) "SAVE_CONVERSATION" then
    conversation ← field sv message "conversation" conversation;
    _ ← saveConversation sv conversation;
    Return [sendResponse Success]
  else if String.eqb (type message) "GET_CONVERSATION_HISTORY" then
    conversations ← getConversations sv;
    Return [sendResponse (HistoryOf conversations)]
  else if String.eqb (type message) "CLEAR_HISTORY" then
    _ ← clearConversations sv;
    Return [sendResponse Success]
  else if String.eqb (type message) "API_KEY_UPDATED" then
    p ← field sv message "provider" id;
    _ ← saveAPIKey sv (provider p) (apiKey p) (masterPassword p);
    Return [sendResponse Success]
  else if String.eqb (type message) "TOGGLE_SIDEBAR" then
    match tab sender with
    | Some tabId =>
        Return [tabs_sendMessage tabId "TOGGLE_SIDEBAR"; sendResponse Success]
    | None => Return []
    end
  else if String.eqb (type message) "OPEN_COMMAND_PALETTE" then
    match tab sender with
    | Some tabId =>
        Return [tabs_sendMessage tabId "OPEN_COMMAND_PALETTE";
                sendResponse Success]
    | None => Return []
    end
  else
    Return [sendResponse
              (Failure ("Unknown message type: " +:+ type message))].

(** [handleMessage]: nothing is done before the last call awaited in the
    [try] block has settled, so that an error finds no effect done. *)
Definition handleMessage (sv : Services) (message : ExtensionMessage)
    (sender : MessageSender) : list Effect :=
  match dispatch sv message sender with
  | Return effects => effects
  | Throw error => [sendResponse (Failure (JS.message error))]
  end.

(** The responses among the effects. *)
Definition responses (effects : list Effect) : list Response :=
  omap (fun e => match e with
                 | sendResponse r => Some r
                 | tabs_sendMessage _ _ => None
                 end) effects.

(** The message types that are answered only to a tab. *)
Definition for_tabs : list string :=
  ["GET_CONTEXT"; "TOGGLE_SIDEBAR"; "OPEN_COMMAND_PALETTE"].

End Messages.

(** ** More sample inputs *)

Module Cases.

(** An entry written at the instant [t]. *)
Definition entryAt (k : string) (t : Z) : Storage.CachedResponse := {|
  Storage.key := k; Storage.response := Sample.answer claude k;
  Storage.timestamp := t; Storage.hits := 0; Storage.provider := claude;
|}.

(** A store whose cache has an entry of the instant 0 and one of the
    instant 5000000, with a time to live of one hour. *)
Definition agedStore : Storage.Store := {|
  Storage.settings := None; Storage.apiKeys := fun _ => Some "sk";
  Storage.usage := None;
  Storage.cache :=
    Some {| Storage.entries := [("a", entryAt "a" 0); ("b", entryAt "b" 5000000)];
            Storage.maxSize := 100; Storage.ttl := 3600000 |};
|}.

(** The services at start, without any key. *)
Definition keyless : Dispatch.World := {|
  Dispatch.store := Sample.emptyStore;
  Dispatch.aiRouter := Router.init;
  Dispatch.apiManager := Manager.init;
|}.

(** A request to Claude. *)
Definition greeting : AIRequest := Sample.ask (Some claude) "hello".

(** The services with an answer to [greeting] in the cache, of the instant 900. *)
Definition cachedWorld : Dispatch.World := {|
  Dispatch.store :=
    {| Storage.settings := None; Storage.apiKeys := fun _ => Some "sk";
       Storage.usage := None;
       Storage.cache :=
         Some {| Storage.entries :=
                   [(Dispatch.generateCacheKey greeting,
                     {| Storage.key := Dispatch.generateCacheKey greeting;
                        Storage.response := Sample.answer claude "hello there";
                        Storage.timestamp := 900; Storage.hits := 0;
                        Storage.provider := claude |})];
                 Storage.maxSize := 100; Storage.ttl := 3600000 |} |};
  Dispatch.aiRouter := Router.init;
  Dispatch.apiManager := Manager.init;
|}.

(** A unary call that the provider refuses with the status 401. *)
Definition refused (id : string) : Manager.Call := {|
  Manager.requestId := id; Manager.controller := 1;
  Manager.startTime := 100; Manager.endTime := 350;
  Manager.chunks := []; Manager.during := [];
  Manager.unary := Adapter.Rejected (Adapter.WithResponse 401 None);
  Manager.final := Throw (new_Error "not a streaming call");
|}.

(** A dispatch whose storage refuses the write of the statistics. *)
Definition quotaEnv (t : Z) (c : Manager.Call) : Dispatch.Env := {|
  Dispatch.cacheReadTime := t;
  Dispatch.cacheWriteTime := t + 300;
  Dispatch.usageTime := t + 300;
  Dispatch.setFails := fun site =>
    match site with
    | Dispatch.OnUsageWrite => Some (new_Error "QUOTA_BYTES quota exceeded")
    | _ => None
    end;
  Dispatch.call := c;
|}.

(** A streaming call of two chunks that nothing disturbs. *)
Definition twoChunks : Manager.Call := {|
  Manager.requestId := "req-2"; Manager.controller := 2;
  Manager.startTime := 100; Manager.endTime := 350;
  Manager.chunks := [([], Sample.piece "He"); ([], Sample.piece "llo")];
  Manager.during := [];
  Manager.unary := Adapter.Rejected (Adapter.WithResponse 500 None);
  Manager.final := Return (Sample.answer claude "Hello");
|}.

(** The first instant of 2024, in UTC. *)
Definition newYear : Z := 1704067200000.

(** A conversation with no message. *)
Definition chat (i t : string) : Conversations.Conversation := {|
  Conversations.id := i; Conversations.title := t;
  Conversations.provider := claude; Conversations.messages := [];
  Conversations.context := None; Conversations.createdAt := 0;
  Conversations.updatedAt := 0; Conversations.totalCost := None;
  Conversations.totalTokens := None; Conversations.tags := None;
|}.

(** A tab of example.org in which every script returns a text, and a
    browser whose patterns match nothing. *)
Definition browser : Context.Browser := {|
  Context.tab := Return (Some "https://example.org/", Some "Example");
  Context.RegExp_test := fun _ _ => Return false;
  Context.executeScript := fun _ => Some "text";
|}.

(** An update of one setting. *)
Definition shorterCache : gmap string Settings.Value :=
  {[ "advanced" := Settings.object [("cacheTTL", Settings.VNumber 60000)] ]}.

(** The [i]-th of a series of writes, one every [gap] milliseconds, each
    under a key of its own. *)
Definition nthWrite (gap : Z) (i : nat) : Service.Write := {|
  Service.w_now := gap * Z.of_nat i;
  Service.w_key := "k" +:+ Text.digits_of (Z.of_nat i);
  Service.w_response := Sample.answer claude "hello";
  Service.w_provider := claude;
|}.

(** [n] writes after the first, one every [gap] milliseconds. *)
Definition moreWrites (gap : Z) (n : nat) : list Service.Write :=
  nthWrite gap <$> seq 1 n.



End Cases.


(** * Properties *)

(** ** The embedding on sample inputs *)

Example Number_toString_samples :
  Text.Number_toString <$> [0.7; 4000; 0.1 + 0.2; 1e21; 1.5e-7; 5e-324; -2.5]%float
  = ["0.7"; "4000"; "0.30000000000000004"; "1e+21"; "1.5e-7"; "5e-324"; "-2.5"].
Proof. vm_compute. reflexivity. Qed.

Example btoa_samples :
  Text.btoa "Man" = "TWFu" /\ Text.btoa "Ma" = "TWE=" /\ Text.btoa "M" = "TQ==".
Proof. repeat split; reflexivity. Qed.

(** The keys of the request [{messages: [{role: 'user', content: 'hello'}]}],
    without a provider and with [provider: 'grok']. *)
Example generateCacheKey_samples :
  Dispatch.generateCacheKey (Sample.ask None "hello")
  = "eyJtZXNzYWdlcyI6W3sicm9sZSI6InVzZXIiLCJjb250ZW50IjoiaGVsbG8ifV19" /\
  Dispatch.generateCacheKey (Sample.ask (Some grok) "hello")
  = "eyJwcm92aWRlciI6Imdyb2siLCJtZXNzYWdlcyI6W3sicm9sZSI6InVzZXIiLCJjb250ZW50IjoiaGVsbG8ifV19".
Proof. split; vm_compute; reflexivity. Qed.

Example detectTaskType_samples :
  Router.detectTaskType (Sample.ask None "Summarize the page") = summarization /\
  Router.detectTaskType (Sample.ask None "Debug this function") = code_generation /\
  Router.detectTaskType (Sample.ask None "What is the weather") = casual_chat.
Proof. repeat split; vm_compute; reflexivity. Qed.

Example route_sample :
  Router.route Router.init Storage.getDefaultSettings
    (Sample.ask None "Translate to French") = Return gemini.
Proof. vm_compute. reflexivity. Qed.

(** ** Routing *)

Section Routing.
Variables (st : Router.State) (settings : ExtensionSettings).

Lemma sort_insert_elem {A} (gt : A -> A -> bool) (x y : A) (l : list A) :
  y ∈ sort_insert gt x l <-> y = x \/ y ∈ l.
Proof.
  induction l as [|z l IH]; simpl.
  - rewrite list_elem_of_singleton, elem_of_nil. tauto.
  - destruct (gt x z); rewrite !elem_of_cons; [rewrite IH|]; tauto.
Qed.

Lemma Array_sort_elem {A} (gt : A -> A -> bool) (y : A) (l : list A) :
  y ∈ Array_sort gt l <-> y ∈ l.
Proof.
  induction l as [|z l IH]; simpl; [done|].
  rewrite sort_insert_elem, elem_of_cons, IH. done.
Qed.

Lemma Array_sort_length {A} (gt : A -> A -> bool) (l : list A) :
  length (Array_sort gt l) = length l.
Proof.
  induction l as [|z l IH]; simpl; [done|].
  rewrite <- IH. generalize (Array_sort gt l). intros s.
  induction s as [|w s IHs]; simpl; [done|].
  destruct (gt z w); simpl; congruence.
Qed.

(** Every score is that of an enabled provider. *)
Lemma calculateScores_enabled (request : AIRequest) (s : RoutingScore) :
  s ∈ Router.calculateScores st settings request ->
  enabled (providers settings (rs_provider s)) = true.
Proof.
  unfold Router.calculateScores. intros H.
  apply list_elem_of_fmap in H as (p & -> & Hp).
  apply list_elem_of_filter in Hp as [Hp _]. exact Hp.
Qed.

(** No enabled provider, no score. *)
Lemma calculateScores_none (request : AIRequest) :
  (forall p, enabled (providers settings p) = false) ->
  Router.calculateScores st settings request = [].
Proof.
  intros H. unfold Router.calculateScores, all_providers.
  rewrite !filter_cons, filter_nil.
  repeat case_decide; try congruence; try reflexivity;
    match goal with h : enabled _ = true |- _ => rewrite H in h; discriminate end.
Qed.
End Routing.

(** C1, as the code has it: [route] does not read [request.provider]. The
    request names [claude], every provider is enabled, and [route] answers
    [grok], whose rule matches the "hi" of "this" and which is the cheapest
    and the fastest. *)
Lemma route_ignores_request_provider :
  provider (Sample.ask (Some claude) "Debug this function") = Some claude /\
  Router.route Router.init Storage.getDefaultSettings
    (Sample.ask (Some claude) "Debug this function") = Return grok /\
  Router.route Router.init Storage.getDefaultSettings
    (Sample.ask (Some claude) "Debug this function") <> Return claude.
Proof.
  assert (H : Router.route Router.init Storage.getDefaultSettings
                (Sample.ask (Some claude) "Debug this function") = Return grok)
    by (vm_compute; reflexivity).
  split; [reflexivity|]. split; [exact H|]. rewrite H. discriminate.
Qed.

(** C1, amended: the override is in [sendToAI]. When the request names a
    provider, "Determine which provider to use" yields it, whatever the
    content, the settings and the router hold, and leaves the services as
    they are; and [route] gives the same answer whichever provider the
    request names. *)
Theorem sendToAI_keeps_request_provider (request : AIRequest) (p : AIProvider)
    (w : Dispatch.World) :
  provider request = Some p ->
  Dispatch.resolveProvider request w = (Return p, w) /\
  forall st settings q,
    Router.route st settings (Dispatch.with_provider q request)
    = Router.route st settings request.
Proof.
  intros Hp. split.
  - unfold Dispatch.resolveProvider, Dispatch.pure. rewrite Hp. reflexivity.
  - intros. reflexivity.
Qed.

Lemma sendToAI_keeps_request_provider_witness :
  provider (Sample.ask (Some claude) "Debug this function") = Some claude /\
  Dispatch.resolveProvider (Sample.ask (Some claude) "Debug this function")
    {| Dispatch.store := {| Storage.settings := None;
                            Storage.apiKeys := fun _ => None;
                            Storage.usage := None;
                            Storage.cache := None |};
       Dispatch.aiRouter := Router.init;
       Dispatch.apiManager := Manager.init |}
  = (Return claude,
     {| Dispatch.store := {| Storage.settings := None;
                             Storage.apiKeys := fun _ => None;
                             Storage.usage := None;
                             Storage.cache := None |};
        Dispatch.aiRouter := Router.init;
        Dispatch.apiManager := Manager.init |}).
Proof.
  split; [reflexivity|].
  apply (sendToAI_keeps_request_provider
           (Sample.ask (Some claude) "Debug this function") claude).
  reflexivity.
Defined.

(** C2. A provider that [route] returns is enabled in the settings, and
    when no provider is enabled [route] fails: reading [sorted[0].provider]
    of the empty score list throws a [TypeError], and no provider is picked. *)
Theorem route_only_enabled (st : Router.State) (settings : ExtensionSettings)
    (request : AIRequest) :
  (forall p, Router.route st settings request = Return p ->
             enabled (providers settings p) = true) /\
  ((forall p, enabled (providers settings p) = false) ->
   Router.route st settings request
   = Throw (new_TypeError
              "Cannot read properties of undefined (reading 'provider')")).
Proof.
  split.
  - intros p. unfold Router.route.
    destruct (Array_sort Router.by_score_desc
                (Router.calculateScores st settings request))
      as [|best rest] eqn:E; [discriminate|].
    intros [= <-].
    apply (calculateScores_enabled st settings request).
    apply (Array_sort_elem Router.by_score_desc). rewrite E. left.
  - intros H. unfold Router.route.
    rewrite (calculateScores_none st settings request H). reflexivity.
Qed.

Lemma route_only_enabled_witness :
  (Router.route Router.init (Sample.only (fun p => bool_decide (p = gemini)))
     (Sample.ask None "hello") = Return gemini /\
   enabled (providers (Sample.only (fun p => bool_decide (p = gemini))) gemini)
   = true) /\
  ((forall p, enabled (providers (Sample.only (fun _ => false)) p) = false) /\
   Router.route Router.init (Sample.only (fun _ => false)) (Sample.ask None "hello")
   = Throw (new_TypeError
              "Cannot read properties of undefined (reading 'provider')")).
Proof.
  assert (H : Router.route Router.init
                (Sample.only (fun p => bool_decide (p = gemini)))
                (Sample.ask None "hello") = Return gemini)
    by (vm_compute; reflexivity).
  split; split.
  - exact H.
  - exact (proj1 (route_only_enabled Router.init
                    (Sample.only (fun p => bool_decide (p = gemini)))
                    (Sample.ask None "hello")) gemini H).
  - intros p. reflexivity.
  - apply (proj2 (route_only_enabled Router.init (Sample.only (fun _ => false))
                    (Sample.ask None "hello"))).
    intros p. reflexivity.
Defined.

(** ** The composite score *)

Section Composite.

Lemma SFmul_comm (prec emax : Z) (x y : spec_float) :
  SFmul prec emax x y = SFmul prec emax y x.
Proof.
  destruct x as [sx|sx| |sx mx ex], y as [sy|sy| |sy my ey]; simpl;
    rewrite ?(xorb_comm sx sy), ?(Pos.mul_comm mx my), ?(Z.add_comm ex ey);
    reflexivity.
Qed.

(** Multiplication of numbers is commutative, bit for bit. *)
Lemma number_mul_comm (x y : float) : (x * y = y * x)%float.
Proof. apply Prim2SF_inj. rewrite !mul_spec. apply SFmul_comm. Qed.

(** The score the code computes, factor first, is the one the policy
    states, weight first. *)
Lemma score_is_composite (st : Router.State) (p : AIProvider)
    (request : AIRequest) (t : TaskType) :
  score (Router.calculateProviderScore st p request t)
  = Policy.composite (factors (Router.calculateProviderScore st p request t)).
Proof.
  unfold Policy.composite. simpl.
  rewrite (number_mul_comm 0.4), (number_mul_comm 0.3),
    (number_mul_comm 0.2), (number_mul_comm 0.1).
  reflexivity.
Qed.

End Composite.

(** C3. Every score that routing computes is the weighted sum of its own
    four factors with the weights 0.4, 0.3, 0.2 and 0.1, exactly as binary64
    arithmetic evaluates it from left to right; the weights are literals of
    [calculateProviderScore], which takes no weight from its caller. *)
Theorem composite_score_weights (st : Router.State) (settings : ExtensionSettings)
    (request : AIRequest) :
  Forall (fun s => score s = Policy.composite (factors s))
    (Router.calculateScores st settings request) /\
  forall p t,
    let s := Router.calculateProviderScore st p request t in
    score s = Policy.composite (factors s) /\
    factors s = {| capabilityMatch := Router.calculateCapabilityMatch p t request;
                   userPreference := Router.calculateUserPreference st p t;
                   costEfficiency := Router.calculateCostEfficiency p request;
                   responseSpeed := Router.calculateResponseSpeed st p |}.
Proof.
  split.
  - unfold Router.calculateScores. rewrite Forall_fmap.
    apply Forall_forall. intros p _. apply score_is_composite.
  - intros p t. split; [apply score_is_composite | reflexivity].
Qed.

(** ** The response cache *)

Section CacheFacts.

Lemma Map_get_set {V} (k : string) (v : V) (m : list (string * V)) :
  Storage.Map_get k (Storage.Map_set k v m) = Some v.
Proof.
  induction m as [|[k' v'] m IH]; simpl.
  - rewrite String.eqb_refl. reflexivity.
  - destruct (String.eqb k k') eqn:E; simpl; rewrite ?String.eqb_refl, ?E; auto.
Qed.

Lemma Map_get_delete_ne {V} (k k' : string) (m : list (string * V)) :
  k <> k' -> Storage.Map_get k (Storage.Map_delete k' m) = Storage.Map_get k m.
Proof.
  intros Hne. induction m as [|[k0 v0] m IH]; simpl; [reflexivity|].
  destruct (String.eqb k' k0) eqn:E'; simpl.
  - apply String.eqb_eq in E' as <-.
    destruct (String.eqb k k') eqn:E; [apply String.eqb_eq in E; contradiction|].
    exact IH.
  - rewrite IH. reflexivity.
Qed.

Lemma Map_get_None {V} (k : string) (m : list (string * V)) :
  Storage.Map_get k m = None <-> k ∉ m.*1.
Proof.
  induction m as [|[k' v'] m IH]; simpl.
  - split; [intros _; apply not_elem_of_nil | reflexivity].
  - rewrite not_elem_of_cons. destruct (String.eqb k k') eqn:E.
    + apply String.eqb_eq in E. split; [discriminate | tauto].
    + apply String.eqb_neq in E. tauto.
Qed.

(** Writing a new key appends it. *)
Lemma Map_set_new {V} (k : string) (v : V) (m : list (string * V)) :
  Storage.Map_get k m = None -> Storage.Map_set k v m = (m ++ [(k, v)])%list.
Proof.
  induction m as [|[k' v'] m IH]; simpl; [reflexivity|].
  destruct (String.eqb k k'); [discriminate|]. intros H. rewrite IH; auto.
Qed.

(** Writing a present key keeps every key where it is. *)
Lemma Map_set_old {V} (k : string) (v v0 : V) (m : list (string * V)) :
  Storage.Map_get k m = Some v0 ->
  (Storage.Map_set k v m).*1 = m.*1 /\ length (Storage.Map_set k v m) = length m.
Proof.
  induction m as [|[k' v'] m IH]; simpl; [discriminate|].
  destruct (String.eqb k k') eqn:E.
  - apply String.eqb_eq in E as ->. auto.
  - intros H. destruct (IH H) as [E1 E2].
    rewrite !fmap_cons, E1. simpl. rewrite E2. auto.
Qed.

Lemma Map_delete_length {V} (k : string) (m : list (string * V)) :
  (length (Storage.Map_delete k m) <= length m)%nat.
Proof.
  induction m as [|[k' v'] m IH]; simpl; [lia|].
  destruct (String.eqb k k'); simpl; lia.
Qed.

Lemma Map_delete_present {V} (k : string) (m : list (string * V)) :
  k ∈ m.*1 -> (length (Storage.Map_delete k m) < length m)%nat.
Proof.
  induction m as [|[k' v'] m IH]; simpl.
  - intros H. apply elem_of_nil in H. contradiction.
  - rewrite elem_of_cons. destruct (String.eqb k k') eqn:E.
    + intros _. pose proof (Map_delete_length k m). lia.
    + apply String.eqb_neq in E. intros [->|H]; [contradiction|].
      specialize (IH H). simpl. lia.
Qed.

Lemma Map_delete_Forall {V} (P : string * V -> Prop) (k : string)
    (m : list (string * V)) :
  Forall P m -> Forall P (Storage.Map_delete k m).
Proof.
  induction 1 as [|[k' v'] m Hx Hm IH]; simpl; [constructor|].
  destruct (String.eqb k k'); [exact IH | constructor; assumption].
Qed.

Lemma Map_set_Forall {V} (P : string * V -> Prop) (k : string) (v : V)
    (m : list (string * V)) :
  P (k, v) -> Forall P m -> Forall P (Storage.Map_set k v m).
Proof.
  intros Hv. induction 1 as [|[k' v'] m Hx Hm IH]; simpl.
  - constructor; [exact Hv | constructor].
  - destruct (String.eqb k k'); constructor; assumption.
Qed.

(** An entry that is not older than any other sorts last. *)
Lemma sort_insert_snoc (y x : string * Storage.CachedResponse)
    (l : list (string * Storage.CachedResponse)) :
  Storage.timestamp (snd y) <= Storage.timestamp (snd x) ->
  sort_insert Storage.by_timestamp y (l ++ [x])%list
  = (sort_insert Storage.by_timestamp y l ++ [x])%list.
Proof.
  intros Hle. induction l as [|z l IH]; simpl.
  - unfold Storage.by_timestamp.
    destruct (0 <? _) eqn:E; [apply Z.ltb_lt in E; lia | reflexivity].
  - destruct (Storage.by_timestamp y z); simpl; [rewrite IH|]; reflexivity.
Qed.

Lemma Array_sort_snoc (x : string * Storage.CachedResponse)
    (l : list (string * Storage.CachedResponse)) :
  Forall (fun y => Storage.timestamp (snd y) <= Storage.timestamp (snd x)) l ->
  Array_sort Storage.by_timestamp (l ++ [x])%list
  = (Array_sort Storage.by_timestamp l ++ [x])%list.
Proof.
  unfold Array_sort. induction 1 as [|y l Hy Hl IH]; simpl; [reflexivity|].
  rewrite IH. apply sort_insert_snoc, Hy.
Qed.

(** Entries in the order of their timestamps are sorted already. *)
Lemma Array_sort_sorted (l : list (string * Storage.CachedResponse)) :
  StronglySorted (fun a b => Storage.timestamp (snd a) <= Storage.timestamp (snd b)) l ->
  Array_sort Storage.by_timestamp l = l.
Proof.
  unfold Array_sort. induction 1 as [|x l Hl IH Hx]; simpl; [reflexivity|].
  rewrite IH.
  destruct l as [|y l']; simpl; [reflexivity|].
  apply Forall_cons in Hx as [Hxy _]. unfold Storage.by_timestamp.
  destruct (0 <? _) eqn:E; [apply Z.ltb_lt in E; lia | reflexivity].
Qed.

(** The slice that drops one entry is the first entry. *)
Lemma Array_slice_first {A} (x : A) (l : list A) :
  Array_slice (x :: l) 0 1 = [x].
Proof.
  unfold Array_slice, rel_index. simpl length.
  replace (0 <? 0) with false by reflexivity.
  replace (1 <? 0) with false by reflexivity.
  rewrite Z.min_l, Z.min_l by lia. simpl. rewrite take_0. reflexivity.
Qed.

End CacheFacts.

Section RoundTrip.

Variables (now : Z) (k : string) (e : Storage.CachedResponse).
Hypothesis e_now : Storage.timestamp e = now.

(** The size check after a write, on a cache within its invariant: the
    cache is left alone, or loses the one entry that sorts first. *)
Lemma enforce_cases (c : Storage.ResponseCache) :
  Storage.cacheInv now c ->
  let c1 := Storage.with_entries (Storage.Map_set k e (Storage.entries c)) c in
  (Storage.enforce_maxSize c1 = c1 /\
   Storage.Map_size (Storage.entries c1) <= Storage.maxSize c1) \/
  exists h t,
    Storage.Map_get k (Storage.entries c) = None /\
    Storage.entries c <> [] /\
    Array_sort Storage.by_timestamp (Storage.entries c) = h :: t /\
    Storage.enforce_maxSize c1
    = Storage.with_entries
        (Storage.Map_delete (fst h) (Storage.entries c ++ [(k, e)])%list) c.
Proof.
  intros [Hroom Hsize Hpast] c1. unfold Storage.enforce_maxSize.
  destruct (Storage.maxSize c1 <? Storage.Map_size (Storage.entries c1)) eqn:E;
    [|left; split; [reflexivity | apply Z.ltb_ge in E; exact E]].
  apply Z.ltb_lt in E. right. subst c1. simpl in *.
  destruct (Storage.Map_get k (Storage.entries c)) as [v0|] eqn:G.
  { destruct (Map_set_old k e v0 _ G) as [_ L].
    unfold Storage.Map_size in *. lia. }
  rewrite (Map_set_new k e _ G) in *.
  unfold Storage.Map_size in *. rewrite length_app in *. simpl in *.
  assert (Hlen : Z.of_nat (length (Storage.entries c)) = Storage.maxSize c) by lia.
  destruct (Array_sort Storage.by_timestamp (Storage.entries c)) as [|h t] eqn:S.
  { pose proof (Array_sort_length Storage.by_timestamp (Storage.entries c)) as L.
    rewrite S in L. simpl in L. lia. }
  exists h, t. split; [reflexivity|]. split.
  { intros N. rewrite N in Hlen. simpl in Hlen. lia. }
  split; [reflexivity|].
  rewrite Array_sort_snoc, S
    by (eapply Forall_impl; [exact Hpast | intros ? ?; simpl in *; lia]).
  replace (Z.of_nat (length (Storage.entries c) + 1) - Storage.maxSize c)
    with 1 by lia.
  simpl. rewrite Array_slice_first. reflexivity.
Qed.

(** The entry just written survives the size check. *)
Lemma enforce_keeps_new (c : Storage.ResponseCache) :
  Storage.cacheInv now c ->
  Storage.Map_get k
    (Storage.entries
       (Storage.enforce_maxSize
          (Storage.with_entries (Storage.Map_set k e (Storage.entries c)) c)))
  = Some e.
Proof.
  intros Hinv. destruct (enforce_cases c Hinv) as [[-> _]|(h & t & G & _ & S & ->)].
  - apply Map_get_set.
  - simpl. rewrite Map_get_delete_ne.
    + rewrite <- (Map_set_new k e _ G). apply Map_get_set.
    + intros ->. apply Map_get_None in G. apply G.
      apply list_elem_of_fmap. exists h. split; [reflexivity|].
      apply (Array_sort_elem Storage.by_timestamp). rewrite S. left.
Qed.

(** The size check restores the size bound and keeps the other two. *)
Lemma enforce_inv (c : Storage.ResponseCache) :
  Storage.cacheInv now c ->
  Storage.cacheInv now
    (Storage.enforce_maxSize
       (Storage.with_entries (Storage.Map_set k e (Storage.entries c)) c)).
Proof.
  intros Hinv. pose proof Hinv as [Hroom Hsize Hpast].
  assert (Hall : Forall (fun kv => Storage.timestamp (snd kv) <= now)
                   (Storage.Map_set k e (Storage.entries c)))
    by (apply Map_set_Forall; [simpl; lia | exact Hpast]).
  destruct (enforce_cases c Hinv) as [[E L]|(h & t & G & Hne & S & ->)].
  - rewrite E. split; simpl; [exact Hroom|exact L|exact Hall].
  - split; simpl; [exact Hroom| |].
    + assert (Hin : fst h ∈ (Storage.entries c ++ [(k, e)])%list.*1).
      { rewrite fmap_app. apply elem_of_app. left.
        apply list_elem_of_fmap. exists h. split; [reflexivity|].
        apply (Array_sort_elem Storage.by_timestamp). rewrite S. left. }
      apply Map_delete_present in Hin. rewrite length_app in Hin. simpl in Hin.
      unfold Storage.Map_size in *. lia.
    + apply Map_delete_Forall. rewrite <- (Map_set_new k e _ G). exact Hall.
Qed.

End RoundTrip.

Section CacheInvariant.

Lemma cacheInv_later (now now' : Z) (c : Storage.ResponseCache) :
  now <= now' -> Storage.cacheInv now c -> Storage.cacheInv now' c.
Proof.
  intros Hle [Hroom Hsize Hpast]. split; [exact Hroom | exact Hsize |].
  eapply Forall_impl; [exact Hpast | intros ? ?; simpl in *; lia].
Qed.

Lemma Map_get_elem {V} (k : string) (v : V) (m : list (string * V)) :
  Storage.Map_get k m = Some v -> (k, v) ∈ m.
Proof.
  induction m as [|[k' v'] m IH]; simpl; [discriminate|].
  destruct (String.eqb k k') eqn:E.
  - apply String.eqb_eq in E as ->. intros [= ->]. left.
  - intros H. right. auto.
Qed.

(** A cache that does not exist yet is created within the invariant. *)
Lemma cacheInv_created (now : Z) :
  Storage.cacheInv now
    {| Storage.entries := []; Storage.maxSize := 100; Storage.ttl := 3600000 |}.
Proof. split; simpl; [lia | unfold Storage.Map_size; simpl; lia | constructor]. Qed.

(** Every write, read and removal keeps the invariant, whether or not the
    underlying [set] fails, as long as the clock does not run backwards. *)
Lemma setCachedResponse_inv (now now' : Z) (fails : option JS.Error)
    (k : string) (r : AIResponse) (p : AIProvider) (s : Storage.Store) :
  now <= now' -> Storage.storeInv now s ->
  Storage.storeInv now' (snd (Storage.setCachedResponse now' fails k r p s)).
Proof.
  intros Hle Hinv. unfold Storage.setCachedResponse, Storage.storeInv in *.
  destruct (Storage.cache s) as [c|] eqn:C.
  - simpl. apply enforce_inv; [reflexivity|].
    apply (cacheInv_later now); assumption.
  - destruct fails; [simpl; rewrite C; exact I|].
    cbn [snd default Storage.set_result Storage.with_cache Storage.cache].
    apply (enforce_inv now' k
             {| Storage.key := k; Storage.response := r;
                Storage.timestamp := now'; Storage.hits := 0;
                Storage.provider := p |} eq_refl), cacheInv_created.
Qed.

Lemma removeCachedResponse_inv (now : Z) (fails : option JS.Error)
    (k : string) (s : Storage.Store) :
  Storage.storeInv now s ->
  Storage.storeInv now (snd (Storage.removeCachedResponse fails k s)).
Proof.
  unfold Storage.removeCachedResponse, Storage.storeInv.
  destruct (Storage.cache s) as [c|] eqn:C; simpl; [|rewrite C; auto].
  intros [Hroom Hsize Hpast]. split; simpl; [exact Hroom| |].
  - pose proof (Map_delete_length k (Storage.entries c)).
    unfold Storage.Map_size in *. lia.
  - apply Map_delete_Forall, Hpast.
Qed.

Lemma getCachedResponse_inv (now now' : Z) (fails : option JS.Error)
    (k : string) (s : Storage.Store) :
  now <= now' -> Storage.storeInv now s ->
  Storage.storeInv now' (snd (Storage.getCachedResponse now' fails k s)).
Proof.
  intros Hle Hinv.
  assert (Hinv' : Storage.storeInv now' s).
  { unfold Storage.storeInv in *. destruct (Storage.cache s); [|exact I].
    apply (cacheInv_later now); assumption. }
  clear Hinv. unfold Storage.getCachedResponse.
  destruct (Storage.cache s) as [c|] eqn:C; simpl; [|exact Hinv'].
  destruct (Storage.Map_get k (Storage.entries c)) as [entry|] eqn:G;
    simpl; [|exact Hinv'].
  destruct (Storage.ttl c <? now' - Storage.timestamp entry).
  - pose proof (removeCachedResponse_inv now' fails k s Hinv') as R.
    destruct (Storage.removeCachedResponse fails k s) as [r0 s0]. exact R.
  - unfold Storage.storeInv in *. rewrite C in Hinv'. simpl.
    destruct Hinv' as [Hroom Hsize Hpast]. split; simpl; [exact Hroom| |].
    + destruct (Map_set_old k (Storage.with_hits (Storage.hits entry + 1) entry)
                  entry _ G) as [_ L].
      unfold Storage.Map_size in *. lia.
    + apply Map_set_Forall; [|exact Hpast]. simpl.
      apply Map_get_elem in G.
      rewrite Forall_forall in Hpast. apply (Hpast _ G).
Qed.

(** A write that the storage accepts leaves its entry in the cache. *)
Lemma setCachedResponse_written (now : Z) (k : string) (r : AIResponse)
    (p : AIProvider) (s : Storage.Store) :
  Storage.storeInv now s ->
  exists c,
    Storage.setCachedResponse now None k r p s
    = (Return tt, Storage.with_cache (Some c) s) /\
    Storage.ttl c = Storage.ttl_of s /\
    Storage.Map_get k (Storage.entries c)
    = Some {| Storage.key := k; Storage.response := r; Storage.timestamp := now;
              Storage.hits := 0; Storage.provider := p |}.
Proof.
  intros Hinv.
  set (c := default {| Storage.entries := []; Storage.maxSize := 100;
                       Storage.ttl := 3600000 |} (Storage.cache s)).
  set (e := {| Storage.key := k; Storage.response := r; Storage.timestamp := now;
               Storage.hits := 0; Storage.provider := p |}).
  assert (Hc : Storage.cacheInv now c).
  { unfold Storage.storeInv in Hinv. subst c.
    destruct (Storage.cache s); simpl; [exact Hinv | apply cacheInv_created]. }
  exists (Storage.enforce_maxSize
            (Storage.with_entries (Storage.Map_set k e (Storage.entries c)) c)).
  split; [|split].
  - unfold Storage.setCachedResponse. fold c. fold e.
    destruct (Storage.cache s); reflexivity.
  - unfold Storage.enforce_maxSize, Storage.ttl_of. subst c.
    destruct (_ <? _); destruct (Storage.cache s); reflexivity.
  - apply (enforce_keeps_new now k e eq_refl c Hc).
Qed.

End CacheInvariant.

(** ** Eviction *)

Section Eviction.

Variables (m t lo0 : Z).

Lemma Map_delete_absent {V} (k : string) (es : list (string * V)) :
  k ∉ es.*1 -> Storage.Map_delete k es = es.
Proof.
  induction es as [|[k' v'] es IH]; [reflexivity|].
  rewrite fmap_cons, not_elem_of_cons. simpl. intros [Hne Hin].
  destruct (String.eqb k k') eqn:E; [apply String.eqb_eq in E; contradiction|].
  rewrite IH by exact Hin. reflexivity.
Qed.

(** Rewriting the value of a present key, at the same instant, moves
    neither a key nor an instant. *)
Lemma Map_set_same (k : string) (v v' : Storage.CachedResponse)
    (es : list (string * Storage.CachedResponse)) :
  Storage.Map_get k es = Some v ->
  Storage.timestamp v' = Storage.timestamp v ->
  (Storage.Map_set k v' es).*1 = es.*1 /\
  Storage.stamps (Storage.Map_set k v' es) = Storage.stamps es.
Proof.
  intros G Hts. unfold Storage.stamps.
  induction es as [|[k0 v0] es IH]; simpl in *; [discriminate|].
  destruct (String.eqb k k0) eqn:E.
  - apply String.eqb_eq in E as ->. injection G as ->.
    rewrite !fmap_cons. simpl. rewrite Hts. auto.
  - destruct (IH G) as [E1 E2]. rewrite !fmap_cons, E1, E2. auto.
Qed.

Lemma sorted_by_stamps (es : list (string * Storage.CachedResponse)) :
  StronglySorted Z.le (Storage.stamps es) ->
  StronglySorted
    (fun a b => Storage.timestamp (snd a) <= Storage.timestamp (snd b)) es.
Proof.
  unfold Storage.stamps. induction es as [|x es IH]; [constructor|].
  rewrite fmap_cons. intros H. apply StronglySorted_cons in H as [Hx Hs].
  constructor; [apply IH, Hs|].
  rewrite Forall_fmap in Hx. exact Hx.
Qed.

(** A read, within the time to live of every entry, changes hit counters
    only. *)
Lemma Get_tracks (lo now : Z) (done : list string) (k : string)
    (s : Storage.Store) :
  Storage.tracks m t lo0 lo done s ->
  lo <= now -> now - lo0 <= t ->
  Storage.tracks m t lo0 now done (snd (Storage.getCachedResponse now None k s)).
Proof.
  unfold Storage.tracks, Storage.getCachedResponse.
  intros H Hlo Hexp.
  destruct (Storage.cache s) as [c|] eqn:C; simpl; [|rewrite C; exact H].
  destruct H as (Hm & Ht & Hk & Hs & Hb).
  assert (Hb' : Forall (fun z => lo0 <= z <= now) (Storage.stamps (Storage.entries c)))
    by (eapply Forall_impl; [exact Hb | intros ? ?; simpl in *; lia]).
  destruct (Storage.Map_get k (Storage.entries c)) as [entry|] eqn:G; simpl.
  2:{ rewrite C. auto. }
  assert (Hin : lo0 <= Storage.timestamp entry).
  { apply Map_get_elem in G. rewrite Forall_forall in Hb.
    apply (Hb (Storage.timestamp entry)).
    unfold Storage.stamps. apply list_elem_of_fmap. exists (k, entry). auto. }
  destruct (Storage.ttl c <? now - Storage.timestamp entry) eqn:E;
    [apply Z.ltb_lt in E; lia|].
  simpl.
  destruct (Map_set_same k entry
              (Storage.with_hits (Storage.hits entry + 1) entry) _ G eq_refl)
    as [E1 E2].
  rewrite E1, E2. auto.
Qed.

Lemma stamps_snoc (es : list (string * Storage.CachedResponse))
    (k : string) (e : Storage.CachedResponse) :
  Storage.stamps (es ++ [(k, e)])%list
  = (Storage.stamps es ++ [Storage.timestamp e])%list.
Proof. unfold Storage.stamps. rewrite fmap_app. reflexivity. Qed.

(** A write of a new key, at an instant not before the others, appends the
    key; when the cache is then over its size, its first key goes. *)
Lemma Put_tracks (lo now : Z) (done : list string) (k : string)
    (r : AIResponse) (p : AIProvider) (s : Storage.Store) :
  Storage.tracks m t lo0 lo done s ->
  lo <= now -> lo0 <= now ->
  NoDup (done ++ [k])%list ->
  Z.of_nat (length done) <= m ->
  Storage.tracks m t lo0 now (done ++ [k])%list
    (snd (Storage.setCachedResponse now None k r p s)).
Proof.
  unfold Storage.tracks, Storage.setCachedResponse.
  intros H Hlo Hlo0 Hnd Hlen.
  set (e := {| Storage.key := k; Storage.response := r;
               Storage.timestamp := now; Storage.hits := 0;
               Storage.provider := p |}).
  destruct (Storage.cache s) as [c|] eqn:C; simpl.
  2:{ destruct H as (-> & -> & ->). unfold Storage.enforce_maxSize. simpl.
      repeat split; try reflexivity.
      - repeat constructor.
      - repeat constructor; lia. }
  destruct H as (Hm & Ht & Hk & Hs & Hb).
  assert (Hkept : Storage.kept m done = done).
  { unfold Storage.kept. destruct (_ <=? _) eqn:E; [reflexivity|].
    apply Z.leb_gt in E. lia. }
  rewrite Hkept in Hk.
  apply NoDup_app in Hnd as (Hnd & Hfresh & _).
  assert (G : Storage.Map_get k (Storage.entries c) = None).
  { apply Map_get_None. rewrite Hk. intros Hin.
    apply (Hfresh k Hin). left. }
  rewrite (Map_set_new k e _ G).
  assert (Hs' : StronglySorted Z.le (Storage.stamps (Storage.entries c ++ [(k, e)])%list)).
  { rewrite stamps_snoc. apply StronglySorted_app_2; [|exact Hs|repeat constructor].
    intros x1 x2 H1 H2. apply list_elem_of_singleton in H2 as ->.
    rewrite Forall_forall in Hb. specialize (Hb x1 H1). simpl. lia. }
  assert (Hb' : Forall (fun z => lo0 <= z <= now)
                  (Storage.stamps (Storage.entries c ++ [(k, e)])%list)).
  { rewrite stamps_snoc. apply Forall_app. split.
    - eapply Forall_impl; [exact Hb | intros ? ?; simpl in *; lia].
    - repeat constructor; simpl; lia. }
  assert (Hlen' : length (Storage.entries c) = length done).
  { rewrite <- Hk. rewrite length_fmap. reflexivity. }
  unfold Storage.enforce_maxSize. simpl Storage.entries. simpl Storage.maxSize.
  unfold Storage.Map_size. rewrite length_app. simpl length.
  destruct (Storage.maxSize c <? Z.of_nat (length (Storage.entries c) + 1)) eqn:E.
  - apply Z.ltb_lt in E.
    assert (Hfull : Z.of_nat (length (Storage.entries c)) = m) by lia.
    replace (Z.of_nat (length (Storage.entries c) + 1) - Storage.maxSize c)
      with 1 by lia.
    rewrite (Array_sort_sorted _ (sorted_by_stamps _ Hs')).
    assert (Hkept' : Storage.kept m (done ++ [k])%list = tail (done ++ [k])%list).
    { unfold Storage.kept. rewrite length_app. simpl length.
      destruct (_ <=? _) eqn:E'; [apply Z.leb_le in E'; lia | reflexivity]. }
    rewrite Hkept'.
    destruct (Storage.entries c) as [|[k0 e0] es] eqn:Es.
    + simpl. rewrite String.eqb_refl. simpl.
      destruct done; [|discriminate]. simpl.
      repeat split; auto; constructor.
    + change (((k0, e0) :: es) ++ [(k, e)])%list
        with ((k0, e0) :: (es ++ [(k, e)]))%list in *.
      rewrite Array_slice_first. simpl foldl. simpl Storage.Map_delete.
      rewrite String.eqb_refl. cbn [Storage.entries Storage.with_entries
        Storage.maxSize Storage.ttl].
      destruct done as [|d done']; [discriminate|].
      rewrite fmap_cons in Hk. injection Hk as -> Hk.
      rewrite Map_delete_absent.
      * rewrite fmap_app, Hk. simpl.
        unfold Storage.stamps in Hs', Hb'. rewrite fmap_cons in Hs', Hb'.
        apply StronglySorted_cons in Hs' as [_ Hs'].
        apply Forall_cons in Hb' as [_ Hb'].
        repeat split; auto.
      * rewrite fmap_app, Hk. simpl. intros Hin.
        apply elem_of_app in Hin as [Hin|Hin].
        -- apply NoDup_cons in Hnd as [Hnot _]. contradiction.
        -- apply list_elem_of_singleton in Hin.
           apply (Hfresh d); [left | rewrite Hin; left].
  - apply Z.ltb_ge in E. cbn [Storage.entries Storage.with_entries
      Storage.maxSize Storage.ttl].
    assert (Hkept' : Storage.kept m (done ++ [k])%list = (done ++ [k])%list).
    { unfold Storage.kept. rewrite length_app. simpl length.
      destruct (_ <=? _) eqn:E'; [reflexivity | apply Z.leb_gt in E'; lia]. }
    rewrite Hkept', fmap_app, Hk. simpl. repeat split; auto.
Qed.

End Eviction.

(** ** The memo and the copy *)

Section ServiceFacts.

(** While the memo entry is fresh, [get] hands out its object and changes
    nothing. *)
Lemma get_served (now t : Z) (io : Service.Platform) (value : Service.Held)
    (st : Service.State) :
  Service.memo st = Some (value, t) ->
  now - t < Service.cacheTimeout ->
  Service.get now io st = (Some value, st).
Proof.
  intros Hm Ht. unfold Service.get. rewrite Hm.
  destruct (now - t <? Service.cacheTimeout) eqn:E;
    [reflexivity | apply Z.ltb_ge in E; lia].
Qed.

(** Once the entry is [cacheTimeout] old, or gone, [get] hands out the copy
    that [chrome.storage] holds, and remembers it. *)
Lemma get_read (now : Z) (io : Service.Platform) (c : Storage.ResponseCache)
    (st : Service.State) :
  (forall value t, Service.memo st = Some (value, t) ->
                   Service.cacheTimeout <= now - t) ->
  Service.getFails io = false ->
  Service.saved st = Some c ->
  Service.get now io st
  = (Some (Service.AsObject c),
     {| Service.memo := Some (Service.AsObject c, now);
        Service.saved := Some c |}).
Proof.
  intros Hm Hg Hs. unfold Service.get. rewrite Hg, Hs.
  destruct (Service.memo st) as [[value t]|]; [|reflexivity].
  specialize (Hm value t eq_refl).
  destruct (now - t <? Service.cacheTimeout) eqn:E;
    [apply Z.ltb_lt in E; lia | reflexivity].
Qed.

(** What a write that the storage accepts leaves: the cache object in the
    memo, unless a late change event dropped it, and its copy, without an
    entry, in [chrome.storage]. *)
Lemma setCachedResponse_accepted (now : Z) (io : Service.Platform) (k : string)
    (r : AIResponse) (p : AIProvider) (st : Service.State) :
  Service.setFails io = None ->
  exists c2,
    Service.setCachedResponse now io k r p st
    = (Return tt,
       {| Service.memo :=
            if Service.changedLate io then None
            else Some (Service.AsMap c2, now);
          Service.saved := Some (Storage.with_entries [] c2) |}).
Proof.
  intros Hs. unfold Service.setCachedResponse.
  destruct (Service.get now io st) as [cache st1].
  unfold Service.set. rewrite Hs. eexists. reflexivity.
Qed.

(** A write into the cache object of the memo is the write of [Storage]:
    the same outcome, the same cache object afterwards. *)
Lemma setCachedResponse_served (now t : Z) (io : Service.Platform) (k : string)
    (r : AIResponse) (p : AIProvider) (c : Storage.ResponseCache)
    (st : Service.State) (s : Storage.Store) :
  Service.memo st = Some (Service.AsMap c, t) ->
  now - t < Service.cacheTimeout ->
  Storage.cache s = Some c ->
  fst (Service.setCachedResponse now io k r p st)
  = fst (Storage.setCachedResponse now (Service.setFails io) k r p s) /\
  (Service.changedLate io = false ->
   Service.held (snd (Service.setCachedResponse now io k r p st))
   = Storage.cache (snd (Storage.setCachedResponse now (Service.setFails io) k r p s))) /\
  (Service.setFails io = None -> Service.changedLate io = false ->
   exists c2,
     Service.memo (snd (Service.setCachedResponse now io k r p st))
     = Some (Service.AsMap c2, now)).
Proof.
  intros Hm Ht Hc.
  unfold Service.setCachedResponse, Storage.setCachedResponse.
  rewrite (get_served now t io _ st Hm Ht), Hc.
  unfold Service.set, Service.with_held, Service.held, Storage.set_result.
  rewrite Hm. cbn [Service.asMap default].
  destruct (Service.setFails io) as [e|]; cbn [fst snd Service.memo].
  - split; [reflexivity|]. split; [intros _; reflexivity | discriminate].
  - split; [reflexivity|]. split.
    + intros ->. reflexivity.
    + intros _ ->. eexists. reflexivity.
Qed.

(** So is the first write, when nothing is stored. *)
Lemma setCachedResponse_first (now : Z) (io : Service.Platform) (k : string)
    (r : AIResponse) (p : AIProvider) (s : Storage.Store) :
  Storage.cache s = None ->
  fst (Service.setCachedResponse now io k r p Service.init)
  = fst (Storage.setCachedResponse now (Service.setFails io) k r p s) /\
  (Service.changedLate io = false ->
   Service.held (snd (Service.setCachedResponse now io k r p Service.init))
   = Storage.cache (snd (Storage.setCachedResponse now (Service.setFails io) k r p s))) /\
  (Service.setFails io = None -> Service.changedLate io = false ->
   exists c2,
     Service.memo (snd (Service.setCachedResponse now io k r p Service.init))
     = Some (Service.AsMap c2, now)).
Proof.
  intros Hc.
  unfold Service.setCachedResponse, Storage.setCachedResponse, Service.get.
  rewrite Hc. cbn [Service.memo Service.saved Service.init].
  assert (G : (if Service.getFails io
               then (None (A := Service.Held), Service.init)
               else (None, Service.init)) = (None, Service.init))
    by (destruct (Service.getFails io); reflexivity).
  rewrite G. unfold Service.set, Service.held, Storage.set_result.
  destruct (Service.setFails io) as [e|]; cbn [fst snd Service.memo Service.init].
  - split; [reflexivity|]. split; [|discriminate].
    intros _. simpl. rewrite Hc. reflexivity.
  - split; [reflexivity|]. split.
    + intros ->. reflexivity.
    + intros _ ->. eexists. reflexivity.
Qed.

(** A removal from the cache object of the memo is the removal of
    [Storage]. *)
Lemma removeCachedResponse_served (now t : Z) (io : Service.Platform)
    (k : string) (c : Storage.ResponseCache) (st : Service.State)
    (s : Storage.Store) :
  Service.memo st = Some (Service.AsMap c, t) ->
  now - t < Service.cacheTimeout ->
  Storage.cache s = Some c ->
  fst (Service.removeCachedResponse now io k st)
  = fst (Storage.removeCachedResponse (Service.setFails io) k s) /\
  (Service.changedLate io = false ->
   Service.held (snd (Service.removeCachedResponse now io k st))
   = Storage.cache (snd (Storage.removeCachedResponse (Service.setFails io) k s))).
Proof.
  intros Hm Ht Hc.
  unfold Service.removeCachedResponse, Storage.removeCachedResponse.
  rewrite (get_served now t io _ st Hm Ht), Hc.
  unfold Service.set, Service.with_held, Service.held, Storage.set_result.
  rewrite Hm. cbn [Service.asMap].
  destruct (Service.setFails io) as [e|]; cbn [fst snd Service.memo].
  - split; [reflexivity|]. intros _. reflexivity.
  - split; [reflexivity|]. intros ->. reflexivity.
Qed.

(** A lookup in the cache object of the memo is the lookup of [Storage]. *)
Lemma getCachedResponse_served (now t : Z) (io : Service.Platform)
    (k : string) (c : Storage.ResponseCache) (st : Service.State)
    (s : Storage.Store) :
  Service.memo st = Some (Service.AsMap c, t) ->
  now - t < Service.cacheTimeout ->
  Storage.cache s = Some c ->
  fst (Service.getCachedResponse now io k st)
  = fst (Storage.getCachedResponse now (Service.setFails io) k s) /\
  (Service.changedLate io = false ->
   Service.held (snd (Service.getCachedResponse now io k st))
   = Storage.cache (snd (Storage.getCachedResponse now (Service.setFails io) k s))).
Proof.
  intros Hm Ht Hc.
  unfold Service.getCachedResponse, Storage.getCachedResponse.
  rewrite (get_served now t io _ st Hm Ht), Hc.
  destruct (Storage.Map_get k (Storage.entries c)) as [entry|] eqn:G.
  2:{ cbn [fst snd]. split; [reflexivity|]. intros _.
      unfold Service.held. rewrite Hm, Hc. reflexivity. }
  destruct (Storage.ttl c <? now - Storage.timestamp entry).
  - destruct (removeCachedResponse_served now t io k c st s Hm Ht Hc) as [R1 R2].
    destruct (Service.removeCachedResponse now io k st) as [r1 st1].
    destruct (Storage.removeCachedResponse (Service.setFails io) k s) as [r2 s2].
    cbn [fst snd] in *. subst r2. split; [reflexivity | exact R2].
  - unfold Service.set, Service.with_held, Service.held, Storage.set_result.
    rewrite Hm.
    destruct (Service.setFails io) as [e|]; cbn [fst snd Service.memo].
    + split; [reflexivity|]. intros _. reflexivity.
    + split; [reflexivity|]. intros ->. reflexivity.
Qed.

(** Within the memo, the round trip holds. On a cache object within the
    invariant, a write that the storage accepts, followed less than
    [cacheTimeout] later, and no more than the time to live later, by a
    lookup of the same key, gives the entry back with the response that
    was written and one hit. *)
Lemma lookup_within_timeout (k : string) (r : AIResponse) (p : AIProvider)
    (now now' : Z) (st : Service.State) :
  Storage.cacheInv now (Service.opened now Service.reliable st) ->
  now' - now < Service.cacheTimeout ->
  now' - now <= Storage.ttl (Service.opened now Service.reliable st) ->
  exists e st2,
    Service.getCachedResponse now' Service.reliable k
      (snd (Service.setCachedResponse now Service.reliable k r p st))
    = (Return (Some e), st2) /\
    Storage.response e = r /\ Storage.hits e = 1 /\
    Storage.key e = k /\ Storage.provider e = p.
Proof.
  intros Hinv Hmemo Httl.
  set (c := Service.opened now Service.reliable st) in *.
  set (e := {| Storage.key := k; Storage.response := r; Storage.timestamp := now;
               Storage.hits := 0; Storage.provider := p |}).
  set (c2 := Storage.enforce_maxSize
               (Storage.with_entries (Storage.Map_set k e (Storage.entries c)) c)).
  assert (Hset : snd (Service.setCachedResponse now Service.reliable k r p st)
                 = {| Service.memo := Some (Service.AsMap c2, now);
                      Service.saved := Some (Storage.with_entries [] c2) |}).
  { unfold Service.setCachedResponse. subst c2 c e. unfold Service.opened.
    destruct (Service.get now Service.reliable st) as [[value|] st1];
      reflexivity. }
  rewrite Hset. unfold Service.getCachedResponse.
  rewrite (get_served now' now Service.reliable (Service.AsMap c2))
    by (reflexivity || exact Hmemo).
  assert (G : Storage.Map_get k (Storage.entries c2) = Some e)
    by (apply (enforce_keeps_new now k e eq_refl c Hinv)).
  assert (T : Storage.ttl c2 = Storage.ttl c).
  { subst c2. unfold Storage.enforce_maxSize. destruct (_ <? _); reflexivity. }
  rewrite G, T. simpl Storage.timestamp.
  destruct (Storage.ttl c <? now' - now) eqn:E; [apply Z.ltb_lt in E; lia|].
  eexists _, _. split; [reflexivity|]. simpl. auto.
Qed.

(** The memo need not time out for that: when the change event of the
    write reaches the listener of the service after the write has
    resolved, the memo entry is dropped, and the next lookup, whenever it
    comes, is of the copy. *)
Lemma lookup_after_late_event (k : string) (r : AIResponse) (p : AIProvider)
    (now now' : Z) (io : Service.Platform) (st : Service.State) :
  Service.setFails io = None ->
  Service.changedLate io = true ->
  fst (Service.getCachedResponse now' Service.reliable k
         (snd (Service.setCachedResponse now io k r p st)))
  = Throw Service.notAMap.
Proof.
  intros Hs Hl.
  destruct (setCachedResponse_accepted now io k r p st Hs) as [c2 ->].
  unfold Service.getCachedResponse. cbn [snd]. rewrite Hl.
  rewrite (get_read now' Service.reliable (Storage.with_entries [] c2));
    [reflexivity | discriminate | reflexivity | reflexivity].
Qed.

(** A write that comes [cacheTimeout] or more after the one before it
    finds the copy, which has no entry, and leaves its own entry alone. *)
Lemma write_after_timeout (w0 w : Service.Write) :
  Service.cacheTimeout <= Service.w_now w - Service.w_now w0 ->
  Service.write (Service.alone w0) w = Service.alone w.
Proof.
  intros Ht. unfold Service.write, Service.setCachedResponse.
  rewrite (get_read (Service.w_now w) Service.reliable
             {| Storage.entries := []; Storage.maxSize := 100;
                Storage.ttl := 3600000 |}).
  - reflexivity.
  - intros value t [= <- <-]. exact Ht.
  - reflexivity.
  - reflexivity.
Qed.

Lemma write_first (w : Service.Write) :
  Service.write Service.init w = Service.alone w.
Proof. reflexivity. Qed.

Lemma last_cons {A} (ws : list A) :
  forall w w0 : A, List.last (w :: ws) w0 = List.last ws w.
Proof.
  induction ws as [|w1 ws IH]; intros w w0; [reflexivity|].
  change (List.last (w :: w1 :: ws) w0) with (List.last (w1 :: ws) w0).
  rewrite !IH. reflexivity.
Qed.

Lemma writes_spaced (ws : list Service.Write) :
  forall w0 : Service.Write,
    Service.spaced (w0 :: ws) = true ->
    Service.writes ws (Service.alone w0) = Service.alone (List.last ws w0).
Proof.
  induction ws as [|w ws IH]; intros w0 H; [reflexivity|].
  cbn [Service.spaced] in H. apply andb_prop in H as [H1 H2].
  apply Z.leb_le in H1.
  change (Service.writes (w :: ws) (Service.alone w0))
    with (Service.writes ws (Service.write (Service.alone w0) w)).
  rewrite (write_after_timeout w0 w H1), (IH w H2), last_cons.
  reflexivity.
Qed.

(** Writes that follow each other within the memo. *)
Lemma write_served (m t lo0 lo : Z) (done : list string) (w : Service.Write)
    (c : Storage.ResponseCache) (st : Service.State) (s : Storage.Store) :
  Service.memo st = Some (Service.AsMap c, lo) ->
  Storage.cache s = Some c ->
  Storage.tracks m t lo0 lo done s ->
  lo0 <= lo ->
  0 <= Service.w_now w - lo -> Service.w_now w - lo < Service.cacheTimeout ->
  NoDup (done ++ [Service.w_key w])%list ->
  Z.of_nat (length done) <= m ->
  exists c' s',
    Service.memo (Service.write st w) = Some (Service.AsMap c', Service.w_now w) /\
    Storage.cache s' = Some c' /\
    Storage.tracks m t lo0 (Service.w_now w) (done ++ [Service.w_key w])%list s'.
Proof.
  intros Hm Hc Ht Hlo0 Hge Hlt Hnd Hlen.
  pose proof (Put_tracks m t lo0 lo (Service.w_now w) done (Service.w_key w)
                (Service.w_response w) (Service.w_provider w) s Ht
                ltac:(lia) ltac:(lia) Hnd Hlen) as Tr.
  destruct (setCachedResponse_served (Service.w_now w) lo Service.reliable
              (Service.w_key w) (Service.w_response w) (Service.w_provider w)
              c st s Hm Hlt Hc) as (_ & Hheld & Hmemo).
  specialize (Hheld eq_refl). destruct (Hmemo eq_refl eq_refl) as [c2 M2].
  unfold Service.write. rewrite M2. unfold Service.held in Hheld.
  rewrite M2 in Hheld. cbn [Service.setFails Service.reliable] in Hheld.
  exists c2, (snd (Storage.setCachedResponse (Service.w_now w) None
                     (Service.w_key w) (Service.w_response w)
                     (Service.w_provider w) s)).
  split; [reflexivity|]. split; [symmetry; exact Hheld | exact Tr].
Qed.

Lemma writes_close (m t lo0 : Z) (ws : list Service.Write) :
  forall (w0 : Service.Write) (done : list string)
         (c : Storage.ResponseCache) (st : Service.State) (s : Storage.Store),
    Service.memo st = Some (Service.AsMap c, Service.w_now w0) ->
    Storage.cache s = Some c ->
    Storage.tracks m t lo0 (Service.w_now w0) done s ->
    lo0 <= Service.w_now w0 ->
    Service.close (w0 :: ws) = true ->
    NoDup (done ++ (Service.w_key <$> ws))%list ->
    Z.of_nat (length (done ++ (Service.w_key <$> ws))%list) <= m + 1 ->
    exists c' s' hi,
      Service.held (Service.writes ws st) = Some c' /\
      Storage.cache s' = Some c' /\
      Storage.tracks m t lo0 hi (done ++ (Service.w_key <$> ws))%list s'.
Proof.
  induction ws as [|w ws IH]; intros w0 done c st s Hm Hc Ht Hlo0 Hcl Hnd Hlen.
  - exists c, s, (Service.w_now w0). simpl. rewrite app_nil_r.
    unfold Service.held. rewrite Hm. auto.
  - cbn [Service.close] in Hcl. apply andb_prop in Hcl as [H1 Hcl].
    apply andb_prop in H1 as [Hge Hlt].
    apply Z.leb_le in Hge. apply Z.ltb_lt in Hlt.
    rewrite fmap_cons in *.
    replace (done ++ Service.w_key w :: (Service.w_key <$> ws))%list
      with ((done ++ [Service.w_key w]) ++ (Service.w_key <$> ws))%list in *
      by (rewrite <- app_assoc; reflexivity).
    assert (Hnd' : NoDup (done ++ [Service.w_key w])%list)
      by (apply NoDup_app in Hnd as [Hnd _]; exact Hnd).
    assert (Hlen' : Z.of_nat (length done) <= m)
      by (rewrite !length_app in Hlen; simpl in Hlen; lia).
    destruct (write_served m t lo0 (Service.w_now w0) done w c st s
                Hm Hc Ht Hlo0 Hge Hlt Hnd' Hlen') as (c' & s' & M' & C' & T').
    change (Service.writes (w :: ws) st)
      with (Service.writes ws (Service.write st w)).
    apply (IH w (done ++ [Service.w_key w])%list c' (Service.write st w) s');
      auto. lia.
Qed.

End ServiceFacts.

(** C4. The entry that [setCachedResponse] wrote cannot be read once the
    memo of the storage service has timed out. When the storage accepted
    the write at [now], whatever was stored before and whenever its change
    event arrived, [getCachedResponse] for the same key at an instant
    [cacheTimeout], 5 seconds, or more later, on a storage that works,
    throws the [TypeError] of calling [get] on a plain object: what
    [chrome.storage] hands back has an empty object where the [Map] of the
    entries was, and [getCachedResponse] does not rebuild the [Map] as
    [setCachedResponse] and [removeCachedResponse] do. *)
Theorem lookup_after_timeout_throws (k : string) (r : AIResponse)
    (p : AIProvider) (now now' : Z) (io : Service.Platform)
    (st : Service.State) :
  Service.setFails io = None ->
  Service.cacheTimeout <= now' - now ->
  fst (Service.getCachedResponse now' Service.reliable k
         (snd (Service.setCachedResponse now io k r p st)))
  = Throw Service.notAMap.
Proof.
  intros Hs Ht.
  destruct (setCachedResponse_accepted now io k r p st Hs) as [c2 ->].
  unfold Service.getCachedResponse. cbn [snd].
  rewrite (get_read now' Service.reliable (Storage.with_entries [] c2)).
  - reflexivity.
  - cbn [Service.memo]. intros value t.
    destruct (Service.changedLate io); [discriminate|].
    intros [= <- <-]. exact Ht.
  - reflexivity.
  - reflexivity.
Qed.

Lemma lookup_after_timeout_throws_witness :
  Service.setFails Service.reliable = None /\
  Service.cacheTimeout <= 11000 - 1000 /\
  11000 - 1000 <= 3600000 /\
  fst (Service.getCachedResponse 11000 Service.reliable "k"
         (snd (Service.setCachedResponse 1000 Service.reliable "k"
                 (Sample.answer claude "hello") claude Service.init)))
  = Throw (new_TypeError "cache.entries.get is not a function").
Proof.
  assert (T : Service.cacheTimeout <= 11000 - 1000)
    by (unfold Service.cacheTimeout; lia).
  split; [reflexivity|]. split; [exact T|]. split; [lia|].
  exact (lookup_after_timeout_throws "k" (Sample.answer claude "hello") claude
           1000 11000 Service.reliable Service.init eq_refl T).
Defined.


(** C5. Writes that are 5 seconds or more apart leave one entry in the
    cache, however many keys were written. From nothing stored and on a
    storage that works, after any number of writes of which each comes
    [cacheTimeout] or more after the one before it, the service holds the
    entry of the last write alone: each write finds the memo timed out and
    rebuilds the cache from the copy of [chrome.storage], where the [Map]
    of the entries was stored as an empty object. *)
Theorem spaced_writes_keep_last (w : Service.Write) (ws : list Service.Write) :
  Service.spaced (w :: ws) = true ->
  Service.writes (w :: ws) Service.init = Service.alone (List.last ws w).
Proof.
  intros H.
  change (Service.writes (w :: ws) Service.init)
    with (Service.writes ws (Service.alone w)).
  apply writes_spaced, H.
Qed.

Lemma spaced_writes_keep_last_witness :
  Service.spaced (Cases.nthWrite 5000 0 :: Cases.moreWrites 5000 100) = true /\
  length (Cases.nthWrite 5000 0 :: Cases.moreWrites 5000 100) = 101%nat /\
  NoDup (Service.w_key <$> Cases.nthWrite 5000 0 :: Cases.moreWrites 5000 100) /\
  Service.held
    (Service.writes (Cases.nthWrite 5000 0 :: Cases.moreWrites 5000 100)
       Service.init)
  = Some {| Storage.entries :=
              [("k100", Service.entry_of (Cases.nthWrite 5000 100))];
            Storage.maxSize := 100; Storage.ttl := 3600000 |}.
Proof.
  assert (S : Service.spaced (Cases.nthWrite 5000 0 :: Cases.moreWrites 5000 100)
              = true) by (vm_compute; reflexivity).
  split; [exact S|]. split; [reflexivity|]. split.
  - apply (bool_decide_unpack _). vm_compute. exact I.
  - rewrite (spaced_writes_keep_last (Cases.nthWrite 5000 0)
               (Cases.moreWrites 5000 100) S).
    vm_compute. reflexivity.
Defined.

(** X30. Writes within the memo fill the cache and then evict what was
    written first. From nothing stored, on a storage that works, 101 writes under keys of their own, each
    after the one before it and less than [cacheTimeout] after it, leave
    the 100 keys written last, in the order of their writes. *)
Theorem close_writes_evict_first (w : Service.Write) (ws : list Service.Write) :
  Service.close (w :: ws) = true ->
  NoDup (Service.w_key <$> w :: ws) ->
  length (w :: ws) = 101%nat ->
  exists c,
    Service.held (Service.writes (w :: ws) Service.init) = Some c /\
    (Storage.entries c).*1 = Service.w_key <$> ws /\
    Storage.Map_size (Storage.entries c) = 100 /\
    Service.w_key w ∉ (Storage.entries c).*1.
Proof.
  intros Hcl Hnd Hlen.
  change (Service.writes (w :: ws) Service.init)
    with (Service.writes ws (Service.alone w)).
  set (c0 := {| Storage.entries := [(Service.w_key w, Service.entry_of w)];
                Storage.maxSize := 100; Storage.ttl := 3600000 |}).
  set (s0 := {| Storage.settings := None; Storage.apiKeys := fun _ => None;
                Storage.usage := None; Storage.cache := Some c0 |}).
  assert (T0 : Storage.tracks 100 3600000 (Service.w_now w) (Service.w_now w)
                 [Service.w_key w] s0).
  { unfold Storage.tracks. simpl. repeat split.
    - repeat constructor.
    - repeat constructor; simpl; lia. }
  rewrite fmap_cons in Hnd. simpl in Hlen.
  destruct (writes_close 100 3600000 (Service.w_now w) ws w [Service.w_key w]
              c0 (Service.alone w) s0 eq_refl eq_refl T0 ltac:(lia) Hcl Hnd)
    as (c & s' & hi & Hh & Hc & Ht).
  { simpl. rewrite length_fmap. lia. }
  exists c. split; [exact Hh|].
  unfold Storage.tracks in Ht. rewrite Hc in Ht.
  destruct Ht as (_ & _ & Hk & _ & _).
  assert (Hkept : Storage.kept 100 ([Service.w_key w] ++ (Service.w_key <$> ws))
                  = Service.w_key <$> ws).
  { unfold Storage.kept. simpl length. rewrite length_fmap.
    destruct (_ <=? _) eqn:E; [apply Z.leb_le in E; lia | reflexivity]. }
  rewrite Hkept in Hk. split; [exact Hk|]. split.
  - unfold Storage.Map_size. rewrite <- (length_fmap fst), Hk, length_fmap. lia.
  - rewrite Hk. apply NoDup_cons in Hnd as [Hnot _]. exact Hnot.
Qed.

Lemma close_writes_evict_first_witness :
  Service.close (Cases.nthWrite 1000 0 :: Cases.moreWrites 1000 100) = true /\
  exists c,
    Service.held
      (Service.writes (Cases.nthWrite 1000 0 :: Cases.moreWrites 1000 100)
         Service.init) = Some c /\
    (Storage.entries c).*1 = Service.w_key <$> Cases.moreWrites 1000 100 /\
    Storage.Map_size (Storage.entries c) = 100 /\
    "k0" ∉ (Storage.entries c).*1.
Proof.
  assert (C : Service.close (Cases.nthWrite 1000 0 :: Cases.moreWrites 1000 100)
              = true) by (vm_compute; reflexivity).
  split; [exact C|].
  apply (close_writes_evict_first (Cases.nthWrite 1000 0)
           (Cases.moreWrites 1000 100) C).
  - apply (bool_decide_unpack _). vm_compute. exact I.
  - reflexivity.
Defined.



(** ** Adapter failures *)

Section AdapterFailures.

Lemma or_string_nonempty (s : option string) (d : string) :
  d <> "" -> or_string s d <> "".
Proof. destruct s as [[|c r]|]; simpl; auto; discriminate. Qed.

(** Whatever the status and the body, the classified message is not empty. *)
Lemma classify_nonempty (a : Adapter.AdapterClass) (status : Z)
    (data_error_message : option string) :
  Adapter.classify a status data_error_message <> "".
Proof.
  unfold Adapter.classify.
  destruct a;
    repeat match goal with
           | |- context [if ?b then _ else _] => destruct b
           end;
    first [discriminate | apply or_string_nonempty; discriminate].
Qed.

End AdapterFailures.

(** C7. When the HTTP call of an adapter's [sendRequest] fails with a
    status, whichever the adapter, the status and the body, [sendRequest]
    returns (its [catch] returns what [handleError] builds; nothing is
    thrown) a response of that adapter whose content is the empty string
    and whose error is a non-empty message: the invalid key message for
    401, a rate limit message for 429, the temporary unavailability message
    for 500, 502 and 503, and for any other status the message of the body
    or ["HTTP <status> error"]. *)
Theorem sendRequest_returns_classified_error (a : Adapter.AdapterClass)
    (request : AIRequest) (status : Z) (data_error_message : option string) :
  let r := Adapter.sendRequest a request
             (Adapter.Rejected (Adapter.WithResponse status data_error_message)) in
  r_content r = "" /\
  r_provider r = Adapter.provider_of a /\
  r_error r = Some (Adapter.classify a status data_error_message) /\
  Adapter.classify a status data_error_message <> "" /\
  (status = 401 ->
   r_error r = Some match a with
                    | Adapter.GeminiAPI => "Invalid or missing API key"
                    | _ => "Invalid API key"
                    end) /\
  (status = 429 ->
   exists text, r_error r = Some text /\ startsWith "Rate limit exceeded" text = true) /\
  (status = 500 \/ status = 502 \/ status = 503 ->
   r_error r = Some (match a with
                     | Adapter.ClaudeAPI => "Claude"
                     | Adapter.ChatGPTAPI => "OpenAI"
                     | Adapter.GeminiAPI => "Gemini"
                     | Adapter.GrokAPI => "Grok"
                     end +:+ " API is temporarily unavailable")).
Proof.
  cbv zeta. repeat split.
  - apply classify_nonempty.
  - intros ->. destruct a; reflexivity.
  - intros ->. destruct a; eexists; split; reflexivity.
  - intros [->|[->| ->]]; destruct a; reflexivity.
Qed.

Lemma sendRequest_returns_classified_error_witness :
  r_error (Adapter.sendRequest Adapter.ClaudeAPI (Sample.ask None "hello")
             (Adapter.Rejected (Adapter.WithResponse 401 None)))
  = Some "Invalid API key" /\
  (exists text,
     r_error (Adapter.sendRequest Adapter.GrokAPI (Sample.ask None "hello")
                (Adapter.Rejected (Adapter.WithResponse 429 None)))
     = Some text /\ startsWith "Rate limit exceeded" text = true) /\
  r_error (Adapter.sendRequest Adapter.GeminiAPI (Sample.ask None "hello")
             (Adapter.Rejected (Adapter.WithResponse 503 None)))
  = Some "Gemini API is temporarily unavailable".
Proof.
  split; [|split].
  - apply (sendRequest_returns_classified_error Adapter.ClaudeAPI
             (Sample.ask None "hello") 401 None). reflexivity.
  - apply (sendRequest_returns_classified_error Adapter.GrokAPI
             (Sample.ask None "hello") 429 None). reflexivity.
  - apply (sendRequest_returns_classified_error Adapter.GeminiAPI
             (Sample.ask None "hello") 503 None). right. right. reflexivity.
Defined.

(** ** The in-flight set *)

Section InFlight.

(** With no chunk and no other task, a call gives the in-flight set back
    as it found it, less its own id. *)
Lemma sendRequest_restores (call : Manager.Call) (request : AIRequest)
    (p : AIProvider) (a : Adapter.AdapterClass) (m : Manager.State) :
  Manager.providers m !! p = Some a ->
  Manager.chunks call = [] -> Manager.during call = [] ->
  Manager.activeRequests (snd (Manager.sendRequest call request p m))
  = delete (Manager.requestId call) (Manager.activeRequests m).
Proof.
  intros Hp Hc Hd. unfold Manager.sendRequest, Manager.attempt,
    Manager.handleStreamingRequest. rewrite Hp, Hc, Hd. simpl.
  destruct (bool_decide (stream request = Some true)); simpl.
  - destruct (Manager.final call); simpl; apply delete_insert_eq.
  - apply delete_insert_eq.
Qed.

(** A call that registered its id has deleted it when it settles. *)
Lemma sendRequest_deletes (call : Manager.Call) (request : AIRequest)
    (p : AIProvider) (a : Adapter.AdapterClass) (m : Manager.State) :
  Manager.providers m !! p = Some a ->
  Manager.activeRequests (snd (Manager.sendRequest call request p m))
    !! Manager.requestId call = None.
Proof.
  intros Ha. unfold Manager.sendRequest. rewrite Ha.
  destruct (Manager.attempt a call request _) as [r m2]. simpl.
  apply lookup_delete_eq.
Qed.

(** A call for an unknown provider leaves the manager as it was. *)
Lemma sendRequest_unknown (call : Manager.Call) (request : AIRequest)
    (p : AIProvider) (m : Manager.State) :
  Manager.providers m !! p = None ->
  Manager.sendRequest call request p m
  = (Throw (new_Error ("Unknown provider: " +:+ AIProvider_name p)), m).
Proof. intros Hn. unfold Manager.sendRequest. rewrite Hn. reflexivity. Qed.

End InFlight.

(** C8. However a [sendRequest] that registered a request id settles, with
    a response or with a thrown error, cancelled or not, and whatever other
    tasks did to the manager meanwhile, the id is not in [activeRequests]
    afterwards. A call for an unknown provider throws before it registers
    anything and leaves the manager as it was. [cancelRequest] removes the
    id it is given, and [cancelAllRequests] leaves no id. *)
Theorem sendRequest_deregisters (call : Manager.Call) (request : AIRequest)
    (p : AIProvider) (m : Manager.State) :
  (is_Some (Manager.providers m !! p) ->
   Manager.activeRequests (snd (Manager.sendRequest call request p m))
     !! Manager.requestId call = None) /\
  (Manager.providers m !! p = None ->
   Manager.sendRequest call request p m
   = (Throw (new_Error ("Unknown provider: " +:+ AIProvider_name p)), m)) /\
  (forall id, Manager.activeRequests (Manager.cancelRequest id m) !! id = None) /\
  Manager.activeRequests (Manager.cancelAllRequests m) = ∅.
Proof.
  split; [|split; [|split]].
  - intros [a Ha]. apply (sendRequest_deletes call request p a m Ha).
  - apply sendRequest_unknown.
  - intros id. unfold Manager.cancelRequest.
    destruct (Manager.activeRequests m !! id) eqn:E; simpl;
      [apply lookup_delete_eq | exact E].
  - reflexivity.
Qed.

Lemma sendRequest_deregisters_witness :
  is_Some (Manager.providers Manager.init !! claude) /\
  fst (Manager.sendRequest Sample.cancelledStream
         (Sample.streaming (Sample.ask (Some claude) "hello")) claude Manager.init)
  = Throw Manager.cancelled /\
  Manager.activeRequests
    (snd (Manager.sendRequest Sample.cancelledStream
            (Sample.streaming (Sample.ask (Some claude) "hello")) claude
            Manager.init))
    !! Manager.requestId Sample.cancelledStream = None.
Proof.
  assert (H : is_Some (Manager.providers Manager.init !! claude))
    by (eexists; reflexivity).
  split; [exact H|]. split; [vm_compute; reflexivity|].
  exact (proj1 (sendRequest_deregisters Sample.cancelledStream
                  (Sample.streaming (Sample.ask (Some claude) "hello")) claude
                  Manager.init) H).
Defined.

(** ** Usage accounting *)

Section UsageFacts.

Variables (today : string) (p : AIProvider) (response : AIResponse).

Lemma requestsOn_cons (day : string) (d : Storage.DailyUsage)
    (days : list Storage.DailyUsage) :
  Dispatch.requestsOn day (d :: days)
  = if String.eqb (Storage.date d) day then Storage.du_requests d
    else Dispatch.requestsOn day days.
Proof.
  unfold Dispatch.requestsOn. simpl.
  destruct (String.eqb (Storage.date d) day); reflexivity.
Qed.

(** When the day has a bucket, the first such bucket counts one more
    request; no bucket is added, and the others are as they were. *)
Lemma bumpFirst_Some (days updated : list Storage.DailyUsage) :
  Dispatch.bumpFirst today p response days = Some updated ->
  Dispatch.requestsOn today updated = Dispatch.requestsOn today days + 1 /\
  length updated = length days /\
  forall d, d ∈ updated -> Storage.date d <> today -> d ∈ days.
Proof.
  revert updated. induction days as [|d days IH]; intros updated; simpl;
    [discriminate|].
  destruct (String.eqb (Storage.date d) today) eqn:E.
  - intros [= <-]. rewrite !requestsOn_cons. simpl. rewrite E.
    split; [reflexivity|]. split; [reflexivity|].
    intros d' Hin Hne. apply elem_of_cons in Hin as [->|Hin].
    + simpl in Hne. apply String.eqb_eq in E. contradiction.
    + right. exact Hin.
  - destruct (Dispatch.bumpFirst today p response days) as [l|]; [|discriminate].
    intros [= <-]. destruct (IH l eq_refl) as (H1 & H2 & H3).
    rewrite !requestsOn_cons, E. split; [exact H1|]. split; [simpl; lia|].
    intros d' Hin Hne. apply elem_of_cons in Hin as [->|Hin];
      [left | right; apply H3; assumption].
Qed.

(** When it has none, no request is counted on it. *)
Lemma bumpFirst_None (days : list Storage.DailyUsage) :
  Dispatch.bumpFirst today p response days = None ->
  Forall (fun d => String.eqb (Storage.date d) today = false) days.
Proof.
  induction days as [|d days IH]; simpl; [constructor|].
  destruct (String.eqb (Storage.date d) today) eqn:E; [discriminate|].
  destruct (Dispatch.bumpFirst today p response days); [discriminate|].
  intros _. constructor; auto.
Qed.

Lemma requestsOn_absent (day : string) (days more : list Storage.DailyUsage) :
  Forall (fun d => String.eqb (Storage.date d) day = false) days ->
  Dispatch.requestsOn day (days ++ more)%list = Dispatch.requestsOn day more.
Proof.
  induction 1 as [|d days Hd Hdays IH]; [reflexivity|].
  simpl. rewrite requestsOn_cons, Hd. exact IH.
Qed.

Lemma requestsOn_none (day : string) (days : list Storage.DailyUsage) :
  Forall (fun d => String.eqb (Storage.date d) day = false) days ->
  Dispatch.requestsOn day days = 0.
Proof.
  induction 1 as [|d days Hd Hdays IH]; [reflexivity|].
  rewrite requestsOn_cons, Hd. exact IH.
Qed.

(** [slice(-30)] drops from the front what exceeds 30. *)
Lemma slice_last_30 {A} (l : list A) :
  Array_slice_from l (-30) = drop (length l - 30) l.
Proof.
  unfold Array_slice_from, rel_index.
  replace (-30 <? 0) with true by reflexivity.
  f_equal. lia.
Qed.

Lemma updateDaily_length (days : list Storage.DailyUsage) :
  (length (Dispatch.updateDaily today p response days) <= 30)%nat.
Proof.
  unfold Dispatch.updateDaily. rewrite slice_last_30, length_drop. lia.
Qed.

(** The request is counted on the day [today], and on no other day. *)
Lemma updateDaily_counts (days : list Storage.DailyUsage) :
  (length days <= 30)%nat ->
  Dispatch.requestsOn today (Dispatch.updateDaily today p response days)
  = Dispatch.requestsOn today days + 1 /\
  forall d, d ∈ Dispatch.updateDaily today p response days ->
            Storage.date d <> today -> d ∈ days.
Proof.
  intros Hlen. unfold Dispatch.updateDaily. rewrite slice_last_30.
  destruct (Dispatch.bumpFirst today p response days) as [updated|] eqn:B.
  - destruct (bumpFirst_Some days updated B) as (H1 & H2 & H3).
    replace (length updated - 30)%nat with 0%nat by lia. rewrite drop_0.
    auto.
  - pose proof (bumpFirst_None days B) as Hnone.
    rewrite length_app. simpl length.
    rewrite drop_app_le by lia.
    assert (Hd : Forall (fun d => String.eqb (Storage.date d) today = false)
                   (drop (length days + 1 - 30) days))
      by (apply Forall_drop, Hnone).
    split.
    + rewrite (requestsOn_absent today _ _ Hd), (requestsOn_none today days Hnone).
      rewrite requestsOn_cons. simpl. rewrite String.eqb_refl. reflexivity.
    + intros d Hin Hne. apply elem_of_app in Hin as [Hin|Hin].
      * exact (subseteq_drop _ _ _ Hin).
      * apply list_elem_of_singleton in Hin as ->. simpl in Hne. contradiction.
Qed.

End UsageFacts.

(** The date part of [toISOString()] at some instants: the epoch, the last
    millisecond of a leap day, the millisecond before the epoch, and the
    first instant of the year 10000. *)
Example isoDate_samples :
  Calendar.isoDate 0 = "1970-01-01" /\
  Calendar.isoDate 1709251199999 = "2024-02-29" /\
  Calendar.isoDate (-1) = "1969-12-31" /\
  Calendar.isoDate 253402300800000 = "+010000-01-01" /\
  Calendar.isoDate Sample.juneNight = "2024-06-02".
Proof. repeat split; vm_compute; reflexivity. Qed.

(** Every write leaves at most 30 buckets. *)
Lemma trackUsage_at_most_30 (now : Z) (p : AIProvider) (response : AIResponse)
    (s : Storage.Store) (u : Storage.UsageStats) :
  Storage.usage (snd (Dispatch.trackUsage now None p response s)) = Some u ->
  (length (Storage.dailyUsage u) <= 30)%nat.
Proof.
  unfold Dispatch.trackUsage.
  destruct (Storage.usage s); simpl; intros [= <-]; apply updateDaily_length.
Qed.

(** A write that the storage accepts returns. *)
Lemma trackUsage_accepted (now : Z) (p : AIProvider) (response : AIResponse)
    (s : Storage.Store) :
  Dispatch.trackUsage now None p response s
  = (Return tt, snd (Dispatch.trackUsage now None p response s)).
Proof. unfold Dispatch.trackUsage. destruct (Storage.usage s); reflexivity. Qed.

(** C9, as the code has it. The statistics hold one bucket, of 2024-01-01,
    and a response is recorded at 02:00 UTC on 2024-06-02, which in New York
    is still the evening of June 1st. Afterwards the bucket of January, 153
    days old, is still stored, and the request is in a bucket dated
    2024-06-02, the date in UTC, not the local 2024-06-01. *)
Lemma usage_keeps_old_bucket_and_dates_in_utc :
  exists u old,
    Storage.usage
      (snd (Dispatch.trackUsage Sample.juneNight None claude
              (Sample.answer claude "hello") Sample.sparseStore)) = Some u /\
    Storage.date <$> Storage.dailyUsage u = ["2024-01-01"; "2024-06-02"] /\
    old ∈ Storage.dailyUsage u /\
    Dispatch.daysOld Sample.juneNight old = Some 153 /\
    Calendar.localDate Sample.newYork Sample.juneNight = "2024-06-01" /\
    Dispatch.requestsOn "2024-06-01" (Storage.dailyUsage u) = 0 /\
    Dispatch.requestsOn "2024-06-02" (Storage.dailyUsage u) = 1.
Proof.
  eexists _, _. split; [reflexivity|]. simpl Storage.dailyUsage.
  split; [vm_compute; reflexivity|].
  split; [unfold Dispatch.updateDaily; vm_compute Array_slice_from;
          apply list_elem_of_here|].
  repeat split; vm_compute; reflexivity.
Qed.

(** C9, amended: each write counts its request in the bucket of the
    calendar date, [YYYY-MM-DD], that the instant of the write has in UTC.
    On statistics of at most 30 buckets, which every write leaves, the
    requests counted on that date grow by one, and every bucket of another
    date that is stored afterwards was stored before, unchanged. *)
Theorem trackUsage_buckets_by_utc_date (now : Z) (p : AIProvider)
    (response : AIResponse) (s : Storage.Store) :
  (length (Storage.dailyUsage (default Dispatch.emptyUsage (Storage.usage s)))
   <= 30)%nat ->
  exists u,
    Storage.usage (snd (Dispatch.trackUsage now None p response s)) = Some u /\
    Dispatch.requestsOn (Calendar.isoDate now) (Storage.dailyUsage u)
    = Dispatch.requestsOn (Calendar.isoDate now)
        (Storage.dailyUsage (default Dispatch.emptyUsage (Storage.usage s))) + 1 /\
    forall d, d ∈ Storage.dailyUsage u ->
              Storage.date d <> Calendar.isoDate now ->
              d ∈ Storage.dailyUsage (default Dispatch.emptyUsage (Storage.usage s)).
Proof.
  intros Hlen. unfold Dispatch.trackUsage.
  exists (Dispatch.record (Calendar.isoDate now) p response
            (default Dispatch.emptyUsage (Storage.usage s))).
  split; [destruct (Storage.usage s); reflexivity|].
  simpl Storage.dailyUsage. apply updateDaily_counts, Hlen.
Qed.

Lemma trackUsage_buckets_by_utc_date_witness :
  (length (Storage.dailyUsage
             (default Dispatch.emptyUsage (Storage.usage Sample.sparseStore)))
   <= 30)%nat /\
  exists u,
    Storage.usage
      (snd (Dispatch.trackUsage Sample.juneNight None claude
              (Sample.answer claude "hello") Sample.sparseStore)) = Some u /\
    Dispatch.requestsOn (Calendar.isoDate Sample.juneNight) (Storage.dailyUsage u)
    = Dispatch.requestsOn (Calendar.isoDate Sample.juneNight)
        (Storage.dailyUsage
           (default Dispatch.emptyUsage (Storage.usage Sample.sparseStore))) + 1 /\
    forall d, d ∈ Storage.dailyUsage u ->
              Storage.date d <> Calendar.isoDate Sample.juneNight ->
              d ∈ Storage.dailyUsage
                    (default Dispatch.emptyUsage (Storage.usage Sample.sparseStore)).
Proof.
  assert (H : (length (Storage.dailyUsage
                         (default Dispatch.emptyUsage
                            (Storage.usage Sample.sparseStore))) <= 30)%nat)
    by (simpl; lia).
  split; [exact H|].
  exact (trackUsage_buckets_by_utc_date Sample.juneNight claude
           (Sample.answer claude "hello") Sample.sparseStore H).
Defined.

(** ** The cache fingerprint *)

Section Base64.

Lemma unsextet_sextet (b5 b4 b3 b2 b1 b0 : bool) :
  Text.unsextet (Text.sextet b5 b4 b3 b2 b1 b0) = (b5, b4, b3, b2, b1, b0).
Proof. destruct b5, b4, b3, b2, b1, b0; reflexivity. Qed.

Lemma sextet_not_pad (b5 b4 b3 b2 b1 b0 : bool) :
  Text.sextet b5 b4 b3 b2 b1 b0 <> "="%char.
Proof. destruct b5, b4, b3, b2, b1, b0; discriminate. Qed.

Lemma sextet_inj (a5 a4 a3 a2 a1 a0 b5 b4 b3 b2 b1 b0 : bool) :
  Text.sextet a5 a4 a3 a2 a1 a0 = Text.sextet b5 b4 b3 b2 b1 b0 ->
  (a5, a4, a3, a2, a1, a0) = (b5, b4, b3, b2, b1, b0).
Proof.
  intros H. rewrite <- (unsextet_sextet a5), <- (unsextet_sextet b5), H.
  reflexivity.
Qed.

Lemma quad1_not_pad (a : ascii) : Text.quad1 a <> "="%char.
Proof. destruct a. apply sextet_not_pad. Qed.

Lemma quad2_not_pad (a b : ascii) : Text.quad2 a b <> "="%char.
Proof. destruct a, b. apply sextet_not_pad. Qed.

Lemma quad3_not_pad (a b : ascii) : Text.quad3 a b <> "="%char.
Proof. destruct a, b. apply sextet_not_pad. Qed.

Lemma quad4_not_pad (a : ascii) : Text.quad4 a <> "="%char.
Proof. destruct a. apply sextet_not_pad. Qed.

(** The characters of a group determine its bytes. *)
Lemma quads_inj (a b c a' b' c' : ascii) :
  Text.quad1 a = Text.quad1 a' -> Text.quad2 a b = Text.quad2 a' b' ->
  Text.quad3 b c = Text.quad3 b' c' -> Text.quad4 c = Text.quad4 c' ->
  a = a' /\ b = b' /\ c = c'.
Proof.
  destruct a, b, c, a', b', c'. unfold Text.quad1, Text.quad2, Text.quad3, Text.quad4.
  intros H1 H2 H3 H4.
  apply sextet_inj in H1, H2, H3, H4.
  injection H1 as -> -> -> -> -> ->. injection H2 as -> -> -> -> -> ->.
  injection H3 as -> -> -> -> -> ->. injection H4 as -> -> -> -> -> ->.
  auto.
Qed.

Lemma quads_inj2 (a b a' b' : ascii) :
  Text.quad1 a = Text.quad1 a' -> Text.quad2 a b = Text.quad2 a' b' ->
  Text.quad3 b Ascii.zero = Text.quad3 b' Ascii.zero ->
  a = a' /\ b = b'.
Proof.
  destruct a, b, a', b'. unfold Text.quad1, Text.quad2, Text.quad3, Ascii.zero.
  intros H1 H2 H3.
  apply sextet_inj in H1, H2, H3.
  injection H1 as -> -> -> -> -> ->. injection H2 as -> -> -> -> -> ->.
  injection H3 as -> -> -> ->.
  auto.
Qed.

Lemma quads_inj1 (a a' : ascii) :
  Text.quad1 a = Text.quad1 a' ->
  Text.quad2 a Ascii.zero = Text.quad2 a' Ascii.zero ->
  a = a'.
Proof.
  destruct a, a'. unfold Text.quad1, Text.quad2, Ascii.zero.
  intros H1 H2.
  apply sextet_inj in H1, H2.
  injection H1 as -> -> -> -> -> ->. injection H2 as -> ->.
  reflexivity.
Qed.

Lemma btoa_group (a b c : ascii) (r : string) :
  Text.btoa (String a (String b (String c r)))
  = String (Text.quad1 a) (String (Text.quad2 a b)
      (String (Text.quad3 b c) (String (Text.quad4 c) (Text.btoa r)))).
Proof. reflexivity. Qed.

Ltac pad_clash :=
  match goal with
  | H : Text.quad1 _ = "="%char |- _ => destruct (quad1_not_pad _ H)
  | H : "="%char = Text.quad1 _ |- _ => destruct (quad1_not_pad _ (eq_sym H))
  | H : Text.quad2 _ _ = "="%char |- _ => destruct (quad2_not_pad _ _ H)
  | H : "="%char = Text.quad2 _ _ |- _ => destruct (quad2_not_pad _ _ (eq_sym H))
  | H : Text.quad3 _ _ = "="%char |- _ => destruct (quad3_not_pad _ _ H)
  | H : "="%char = Text.quad3 _ _ |- _ => destruct (quad3_not_pad _ _ (eq_sym H))
  | H : Text.quad4 _ = "="%char |- _ => destruct (quad4_not_pad _ H)
  | H : "="%char = Text.quad4 _ |- _ => destruct (quad4_not_pad _ (eq_sym H))
  end.

(** [btoa] is injective: by induction on a bound of the length, three
    bytes at a time. *)
Lemma btoa_inj_bounded (n : nat) :
  forall s1 s2 : string,
    (String.length s1 <= n)%nat -> Text.btoa s1 = Text.btoa s2 -> s1 = s2.
Proof.
  induction n as [n IH] using lt_wf_ind. intros s1 s2 Hn H.
  destruct s1 as [|a1 [|b1 [|c1 r1]]], s2 as [|a2 [|b2 [|c2 r2]]];
    rewrite ?btoa_group in H;
    cbn [Text.btoa] in H; unfold Text.encode1, Text.encode2 in H;
    try reflexivity; try discriminate H;
    simplify_eq; try pad_clash.
  - match goal with
    | H1 : Text.quad1 _ = Text.quad1 _, H2 : Text.quad2 _ _ = Text.quad2 _ _ |- _ =>
        rewrite (quads_inj1 _ _ H1 H2)
    end. reflexivity.
  - match goal with
    | H1 : Text.quad1 _ = Text.quad1 _, H2 : Text.quad2 _ _ = Text.quad2 _ _,
      H3 : Text.quad3 _ _ = Text.quad3 _ _ |- _ =>
        destruct (quads_inj2 _ _ _ _ H1 H2 H3) as [-> ->]
    end. reflexivity.
  - match goal with
    | H1 : Text.quad1 _ = Text.quad1 _, H2 : Text.quad2 _ _ = Text.quad2 _ _,
      H3 : Text.quad3 _ _ = Text.quad3 _ _, H4 : Text.quad4 _ = Text.quad4 _,
      H5 : Text.btoa _ = Text.btoa _ |- _ =>
        destruct (quads_inj _ _ _ _ _ _ H1 H2 H3 H4) as (-> & -> & ->);
        rewrite (IH (String.length r1) ltac:(simpl in Hn; lia) r1 r2 (le_n _) H5)
    end. reflexivity.
Qed.

Lemma btoa_inj (s1 s2 : string) : Text.btoa s1 = Text.btoa s2 -> s1 = s2.
Proof. apply (btoa_inj_bounded (String.length s1)). reflexivity. Qed.

End Base64.

Section Fingerprint.

Lemma append_assoc (a b c : string) : (a +:+ b) +:+ c = a +:+ (b +:+ c).
Proof.
  induction a as [|x a IH]; [reflexivity|].
  change (String x ((a +:+ b) +:+ c) = String x (a +:+ (b +:+ c))).
  rewrite IH. reflexivity.
Qed.

(** The joined text starts with its first part. *)
Lemma join_comma_prefix (p : string) (ps : list string) :
  exists rest, Text.join_comma (p :: ps) = p +:+ rest.
Proof.
  simpl. revert p. induction ps as [|q ps IH]; intros p; simpl.
  - exists "". induction p as [|x p IHp]; [reflexivity|].
    change (String x p = String x (p +:+ "")). rewrite <- IHp. reflexivity.
  - destruct (IH (p +:+ "," +:+ q)) as [rest ->].
    exists (("," +:+ q) +:+ rest). exact (append_assoc p ("," +:+ q) rest).
Qed.

(** The key text of a request that names a provider starts with the name. *)
Lemma key_text_prefix (request : AIRequest) (p : AIProvider) :
  provider request = Some p ->
  exists rest,
    Text.JSON_stringify (Dispatch.cacheKey_json request) = Dispatch.key_prefix p +:+ rest.
Proof.
  intros Hp. unfold Dispatch.cacheKey_json. rewrite Hp.
  cbn [Text.JSON_stringify fmap option_fmap option_map].
  match goal with
  | |- context [Text.join_comma (?x :: ?l)] =>
      destruct (join_comma_prefix x l) as [rest ->]
  end.
  exists (rest +:+ "}"). unfold Dispatch.key_prefix.
  rewrite !append_assoc. reflexivity.
Qed.

(** Two provider names differ before either ends. *)
Lemma key_prefix_distinct (p1 p2 : AIProvider) (rest1 rest2 : string) :
  p1 <> p2 -> Dispatch.key_prefix p1 +:+ rest1 <> Dispatch.key_prefix p2 +:+ rest2.
Proof.
  intros Hne H. destruct p1, p2; try (apply Hne; reflexivity);
    vm_compute in H; discriminate H.
Qed.

End Fingerprint.

(** C6, as the code has it. The request names no provider. With every
    provider enabled it resolves to [grok], whose answer is cached; with
    [grok] switched off the same request resolves to [chatgpt], and the
    second dispatch returns the entry of the first: the key is computed
    from the request as received, where [provider] is absent, not from the
    resolved provider. *)
Lemma cache_entry_shared_by_two_providers :
  let request := Sample.ask None "Debug this function" in
  let first :=
    Dispatch.sendToAI (Sample.env 1000 (Sample.answered "req-1" "from grok"))
      request Sample.world in
  let later :=
    Sample.configure (Sample.only (fun p => negb (bool_decide (p = grok))))
      (snd first) in
  let second :=
    Dispatch.sendToAI (Sample.env 2000 (Sample.answered "req-2" "from chatgpt"))
      request later in
  fst (Dispatch.resolveProvider request Sample.world) = Return grok /\
  fst (Dispatch.resolveProvider request later) = Return chatgpt /\
  r_provider (fst first) = grok /\
  r_content (fst first) = "from grok" /\
  fst second = fst first.
Proof. vm_compute. repeat split; reflexivity. Qed.

(** C6, amended: the fingerprint, the same [generateCacheKey(request)] for
    the lookup and for the store ([sendToAI_hit] and [sendToAI_stores]
    below), is a function of the [provider] the request itself names, if
    any, and of its model, messages, temperature and maxTokens: requests
    that agree on the five have the same key whatever else they hold, and
    requests that name different providers have different keys. *)
Theorem cacheKey_of_request_fields :
  (forall r1 r2 : AIRequest,
     provider r1 = provider r2 -> model r1 = model r2 ->
     messages r1 = messages r2 -> temperature r1 = temperature r2 ->
     maxTokens r1 = maxTokens r2 ->
     Dispatch.generateCacheKey r1 = Dispatch.generateCacheKey r2) /\
  (forall (r1 r2 : AIRequest) (p1 p2 : AIProvider),
     provider r1 = Some p1 -> provider r2 = Some p2 -> p1 <> p2 ->
     Dispatch.generateCacheKey r1 <> Dispatch.generateCacheKey r2).
Proof.
  split.
  - intros r1 r2 Hp Hm Hs Ht Hx.
    unfold Dispatch.generateCacheKey, Dispatch.cacheKey_json.
    rewrite Hp, Hm, Hs, Ht, Hx. reflexivity.
  - intros r1 r2 p1 p2 H1 H2 Hne H.
    apply btoa_inj in H.
    destruct (key_text_prefix r1 p1 H1) as [rest1 E1].
    destruct (key_text_prefix r2 p2 H2) as [rest2 E2].
    rewrite E1, E2 in H. exact (key_prefix_distinct p1 p2 rest1 rest2 Hne H).
Qed.

Lemma cacheKey_of_request_fields_witness :
  Dispatch.generateCacheKey (Sample.ask None "hello")
  = Dispatch.generateCacheKey (Sample.streaming (Sample.ask None "hello")) /\
  Dispatch.generateCacheKey (Sample.ask (Some claude) "hello")
  <> Dispatch.generateCacheKey (Sample.ask (Some grok) "hello").
Proof.
  split.
  - apply (proj1 cacheKey_of_request_fields); reflexivity.
  - apply (proj2 cacheKey_of_request_fields _ _ claude grok);
      [reflexivity | reflexivity | discriminate].
Defined.

(** ** The entry point *)

Section EntryPoint.

Variables (env : Dispatch.Env) (request : AIRequest) (w : Dispatch.World).

(** A step that returns passes its value and its world on. *)
Lemma bind_Return {A B} (t : Dispatch.Task A) (k : A -> Dispatch.Task B)
    (w0 : Dispatch.World) (x : A) (w1 : Dispatch.World) :
  t w0 = (Return x, w1) -> (t ≫= k) w0 = k x w1.
Proof. intros H. unfold mbind, Dispatch.Task_bind. rewrite H. reflexivity. Qed.

(** A step that throws ends the block. *)
Lemma bind_Throw {A B} (t : Dispatch.Task A) (k : A -> Dispatch.Task B)
    (w0 : Dispatch.World) (e : JS.Error) (w1 : Dispatch.World) :
  t w0 = (Throw e, w1) -> (t ≫= k) w0 = (Throw e, w1).
Proof. intros H. unfold mbind, Dispatch.Task_bind. rewrite H. reflexivity. Qed.

Lemma bind_pure {A B} (c : Dispatch.World -> Completion A)
    (k : A -> Dispatch.Task B) (w0 : Dispatch.World) (x : A) :
  c w0 = Return x -> (Dispatch.pure c ≫= k) w0 = k x w0.
Proof. intros H. apply bind_Return. unfold Dispatch.pure. rewrite H. reflexivity. Qed.

Lemma bind_mret {A B} (x : A) (k : A -> Dispatch.Task B) (w0 : Dispatch.World) :
  (mret x ≫= k) w0 = k x w0.
Proof. reflexivity. Qed.

Lemma resolveProvider_Return (p : AIProvider) :
  fst (Dispatch.resolveProvider request w) = Return p ->
  Dispatch.resolveProvider request w = (Return p, w).
Proof.
  unfold Dispatch.resolveProvider, Dispatch.pure. simpl. intros ->. reflexivity.
Qed.

Lemma onStore_eq {A} (m : Storage.M A) (w0 : Dispatch.World)
    (r : Completion A) (s : Storage.Store) :
  m (Dispatch.store w0) = (r, s) ->
  Dispatch.onStore m w0
  = (r, {| Dispatch.store := s; Dispatch.aiRouter := Dispatch.aiRouter w0;
           Dispatch.apiManager := Dispatch.apiManager w0 |}).
Proof. intros H. unfold Dispatch.onStore. rewrite H. reflexivity. Qed.

Lemma onManager_eq {A} (m : Manager.State -> Completion A * Manager.State)
    (w0 : Dispatch.World) (r : Completion A) (a : Manager.State) :
  m (Dispatch.apiManager w0) = (r, a) ->
  Dispatch.onManager m w0
  = (r, {| Dispatch.store := Dispatch.store w0;
           Dispatch.aiRouter := Dispatch.aiRouter w0; Dispatch.apiManager := a |}).
Proof. intros H. unfold Dispatch.onManager. rewrite H. reflexivity. Qed.

(** The steps of the [try] block up to the API key. *)
Lemma attempt_missing_key (p : AIProvider) :
  fst (Dispatch.resolveProvider request w) = Return p ->
  truthy_string (Storage.getAPIKey (Dispatch.store w) p) = false ->
  Dispatch.attempt env request w
  = (Throw (new_Error ("API key not found for " +:+ AIProvider_name p)), w).
Proof.
  intros Hp Hk. unfold Dispatch.attempt.
  unfold mbind, Dispatch.Task_bind.
  unfold Dispatch.resolveProvider, Dispatch.pure in *. simpl in Hp.
  rewrite Hp. cbv beta iota. rewrite Hk. reflexivity.
Qed.

(** Routing that fails, for want of an enabled provider, fails the block. *)
Lemma attempt_route_fails (e : JS.Error) :
  fst (Dispatch.resolveProvider request w) = Throw e ->
  Dispatch.attempt env request w = (Throw e, w).
Proof.
  intros Hp. unfold Dispatch.attempt.
  unfold mbind, Dispatch.Task_bind.
  unfold Dispatch.resolveProvider, Dispatch.pure in *. simpl in Hp.
  rewrite Hp. reflexivity.
Qed.

(** With a key and without the cache, what the manager throws, for an
    unknown provider, a cancelled stream or a failed adapter call, is what
    the block throws. *)
Lemma attempt_manager_throws (p : AIProvider) (e : JS.Error) :
  fst (Dispatch.resolveProvider request w) = Return p ->
  truthy_string (Storage.getAPIKey (Dispatch.store w) p) = true ->
  cacheResponses (Storage.getSettings (Dispatch.store w)) = false ->
  fst (Manager.sendRequest (Dispatch.call env) (Dispatch.with_provider p request)
         p (Dispatch.apiManager w)) = Throw e ->
  fst (Dispatch.attempt env request w) = Throw e.
Proof.
  intros Hp Hk Hc Hm. unfold Dispatch.attempt.
  unfold mbind, Dispatch.Task_bind.
  unfold Dispatch.resolveProvider, Dispatch.pure in *. simpl in Hp.
  rewrite Hp. cbv beta iota. rewrite Hk. cbv beta iota.
  unfold mret, Dispatch.Task_ret. rewrite Hc. cbv beta iota.
  unfold Dispatch.onManager.
  destruct (Manager.sendRequest _ _ _ _) as [r a]. simpl in Hm. rewrite Hm.
  reflexivity.
Qed.

(** The lookup is under [generateCacheKey(request)]: a live entry under
    that key is what [sendToAI] returns. *)
Lemma sendToAI_hit (p : AIProvider) (c : Storage.ResponseCache)
    (entry : Storage.CachedResponse) :
  fst (Dispatch.resolveProvider request w) = Return p ->
  truthy_string (Storage.getAPIKey (Dispatch.store w) p) = true ->
  cacheResponses (Storage.getSettings (Dispatch.store w)) = true ->
  Storage.cache (Dispatch.store w) = Some c ->
  Storage.Map_get (Dispatch.generateCacheKey request) (Storage.entries c)
  = Some entry ->
  Dispatch.cacheReadTime env - Storage.timestamp entry <= Storage.ttl c ->
  Dispatch.setFails env Dispatch.OnCacheRead = None ->
  fst (Dispatch.sendToAI env request w) = Storage.response entry.
Proof.
  intros Hp Hk Hc Hs Hg Ht Hf.
  unfold Dispatch.sendToAI, Dispatch.attempt.
  unfold mbind, mret, Dispatch.Task_bind, Dispatch.Task_ret,
    Dispatch.resolveProvider, Dispatch.pure, Dispatch.onStore,
    Dispatch.onManager, Dispatch.throw in *.
  simpl in Hp. rewrite Hp. cbv beta iota. rewrite Hk, Hc. cbv beta iota.
  unfold Storage.getCachedResponse. rewrite Hs, Hg, Hf.
  destruct (Storage.ttl c <? _) eqn:E; [apply Z.ltb_lt in E; lia|].
  reflexivity.
Qed.

(** The store is under the same key: after a miss, an answer without
    error, which [sendToAI] returns, is in the cache under
    [generateCacheKey(request)], with the resolved provider as its owner. *)
Lemma sendToAI_stores (p : AIProvider) (response : AIResponse)
    (a : Manager.State) (s1 : Storage.Store) :
  fst (Dispatch.resolveProvider request w) = Return p ->
  truthy_string (Storage.getAPIKey (Dispatch.store w) p) = true ->
  cacheResponses (Storage.getSettings (Dispatch.store w)) = true ->
  Storage.getCachedResponse (Dispatch.cacheReadTime env)
    (Dispatch.setFails env Dispatch.OnCacheRead)
    (Dispatch.generateCacheKey request) (Dispatch.store w) = (Return None, s1) ->
  Manager.sendRequest (Dispatch.call env) (Dispatch.with_provider p request) p
    (Dispatch.apiManager w) = (Return response, a) ->
  truthy_string (r_error response) = false ->
  Dispatch.setFails env Dispatch.OnCacheWrite = None ->
  Dispatch.setFails env Dispatch.OnUsageWrite = None ->
  Storage.storeInv (Dispatch.cacheWriteTime env) s1 ->
  fst (Dispatch.sendToAI env request w) = response /\
  exists c e,
    Storage.cache (Dispatch.store (snd (Dispatch.sendToAI env request w)))
    = Some c /\
    Storage.Map_get (Dispatch.generateCacheKey request) (Storage.entries c)
    = Some e /\
    Storage.response e = response /\ Storage.provider e = p.
Proof.
  intros Hp Hk Hc Hmiss Hm He Hw Hu Hinv.
  destruct (setCachedResponse_written (Dispatch.cacheWriteTime env)
              (Dispatch.generateCacheKey request) response p s1 Hinv)
    as (c & Hset & _ & Hget).
  assert (E : Dispatch.attempt env request w
              = (Return response,
                 {| Dispatch.store :=
                      snd (Dispatch.trackUsage (Dispatch.usageTime env) None p
                             response (Storage.with_cache (Some c) s1));
                    Dispatch.aiRouter := Dispatch.aiRouter w;
                    Dispatch.apiManager := a |})).
  { unfold Dispatch.attempt.
    rewrite (bind_Return _ _ w p w) by (apply resolveProvider_Return, Hp).
    rewrite bind_pure with (x := Storage.getSettings (Dispatch.store w))
      by reflexivity.
    rewrite bind_pure with (x := Storage.getAPIKey (Dispatch.store w) p)
      by reflexivity.
    rewrite Hk, bind_mret.
    rewrite Hc. erewrite bind_Return by (apply onStore_eq, Hmiss).
    cbv beta iota.
    erewrite bind_Return by (apply onManager_eq; simpl; exact Hm).
    rewrite He, Hw, Hu. simpl andb. cbv beta iota.
    erewrite bind_Return by (apply onStore_eq; simpl; exact Hset).
    erewrite bind_Return
      by (apply onStore_eq; simpl Dispatch.store; apply trackUsage_accepted).
    reflexivity. }
  unfold Dispatch.sendToAI. rewrite E. simpl.
  split; [reflexivity|]. exists c. eexists.
  split; [unfold Dispatch.trackUsage;
          destruct (Storage.usage _); reflexivity|].
  split; [exact Hget|]. split; reflexivity.
Qed.

(** The manager is reached at most once, and the steps after it leave it
    alone: after [sendToAI] the manager is as it was, or the id of the call
    is not in flight. *)
Lemma sendToAI_in_flight :
  Dispatch.apiManager (snd (Dispatch.sendToAI env request w))
  = Dispatch.apiManager w \/
  Manager.activeRequests
    (Dispatch.apiManager (snd (Dispatch.sendToAI env request w)))
    !! Manager.requestId (Dispatch.call env) = None.
Proof.
  unfold Dispatch.sendToAI, Dispatch.attempt.
  unfold mbind, mret, Dispatch.Task_bind, Dispatch.Task_ret,
    Dispatch.resolveProvider, Dispatch.pure, Dispatch.onStore,
    Dispatch.onManager, Dispatch.throw.
  destruct (match provider request with
            | Some p => Return p
            | None => _
            end) as [p|e]; [|left; reflexivity].
  destruct (truthy_string _); [|left; reflexivity].
  assert (Hm : forall s : Storage.Store,
    let w1 := {| Dispatch.store := s; Dispatch.aiRouter := Dispatch.aiRouter w;
                 Dispatch.apiManager := Dispatch.apiManager w |} in
    forall r a,
      Manager.sendRequest (Dispatch.call env) (Dispatch.with_provider p request)
        p (Dispatch.apiManager w1) = (r, a) ->
      a = Dispatch.apiManager w \/
      Manager.activeRequests a !! Manager.requestId (Dispatch.call env) = None).
  { intros s w1 r a E. simpl in E.
    destruct (Manager.providers (Dispatch.apiManager w) !! p) as [cls|] eqn:P.
    - right. pose proof (sendRequest_deletes (Dispatch.call env)
        (Dispatch.with_provider p request) p cls _ P) as D.
      rewrite E in D. exact D.
    - left. rewrite (sendRequest_unknown _ _ _ _ P) in E.
      injection E as _ <-. reflexivity. }
  destruct (cacheResponses _).
  - destruct (Storage.getCachedResponse _ _ _ _) as [[[entry|]|e] s1]; simpl;
      try (left; reflexivity).
    destruct (Manager.sendRequest _ _ _ _) as [[response|e] a] eqn:E; simpl.
    + specialize (Hm s1 _ _ E).
      destruct (negb _);
        [destruct (Storage.setCachedResponse _ _ _ _ _ _) as [[[]|e] s2]; simpl|];
        try (destruct (Dispatch.trackUsage _ _ _ _ _) as [[[]|e'] s3]; simpl);
        exact Hm.
    + exact (Hm s1 _ _ E).
  - simpl.
    destruct (Manager.sendRequest _ _ _ _) as [[response|e] a] eqn:E; simpl.
    + specialize (Hm (Dispatch.store w) _ _ E).
      destruct (Dispatch.trackUsage _ _ _ _ _) as [[[]|e'] s3]; simpl; exact Hm.
    + exact (Hm (Dispatch.store w) _ _ E).
Qed.

End EntryPoint.

(** A stream is cancelled when [streamRequest] rejects with an
    [AbortError]. *)
Lemma stream_abort_is_cancellation (a : Adapter.AdapterClass)
    (call : Manager.Call) (request : AIRequest) (m : Manager.State) (msg : string) :
  stream request = Some true ->
  Manager.chunks call = [] ->
  Manager.final call = Throw (mkError "AbortError" msg) ->
  fst (Manager.attempt a call request m) = Throw Manager.cancelled.
Proof.
  intros Hs Hc Hf. unfold Manager.attempt, Manager.handleStreamingRequest.
  rewrite Hs, Hc, Hf. reflexivity.
Qed.

(** It is cancelled too when a chunk arrives after the abort, whatever
    [streamRequest] settles with afterwards. *)
Lemma late_chunk_is_cancellation (a : Adapter.AdapterClass)
    (call : Manager.Call) (request : AIRequest) (m : Manager.State) :
  stream request = Some true ->
  snd (fst (Manager.deliver (Manager.requestId call) (Manager.controller call)
              (Manager.chunks call) "" false m)) = true ->
  fst (Manager.attempt a call request m) = Throw Manager.cancelled.
Proof.
  intros Hs Hd. unfold Manager.attempt, Manager.handleStreamingRequest.
  rewrite Hs. simpl bool_decide. cbv iota.
  destruct (Manager.deliver _ _ _ _ _ _) as [[content rejected] m1].
  simpl in Hd. subst rejected.
  destruct (Manager.final call); reflexivity.
Qed.

(** ** [sendToAI] as it is called *)

Section EntryFacts.

Variables (env : Entry.Env) (request : AIRequest) (w : Entry.World).

(** Without a request the [try] block throws at [request.provider], and the
    [catch] throws there in its turn: nothing is returned, and the services
    are as they were. *)
Lemma sendToAI_of_undefined :
  Entry.sendToAI env None w = (Throw (Entry.undefinedHas "provider"), w).
Proof. reflexivity. Qed.

(** On a request object the [catch] returns. *)
Lemma sendToAI_of_request :
  Entry.sendToAI env (Some request) w
  = (match fst (Entry.attempt env (Some request) w) with
     | Return response => Return response
     | Throw error => Return (Dispatch.errorResponse request error)
     end,
     snd (Entry.attempt env (Some request) w)).
Proof.
  unfold Entry.sendToAI.
  destruct (Entry.attempt env (Some request) w) as [[response|error] w'];
    reflexivity.
Qed.

(** The steps of the [try] block up to the API key. *)
Lemma entry_missing_key (p : AIProvider) :
  fst (Entry.resolveProvider (Entry.getSettings w) request w) = Return p ->
  truthy_string (Entry.apiKeys w p) = false ->
  Entry.sendToAI env (Some request) w
  = (Return (Dispatch.errorResponse request
               (new_Error ("API key not found for " +:+ AIProvider_name p))), w).
Proof.
  intros Hp Hk. unfold Entry.sendToAI, Entry.attempt.
  unfold mbind, mret, Entry.Task_bind, Entry.Task_ret, Entry.pure.
  unfold Entry.resolveProvider, Entry.pure in *. simpl in Hp.
  rewrite Hp. cbv beta iota. rewrite Hk. reflexivity.
Qed.

(** Routing that fails, for want of an enabled provider, is answered with
    its message. *)
Lemma entry_route_fails (e : JS.Error) :
  fst (Entry.resolveProvider (Entry.getSettings w) request w) = Throw e ->
  Entry.sendToAI env (Some request) w
  = (Return (Dispatch.errorResponse request e), w).
Proof.
  intros Hp. unfold Entry.sendToAI, Entry.attempt.
  unfold mbind, mret, Entry.Task_bind, Entry.Task_ret, Entry.pure.
  unfold Entry.resolveProvider, Entry.pure in *. simpl in Hp.
  rewrite Hp. reflexivity.
Qed.

(** With a key, and the cache off or without an entry for the request,
    what the manager throws, for an unknown provider, a cancelled stream or
    a failed adapter call, is answered with its message. *)
Lemma entry_manager_throws (p : AIProvider) (e : JS.Error) :
  fst (Entry.resolveProvider (Entry.getSettings w) request w) = Return p ->
  truthy_string (Entry.apiKeys w p) = true ->
  (cacheResponses (Entry.getSettings w) = true ->
   fst (Service.getCachedResponse (Entry.cacheReadTime env)
          (Entry.chrome env Dispatch.OnCacheRead)
          (Dispatch.generateCacheKey request) (Entry.cache w)) = Return None) ->
  fst (Manager.sendRequest (Entry.call env) (Dispatch.with_provider p request)
         p (Entry.apiManager w)) = Throw e ->
  fst (Entry.sendToAI env (Some request) w)
  = Return (Dispatch.errorResponse request e).
Proof.
  intros Hp Hk Hc Hm. unfold Entry.sendToAI, Entry.attempt.
  unfold mbind, mret, Entry.Task_bind, Entry.Task_ret, Entry.pure.
  unfold Entry.resolveProvider, Entry.pure in *. simpl in Hp.
  rewrite Hp. cbv beta iota. rewrite Hk. cbv beta iota.
  destruct (cacheResponses (Entry.getSettings w)).
  - specialize (Hc eq_refl). unfold Entry.onCache.
    destruct (Service.getCachedResponse _ _ _ _) as [r c1]. simpl in Hc.
    subst r. cbv beta iota. unfold Entry.onManager. simpl Entry.apiManager.
    destruct (Manager.sendRequest _ _ _ _) as [r a]. simpl in Hm. rewrite Hm.
    reflexivity.
  - cbv beta iota. unfold Entry.onManager.
    destruct (Manager.sendRequest _ _ _ _) as [r a]. simpl in Hm. rewrite Hm.
    reflexivity.
Qed.

(** With the cache on, a request that comes when the memo entry of the
    cache is [cacheTimeout] old, or gone, and a cache is stored, is
    answered with the message of the [TypeError] of the lookup: the manager
    is not called. *)
Lemma entry_stale_cache (p : AIProvider) (c : Storage.ResponseCache) :
  fst (Entry.resolveProvider (Entry.getSettings w) request w) = Return p ->
  truthy_string (Entry.apiKeys w p) = true ->
  cacheResponses (Entry.getSettings w) = true ->
  (forall value t, Service.memo (Entry.cache w) = Some (value, t) ->
     Service.cacheTimeout <= Entry.cacheReadTime env - t) ->
  Service.getFails (Entry.chrome env Dispatch.OnCacheRead) = false ->
  Service.saved (Entry.cache w) = Some c ->
  fst (Entry.sendToAI env (Some request) w)
  = Return (Dispatch.errorResponse request Service.notAMap) /\
  Entry.apiManager (snd (Entry.sendToAI env (Some request) w))
  = Entry.apiManager w.
Proof.
  intros Hp Hk Hc Hm Hg Hs. unfold Entry.sendToAI, Entry.attempt.
  unfold mbind, mret, Entry.Task_bind, Entry.Task_ret, Entry.pure.
  unfold Entry.resolveProvider, Entry.pure in *. simpl in Hp.
  rewrite Hp. cbv beta iota. rewrite Hk, Hc. cbv beta iota.
  unfold Entry.onCache, Service.getCachedResponse.
  rewrite (get_read _ _ c _ Hm Hg Hs). split; reflexivity.
Qed.

End EntryFacts.

Section Served.

(** A lookup in the cache object of the memo leaves the memo holding the
    cache object of [Storage], no older than it was. *)
Lemma getCachedResponse_keeps_memo (now limit t : Z) (io : Service.Platform)
    (k : string) (c : Storage.ResponseCache) (st : Service.State)
    (s : Storage.Store) :
  Service.memo st = Some (Service.AsMap c, t) ->
  now - t < Service.cacheTimeout ->
  limit - t < Service.cacheTimeout ->
  limit - now < Service.cacheTimeout ->
  Service.changedLate io = false ->
  Storage.cache s = Some c ->
  exists c' t',
    Service.memo (snd (Service.getCachedResponse now io k st))
    = Some (Service.AsMap c', t') /\
    limit - t' < Service.cacheTimeout /\
    Storage.cache (snd (Storage.getCachedResponse now (Service.setFails io) k s))
    = Some c'.
Proof.
  intros Hm Ht Hl Hn Hch Hc.
  unfold Service.getCachedResponse, Storage.getCachedResponse.
  rewrite (get_served now t io _ st Hm Ht), Hc.
  destruct (Storage.Map_get k (Storage.entries c)) as [entry|] eqn:G.
  2:{ exists c, t. cbn [fst snd]. auto. }
  destruct (Storage.ttl c <? now - Storage.timestamp entry).
  - unfold Service.removeCachedResponse, Storage.removeCachedResponse.
    rewrite (get_served now t io _ st Hm Ht), Hc.
    unfold Service.set, Service.with_held, Storage.set_result.
    rewrite Hm, Hch. cbn [Service.asMap].
    destruct (Service.setFails io) as [e|]; cbn [fst snd Service.memo];
      eexists _, _; (split; [reflexivity|]); (split; [|reflexivity]); lia.
  - unfold Service.set, Service.with_held, Storage.set_result.
    rewrite Hm, Hch.
    destruct (Service.setFails io) as [e|]; cbn [fst snd Service.memo];
      eexists _, _; (split; [reflexivity|]); (split; [|reflexivity]); lia.
Qed.

(** The lookups of [Storage] leave the statistics alone. *)
Lemma getCachedResponse_usage (now : Z) (fails : option JS.Error) (k : string)
    (s : Storage.Store) :
  Storage.usage (snd (Storage.getCachedResponse now fails k s)) = Storage.usage s.
Proof.
  unfold Storage.getCachedResponse, Storage.removeCachedResponse.
  destruct (Storage.cache s) as [c|]; [|reflexivity].
  destruct (Storage.Map_get _ _) as [entry|]; [|reflexivity].
  destruct (_ <? _); reflexivity.
Qed.

(** So do its writes. *)
Lemma setCachedResponse_usage (now : Z) (fails : option JS.Error) (k : string)
    (r : AIResponse) (p : AIProvider) (s : Storage.Store) :
  Storage.usage (snd (Storage.setCachedResponse now fails k r p s))
  = Storage.usage s.
Proof.
  unfold Storage.setCachedResponse.
  destruct (Storage.cache s) as [c|], fails as [e|]; reflexivity.
Qed.

(** Whether [trackUsage] throws depends on the statistics at hand and on
    the storage alone. *)
Lemma trackUsage_served (now : Z) (fails : option JS.Error) (p : AIProvider)
    (response : AIResponse) (w : Entry.World) (s : Storage.Store) :
  Entry.usage w = Storage.usage s ->
  fst (Entry.trackUsage now fails p response w)
  = fst (Dispatch.trackUsage now fails p response s).
Proof.
  intros H. unfold Entry.trackUsage, Dispatch.trackUsage. rewrite H.
  destruct (Storage.usage s), fails; reflexivity.
Qed.

(** While the memo holds the cache object, and on a storage whose reads
    work and whose events are in time, [sendToAI] answers a request object
    with what [Dispatch.sendToAI] returns. *)
Lemma sendToAI_served (env : Dispatch.Env) (request : AIRequest)
    (w : Dispatch.World) (t : Z) :
  Dispatch.cacheReadTime env - t < Service.cacheTimeout ->
  Dispatch.cacheWriteTime env - t < Service.cacheTimeout ->
  Dispatch.cacheWriteTime env - Dispatch.cacheReadTime env
  < Service.cacheTimeout ->
  fst (Entry.sendToAI (Entry.onPlatform env) (Some request) (Entry.serving t w))
  = Return (fst (Dispatch.sendToAI env request w)).
Proof.
  intros H1 H2 H3.
  rewrite sendToAI_of_request. cbn [fst].
  unfold Dispatch.sendToAI.
  assert (A : fst (Entry.attempt (Entry.onPlatform env) (Some request)
                     (Entry.serving t w))
              = fst (Dispatch.attempt env request w)).
  2:{ rewrite A.
      destruct (Dispatch.attempt env request w) as [[r|e] w']; reflexivity. }
  unfold Entry.attempt, Dispatch.attempt.
  unfold mbind, mret, Entry.Task_bind, Entry.Task_ret,
    Entry.resolveProvider, Entry.pure, Entry.throw, Dispatch.Task_bind,
    Dispatch.Task_ret, Dispatch.resolveProvider, Dispatch.pure, Dispatch.throw.
  change (Entry.getSettings (Entry.serving t w))
    with (Storage.getSettings (Dispatch.store w)).
  cbn [Entry.aiRouter Entry.serving].
  destruct (match provider request with
            | Some p => Return p
            | None => _
            end) as [p|e]; [|reflexivity].
  cbn [Entry.apiKeys Entry.serving]. unfold Storage.getAPIKey.
  destruct (truthy_string (Storage.apiKeys (Dispatch.store w) p));
    [|reflexivity].
  cbn [Entry.cacheReadTime Entry.cacheWriteTime Entry.usageTime Entry.chrome
       Entry.call Entry.onPlatform Service.setFails].
  set (io := fun site =>
         {| Service.getFails := false;
            Service.setFails := Dispatch.setFails env site;
            Service.changedLate := false |}).
  assert (U : forall (ew : Entry.World) (dw : Dispatch.World) response,
            Entry.usage ew = Storage.usage (Dispatch.store dw) ->
            fst (let (c2, w2) :=
                   Entry.trackUsage (Dispatch.usageTime env)
                     (Dispatch.setFails env Dispatch.OnUsageWrite) p response ew in
                 match c2 with
                 | Return _ => (Return response, w2)
                 | Throw e => (Throw e, w2)
                 end)
            = fst (let (c2, w2) :=
                     Dispatch.onStore
                       (Dispatch.trackUsage (Dispatch.usageTime env)
                          (Dispatch.setFails env Dispatch.OnUsageWrite) p response)
                       dw in
                   match c2 with
                   | Return _ => (Return response, w2)
                   | Throw e => (Throw e, w2)
                   end)).
  { intros ew dw response Hu. unfold Dispatch.onStore.
    pose proof (trackUsage_served (Dispatch.usageTime env)
                  (Dispatch.setFails env Dispatch.OnUsageWrite) p response
                  ew (Dispatch.store dw) Hu) as T.
    destruct (Entry.trackUsage _ _ _ _ _) as [r1 w1].
    destruct (Dispatch.trackUsage _ _ _ _ _) as [r2 s2].
    cbn [fst] in T. subst r2. destruct r1; reflexivity. }
  assert (W : forall (ew : Entry.World) (dw : Dispatch.World) response,
            Entry.usage ew = Storage.usage (Dispatch.store dw) ->
            match Storage.cache (Dispatch.store dw) with
            | Some c =>
                exists t', Service.memo (Entry.cache ew)
                           = Some (Service.AsMap c, t') /\
                           Dispatch.cacheWriteTime env - t' < Service.cacheTimeout
            | None => Entry.cache ew = Service.init
            end ->
            fst (let (c1, w1) :=
                   Entry.onCache
                     (Service.setCachedResponse (Dispatch.cacheWriteTime env)
                        (io Dispatch.OnCacheWrite)
                        (Dispatch.generateCacheKey request) response p) ew in
                 match c1 with
                 | Return _ =>
                     let (c2, w2) :=
                       Entry.trackUsage (Dispatch.usageTime env)
                         (Dispatch.setFails env Dispatch.OnUsageWrite) p
                         response w1 in
                     match c2 with
                     | Return _ => (Return response, w2)
                     | Throw e => (Throw e, w2)
                     end
                 | Throw e => (Throw e, w1)
                 end)
            = fst (let (c1, w1) :=
                     Dispatch.onStore
                       (Storage.setCachedResponse (Dispatch.cacheWriteTime env)
                          (Dispatch.setFails env Dispatch.OnCacheWrite)
                          (Dispatch.generateCacheKey request) response p) dw in
                   match c1 with
                   | Return _ =>
                       let (c2, w2) :=
                         Dispatch.onStore
                           (Dispatch.trackUsage (Dispatch.usageTime env)
                              (Dispatch.setFails env Dispatch.OnUsageWrite) p
                              response) w1 in
                       match c2 with
                       | Return _ => (Return response, w2)
                       | Throw e => (Throw e, w2)
                       end
                   | Throw e => (Throw e, w1)
                   end)).
  { intros ew dw response Hu Hc.
    assert (F : fst (Service.setCachedResponse (Dispatch.cacheWriteTime env)
                       (io Dispatch.OnCacheWrite)
                       (Dispatch.generateCacheKey request) response p
                       (Entry.cache ew))
                = fst (Storage.setCachedResponse (Dispatch.cacheWriteTime env)
                         (Dispatch.setFails env Dispatch.OnCacheWrite)
                         (Dispatch.generateCacheKey request) response p
                         (Dispatch.store dw))).
    { destruct (Storage.cache (Dispatch.store dw)) as [c|] eqn:E.
      - destruct Hc as (t' & Hm & Ht).
        exact (proj1 (setCachedResponse_served _ t' (io Dispatch.OnCacheWrite)
                        _ _ _ c _ _ Hm Ht E)).
      - rewrite Hc.
        exact (proj1 (setCachedResponse_first _ (io Dispatch.OnCacheWrite)
                        _ _ _ _ E)). }
    pose proof (setCachedResponse_usage (Dispatch.cacheWriteTime env)
                  (Dispatch.setFails env Dispatch.OnCacheWrite)
                  (Dispatch.generateCacheKey request) response p
                  (Dispatch.store dw)) as Us.
    unfold Entry.onCache, Dispatch.onStore at 1.
    destruct (Service.setCachedResponse _ _ _ _ _ _) as [r1 st1].
    destruct (Storage.setCachedResponse _ _ _ _ _ _) as [r2 s2].
    cbn [fst snd] in F, Us. subst r2. destruct r1 as [[]|e]; [|reflexivity].
    apply U. cbn [Entry.usage Dispatch.store]. congruence. }
  set (cr := cacheResponses (Storage.getSettings (Dispatch.store w))).
  assert (T : forall (ew : Entry.World) (dw : Dispatch.World),
            Entry.usage ew = Storage.usage (Dispatch.store dw) ->
            Entry.apiManager ew = Dispatch.apiManager dw ->
            match Storage.cache (Dispatch.store dw) with
            | Some c =>
                exists t', Service.memo (Entry.cache ew)
                           = Some (Service.AsMap c, t') /\
                           Dispatch.cacheWriteTime env - t' < Service.cacheTimeout
            | None => Entry.cache ew = Service.init
            end ->
            fst (let (c0, w0) :=
                   Entry.onManager
                     (Manager.sendRequest (Dispatch.call env)
                        (Dispatch.with_provider p request) p) ew in
                 match c0 with
                 | Return a0 =>
                     let (c1, w1) :=
                       (if cr && negb (truthy_string (r_error a0))
                        then
                          Entry.onCache
                            (Service.setCachedResponse
                               (Dispatch.cacheWriteTime env)
                               (io Dispatch.OnCacheWrite)
                               (Dispatch.generateCacheKey request) a0 p)
                        else fun w => (Return tt, w)) w0 in
                     match c1 with
                     | Return _ =>
                         let (c2, w2) :=
                           Entry.trackUsage (Dispatch.usageTime env)
                             (Dispatch.setFails env Dispatch.OnUsageWrite) p
                             a0 w1 in
                         match c2 with
                         | Return _ => (Return a0, w2)
                         | Throw e => (Throw e, w2)
                         end
                     | Throw e => (Throw e, w1)
                     end
                 | Throw e => (Throw e, w0)
                 end)
            = fst (let (c0, w0) :=
                     Dispatch.onManager
                       (Manager.sendRequest (Dispatch.call env)
                          (Dispatch.with_provider p request) p) dw in
                   match c0 with
                   | Return a0 =>
                       let (c1, w1) :=
                         (if cr && negb (truthy_string (r_error a0))
                          then
                            Dispatch.onStore
                              (Storage.setCachedResponse
                                 (Dispatch.cacheWriteTime env)
                                 (Dispatch.setFails env Dispatch.OnCacheWrite)
                                 (Dispatch.generateCacheKey request) a0 p)
                          else fun w => (Return tt, w)) w0 in
                       match c1 with
                       | Return _ =>
                           let (c2, w2) :=
                             Dispatch.onStore
                               (Dispatch.trackUsage (Dispatch.usageTime env)
                                  (Dispatch.setFails env Dispatch.OnUsageWrite)
                                  p a0) w1 in
                           match c2 with
                           | Return _ => (Return a0, w2)
                           | Throw e => (Throw e, w2)
                           end
                       | Throw e => (Throw e, w1)
                       end
                   | Throw e => (Throw e, w0)
                   end)).
  { intros ew dw Hu Hm Hc. unfold Entry.onManager, Dispatch.onManager.
    rewrite Hm.
    destruct (Manager.sendRequest _ _ _ _) as [[a0|e] m]; [|reflexivity].
    destruct (cr && negb (truthy_string (r_error a0))).
    - apply W; cbn [Entry.usage Entry.cache Dispatch.store]; assumption.
    - apply U; cbn [Entry.usage Dispatch.store]; assumption. }
  destruct cr eqn:Hcr.
  - unfold Entry.onCache at 1, Dispatch.onStore at 1.
    cbn [Entry.cache Entry.serving].
    destruct (Storage.cache (Dispatch.store w)) as [c|] eqn:Hc.
    + destruct (getCachedResponse_served (Dispatch.cacheReadTime env) t
                  (io Dispatch.OnCacheRead) (Dispatch.generateCacheKey request)
                  c {| Service.memo := Some (Service.AsMap c, t);
                       Service.saved := Some (Storage.with_entries [] c) |}
                  (Dispatch.store w) eq_refl H1 Hc) as [F _].
      destruct (getCachedResponse_keeps_memo (Dispatch.cacheReadTime env)
                  (Dispatch.cacheWriteTime env) t
                  (io Dispatch.OnCacheRead) (Dispatch.generateCacheKey request)
                  c {| Service.memo := Some (Service.AsMap c, t);
                       Service.saved := Some (Storage.with_entries [] c) |}
                  (Dispatch.store w) eq_refl H1 H2 H3 eq_refl Hc)
        as (c' & t' & K1 & K2 & K3).
      pose proof (getCachedResponse_usage (Dispatch.cacheReadTime env)
                    (Dispatch.setFails env Dispatch.OnCacheRead)
                    (Dispatch.generateCacheKey request) (Dispatch.store w)) as Us.
      change (Service.setFails (io Dispatch.OnCacheRead))
        with (Dispatch.setFails env Dispatch.OnCacheRead) in F, K3.
      change (io Dispatch.OnCacheRead)
        with {| Service.getFails := false;
                Service.setFails := Dispatch.setFails env Dispatch.OnCacheRead;
                Service.changedLate := false |} in F, K1.
      destruct (Service.getCachedResponse _ _ _ _) as [r1 st1].
      destruct (Storage.getCachedResponse _ _ _ _) as [r2 s2].
      cbn [fst snd] in F, K1, K3, Us. subst r2.
      destruct r1 as [[entry|]|e]; try reflexivity.
      apply T; cbn [Entry.usage Entry.apiManager Entry.cache Entry.serving
                      Dispatch.store Dispatch.apiManager].
      * congruence.
      * reflexivity.
      * rewrite K3. exists t'. auto.
    + assert (G1 : Service.getCachedResponse (Dispatch.cacheReadTime env)
                     {| Service.getFails := false;
                        Service.setFails := Dispatch.setFails env Dispatch.OnCacheRead;
                        Service.changedLate := false |}
                     (Dispatch.generateCacheKey request) Service.init
                   = (Return None, Service.init)) by reflexivity.
      assert (G2 : Storage.getCachedResponse (Dispatch.cacheReadTime env)
                     (Dispatch.setFails env Dispatch.OnCacheRead)
                     (Dispatch.generateCacheKey request) (Dispatch.store w)
                   = (Return None, Dispatch.store w))
        by (unfold Storage.getCachedResponse; rewrite Hc; reflexivity).
      rewrite G1, G2.
      apply T; cbn [Entry.usage Entry.apiManager Entry.cache Entry.serving
                      Dispatch.store Dispatch.apiManager].
      * reflexivity.
      * reflexivity.
      * rewrite Hc. reflexivity.
  - apply T; cbn [Entry.usage Entry.apiManager Entry.cache Entry.serving
                    Dispatch.store Dispatch.apiManager].
    + reflexivity.
    + reflexivity.
    + destruct (Storage.cache (Dispatch.store w)) as [c|]; [|reflexivity].
      exists t. auto.
Qed.

End Served.




(** * Further properties of the code *)

(** ** The router *)

Section RouterFacts.

Lemma preferenceKey_inj (t t' : TaskType) :
  TaskType_name t +:+ "-preference" = TaskType_name t' +:+ "-preference" ->
  t = t'.
Proof.
  destruct t, t'; intros H; try reflexivity; vm_compute in H; discriminate.
Qed.

Lemma getRequestContent_ext (r1 r2 : AIRequest) :
  content <$> last (messages r1) = content <$> last (messages r2) ->
  (fun c => (selection c, visibleText c)) <$> context r1
  = (fun c => (selection c, visibleText c)) <$> context r2 ->
  Router.getRequestContent r1 = Router.getRequestContent r2.
Proof.
  intros Hm Hc. unfold Router.getRequestContent. rewrite Hm.
  destruct (context r1) as [c1|], (context r2) as [c2|]; simpl in Hc;
    try discriminate; [|reflexivity].
  injection Hc as -> ->. reflexivity.
Qed.

End RouterFacts.

(** X1. [updatePreference] and [calculateUserPreference]. Once a provider is
    preferred for a task type, the preference factor for that task type is
    1 for this provider and 0.3 for every other one, whatever the success
    rates are; the factor for the other task types is as it was. *)
Theorem updatePreference_sets_preference (st : Router.State) (t t' : TaskType)
    (p q : AIProvider) :
  Router.calculateUserPreference (Router.updatePreference st t p) q t'
  = if bool_decide (t' = t)
    then (if bool_decide (p = q) then 1.0 else 0.3)%float
    else Router.calculateUserPreference st q t'.
Proof.
  unfold Router.calculateUserPreference, Router.updatePreference. simpl.
  case_bool_decide as E.
  - subst t'. rewrite lookup_insert_eq. reflexivity.
  - rewrite lookup_insert_ne; [reflexivity|].
    intros H. apply E. symmetry. apply preferenceKey_inj, H.
Qed.

(** X2. [detectTaskType]. When a routing rule matches the content, the answer
    is the first task type of the first rule that matches: one of seven
    types. The second task types of the rules, [reasoning], [debugging] and
    [real_time_info], as well as [translation] and [summarization], are
    answered only for a content that no rule matches. *)
Theorem detectTaskType_first_rule (request : AIRequest) :
  (exists rule,
     rule ∈ Router.routingRules /\
     Router.test (pattern rule) (Router.getRequestContent request) = true) ->
  exists rule,
    List.find (fun rule => Router.test (pattern rule)
                             (Router.getRequestContent request))
      Router.routingRules = Some rule /\
    Router.detectTaskType request = List.hd casual_chat (taskTypes rule) /\
    Router.detectTaskType request
    ∈ [creative_writing; analysis; code_generation; technical_docs; research;
       data_extraction; casual_chat].
Proof.
  intros (rule & Hin & Ht). unfold Router.detectTaskType.
  destruct (List.find _ Router.routingRules) as [r|] eqn:F.
  - exists r. split; [reflexivity|]. split; [reflexivity|].
    apply List.find_some in F as [Hr _].
    simpl in Hr.
    repeat (destruct Hr as [<-|Hr]; [apply list_elem_of_In; cbv; tauto|]).
    contradiction.
  - apply list_elem_of_In in Hin.
    pose proof (List.find_none _ _ F rule Hin) as Hn. simpl in Hn. congruence.
Qed.

Lemma detectTaskType_first_rule_witness :
  (exists rule,
     rule ∈ Router.routingRules /\
     Router.test (pattern rule)
       (Router.getRequestContent (Sample.ask None "Debug this function")) = true) /\
  exists rule,
    List.find (fun rule => Router.test (pattern rule)
                 (Router.getRequestContent (Sample.ask None "Debug this function")))
      Router.routingRules = Some rule /\
    Router.detectTaskType (Sample.ask None "Debug this function")
    = List.hd casual_chat (taskTypes rule) /\
    Router.detectTaskType (Sample.ask None "Debug this function")
    ∈ [creative_writing; analysis; code_generation; technical_docs; research;
       data_extraction; casual_chat].
Proof.
  assert (H : exists rule,
            rule ∈ Router.routingRules /\
            Router.test (pattern rule)
              (Router.getRequestContent (Sample.ask None "Debug this function"))
            = true).
  { exists (Router.mkRule "chatgpt-code"
              ["code"; "program"; "function"; "debug"; "implement"; "javascript";
               "python"; "typescript"]
              chatgpt 10 [code_generation; debugging]).
    split; [apply list_elem_of_In; simpl; tauto | vm_compute; reflexivity]. }
  split; [exact H|].
  exact (detectTaskType_first_rule (Sample.ask None "Debug this function") H).
Defined.

(** X3. [route] reads a request through [getRequestContent] and [estimateTokens]
    alone: two requests with the same last message, the same selection and
    visible text, and the same [maxTokens] are routed alike, whatever their
    earlier messages, model, temperature, system prompt, page address or
    provider are. *)
Theorem route_reads_last_message (st : Router.State)
    (settings : ExtensionSettings) (r1 r2 : AIRequest) :
  content <$> last (messages r1) = content <$> last (messages r2) ->
  (fun c => (selection c, visibleText c)) <$> context r1
  = (fun c => (selection c, visibleText c)) <$> context r2 ->
  maxTokens r1 = maxTokens r2 ->
  Router.route st settings r1 = Router.route st settings r2.
Proof.
  intros Hm Hc Ht.
  pose proof (getRequestContent_ext r1 r2 Hm Hc) as E.
  unfold Router.route, Router.calculateScores, Router.calculateProviderScore,
    Router.detectTaskType, Router.calculateCapabilityMatch,
    Router.calculateCostEfficiency, Router.estimateTokens.
  rewrite E, Ht. reflexivity.
Qed.

Lemma route_reads_last_message_witness :
  Router.route Router.init Storage.getDefaultSettings
    (Sample.ask (Some claude) "Translate to French")
  = Router.route Router.init Storage.getDefaultSettings
      (Sample.ask None "Translate to French").
Proof.
  exact (route_reads_last_message Router.init Storage.getDefaultSettings
           (Sample.ask (Some claude) "Translate to French")
           (Sample.ask None "Translate to French") eq_refl eq_refl eq_refl).
Defined.

Section ExplainFacts.

Lemma Array_sort_Permutation {A} (gt : A -> A -> bool) (l : list A) :
  Array_sort gt l ≡ₚ l.
Proof.
  unfold Array_sort. induction l as [|x l IH]; simpl; [reflexivity|].
  rewrite <- IH at 2. generalize (foldr (sort_insert gt) [] l). intros s.
  clear. induction s as [|y s IH]; simpl; [reflexivity|].
  destruct (gt x y); [|reflexivity].
  rewrite IH. apply Permutation_swap.
Qed.

End ExplainFacts.

(** X4. [explainRouting] and [route] agree: for the same router, settings and
    request, the provider [explainRouting] recommends is the one [route]
    returns, its scores are those of [calculateScores] in sorted order and
    its task type is that of [detectTaskType]; with no provider enabled both
    throw the same error. *)
Theorem explainRouting_agrees_with_route (st : Router.State)
    (settings : ExtensionSettings) (request : AIRequest) :
  match Advice.explainRouting st settings request,
        Router.route st settings request with
  | Return ex, Return p =>
      Advice.recommended ex = p /\
      Advice.scores ex ≡ₚ Router.calculateScores st settings request /\
      Advice.scores ex
      = Array_sort Router.by_score_desc
          (Router.calculateScores st settings request) /\
      Advice.taskType ex = Router.detectTaskType request
  | Throw e, Throw e' => e = e'
  | _, _ => False
  end.
Proof.
  unfold Advice.explainRouting, Router.route.
  pose proof (Array_sort_Permutation Router.by_score_desc
                (Router.calculateScores st settings request)) as P.
  destruct (Array_sort Router.by_score_desc _) as [|best rest]; simpl;
    [reflexivity|].
  split; [reflexivity|]. split; [exact P|]. split; reflexivity.
Qed.

Section LearningFacts.

Lemma record_untimed (today : string) (p : AIProvider) (response : AIResponse)
    (u : Storage.UsageStats) :
  Accounting.untimed u -> Accounting.untimed (Dispatch.record today p response u).
Proof.
  intros H q pu. unfold Dispatch.record. simpl.
  destruct (decide (p = q)) as [->|Hne].
  - rewrite lookup_insert_eq. intros [= <-]. simpl.
    destruct (Storage.byProvider u !! q) as [pu0|] eqn:E; simpl;
      [exact (H q pu0 E) | reflexivity].
  - rewrite lookup_insert_ne by exact Hne. apply H.
Qed.

Lemma tracked_untimed (calls : list Accounting.Tracked) (s : Storage.Store) :
  Accounting.untimed (default Dispatch.emptyUsage (Storage.usage s)) ->
  Accounting.untimed (default Dispatch.emptyUsage
             (Storage.usage (Accounting.tracked calls s))).
Proof.
  revert s. induction calls as [|[[now p] r] calls IH]; intros s H; [exact H|].
  simpl. apply IH. unfold Dispatch.trackUsage.
  destruct (Storage.usage s) as [u|]; simpl; apply record_untimed; exact H.
Qed.

Lemma learn_untimed (stats : Storage.ProviderUsage) (metrics : Router.Metrics) :
  Storage.pu_averageResponseTime stats = 0%float ->
  Router.avgResponseTime (Advice.learn stats metrics)
  = Router.avgResponseTime metrics.
Proof.
  intros H. unfold Advice.learn. destruct (10 <? _); [|reflexivity].
  simpl. rewrite H. reflexivity.
Qed.

End LearningFacts.

(** X5. [loadUserPreferences] after [trackUsage]. The statistics that
    [trackUsage] writes never hold a response time, so a router that loads
    them keeps the average response times it started with: the response
    speed factor of every provider is the same whatever was tracked. *)
Theorem response_speed_is_never_learnt (calls : list Accounting.Tracked)
    (s : Storage.Store) (st : Router.State) (p : AIProvider) :
  Storage.usage s = None ->
  Router.calculateResponseSpeed
    (Advice.loadUserPreferences (Storage.usage (Accounting.tracked calls s)) st) p
  = Router.calculateResponseSpeed st p.
Proof.
  intros Hs.
  assert (U : Accounting.untimed (default Dispatch.emptyUsage
                         (Storage.usage (Accounting.tracked calls s)))).
  { apply tracked_untimed. rewrite Hs. intros q pu. simpl.
    rewrite lookup_empty. discriminate. }
  unfold Router.calculateResponseSpeed, Advice.loadUserPreferences.
  destruct (Storage.usage (Accounting.tracked calls s)) as [u|]; [|reflexivity].
  simpl in *. rewrite map_lookup_imap.
  destruct (Router.performanceMetrics st !! p) as [metrics|]; simpl;
    [|reflexivity].
  destruct (Storage.byProvider u !! p) as [stats|] eqn:E; [|reflexivity].
  rewrite (learn_untimed stats metrics (U p stats E)). reflexivity.
Qed.

Lemma response_speed_is_never_learnt_witness :
  Storage.usage Sample.emptyStore = None /\
  Router.calculateResponseSpeed
    (Advice.loadUserPreferences
       (Storage.usage
          (Accounting.tracked
             (replicate 12 (1717293600000, grok, Sample.answer grok "hello"))
             Sample.emptyStore))
       Router.init) grok
  = Router.calculateResponseSpeed Router.init grok.
Proof.
  split; [reflexivity|].
  exact (response_speed_is_never_learnt
           (replicate 12 (1717293600000, grok, Sample.answer grok "hello"))
           Sample.emptyStore Router.init grok eq_refl).
Defined.

(** ** Cache maintenance *)

Section MaintenanceFacts.

(** Deleting the key of an entry of a map takes that entry out and leaves
    the others where they are. *)
Lemma Map_delete_middle {V} (k : string) (v : V) (pre post : list (string * V)) :
  k ∉ pre.*1 -> k ∉ post.*1 ->
  Storage.Map_delete k (pre ++ (k, v) :: post) = (pre ++ post)%list.
Proof.
  intros Hpre Hpost. induction pre as [|[k' v'] pre IH]; simpl.
  - rewrite String.eqb_refl. apply Map_delete_absent, Hpost.
  - rewrite fmap_cons, not_elem_of_cons in Hpre. destruct Hpre as [Hne Hpre].
    destruct (String.eqb k k') eqn:E; [apply String.eqb_eq in E; contradiction|].
    rewrite IH by exact Hpre. reflexivity.
Qed.

Lemma removeExpired_spec (now : Z) (es pre : list (string * Storage.CachedResponse))
    (s : Storage.Store) (c : Storage.ResponseCache) :
  Storage.cache s = Some c ->
  Storage.entries c = (pre ++ es)%list ->
  NoDup ((pre ++ es)%list).*1 ->
  exists c',
    Maintenance.removeExpired now (Storage.ttl c) (fun _ => None) es s
    = (Return tt, Storage.with_cache (Some c') s) /\
    Storage.entries c'
    = (pre ++ List.filter (Maintenance.live now (Storage.ttl c)) es)%list /\
    Storage.maxSize c' = Storage.maxSize c /\
    Storage.ttl c' = Storage.ttl c.
Proof.
  revert pre s c. induction es as [|[k entry] es IH]; intros pre s c Hc He Hnd.
  - exists c. simpl. rewrite <- He. repeat split.
    destruct s; simpl in *. subst. reflexivity.
  - simpl. unfold Maintenance.live at 1. simpl.
    destruct (Storage.ttl c <? now - Storage.timestamp entry) eqn:X; simpl.
    + unfold Storage.removeCachedResponse. rewrite Hc. simpl.
      rewrite fmap_app, fmap_cons in Hnd. simpl in Hnd.
      apply NoDup_app in Hnd as (Hpre & Hcross & Hes).
      apply NoDup_cons in Hes as [Hk Hes].
      assert (Hkpre : k ∉ pre.*1).
      { intros Hin. apply (Hcross k Hin). left. }
      rewrite He, Map_delete_middle by assumption.
      destruct (IH pre
                  (Storage.with_cache
                     (Some (Storage.with_entries (pre ++ es)%list c)) s)
                  (Storage.with_entries (pre ++ es)%list c)) as (c' & E1 & E2 & E3 & E4).
      * reflexivity.
      * reflexivity.
      * rewrite fmap_app. apply NoDup_app. repeat split; try assumption.
        intros x Hx Hx'. apply (Hcross x Hx). right. exact Hx'.
      * exists c'. simpl in *. rewrite E1. repeat split; assumption.
    + destruct (IH (pre ++ [(k, entry)])%list s c Hc) as (c' & E1 & E2 & E3 & E4).
      * rewrite <- app_assoc. exact He.
      * rewrite <- app_assoc. exact Hnd.
      * exists c'. rewrite E1, E2, <- app_assoc. repeat split; assumption.
Qed.

End MaintenanceFacts.

(** X6. The hourly clean-up. When the storage accepts the writes, the clean-up
    run at [now] leaves in the cache exactly the entries that are not
    expired at [now], in their order, and changes neither the size limit,
    the time to live nor anything else in the store: no entry that
    [getCachedResponse] would still serve is removed, and none that it
    would refuse is kept. *)
Theorem cleanup_removes_expired (now : Z) (s : Storage.Store)
    (c : Storage.ResponseCache) :
  Storage.cache s = Some c ->
  NoDup (Storage.entries c).*1 ->
  exists c',
    Maintenance.cleanup now (fun _ => None) s
    = (Return tt, Storage.with_cache (Some c') s) /\
    Storage.entries c'
    = List.filter (Maintenance.live now (Storage.ttl c)) (Storage.entries c) /\
    Storage.maxSize c' = Storage.maxSize c /\
    Storage.ttl c' = Storage.ttl c.
Proof.
  intros Hc Hnd. unfold Maintenance.cleanup. rewrite Hc.
  exact (removeExpired_spec now (Storage.entries c) [] s c Hc eq_refl Hnd).
Qed.
Lemma cleanup_removes_expired_witness :
  Storage.cache Cases.agedStore
  = Some {| Storage.entries :=
              [("a", Cases.entryAt "a" 0); ("b", Cases.entryAt "b" 5000000)];
            Storage.maxSize := 100; Storage.ttl := 3600000 |} /\
  NoDup ["a"; "b"] /\
  exists c',
    Maintenance.cleanup 6000000 (fun _ => None) Cases.agedStore
    = (Return tt, Storage.with_cache (Some c') Cases.agedStore) /\
    Storage.entries c' = [("b", Cases.entryAt "b" 5000000)] /\
    Storage.maxSize c' = 100 /\ Storage.ttl c' = 3600000.
Proof.
  assert (N : NoDup ["a"; "b"])
    by (apply (bool_decide_unpack _); vm_compute; reflexivity).
  split; [reflexivity|]. split; [exact N|].
  exact (cleanup_removes_expired 6000000 Cases.agedStore _ eq_refl N).
Defined.

(** ** The entry point, case by case *)

Section EntryCases.

Variables (env : Dispatch.Env) (request : AIRequest) (w : Dispatch.World).

(** The [try] block up to the provider call, when the cache is on and the
    lookup misses. *)
Lemma attempt_after_miss (p : AIProvider) (s1 : Storage.Store)
    (r : Completion AIResponse) (a : Manager.State) :
  fst (Dispatch.resolveProvider request w) = Return p ->
  truthy_string (Storage.getAPIKey (Dispatch.store w) p) = true ->
  cacheResponses (Storage.getSettings (Dispatch.store w)) = true ->
  Storage.getCachedResponse (Dispatch.cacheReadTime env)
    (Dispatch.setFails env Dispatch.OnCacheRead)
    (Dispatch.generateCacheKey request) (Dispatch.store w) = (Return None, s1) ->
  Manager.sendRequest (Dispatch.call env) (Dispatch.with_provider p request) p
    (Dispatch.apiManager w) = (r, a) ->
  Dispatch.attempt env request w
  = match r with
    | Throw e =>
        (Throw e, {| Dispatch.store := s1; Dispatch.aiRouter := Dispatch.aiRouter w;
                     Dispatch.apiManager := a |})
    | Return response =>
        (_ ← (if negb (truthy_string (r_error response)) then
                Dispatch.onStore
                  (Storage.setCachedResponse (Dispatch.cacheWriteTime env)
                     (Dispatch.setFails env Dispatch.OnCacheWrite)
                     (Dispatch.generateCacheKey request) response p)
              else mret tt);
         _ ← Dispatch.onStore
               (Dispatch.trackUsage (Dispatch.usageTime env)
                  (Dispatch.setFails env Dispatch.OnUsageWrite) p response);
         mret response)
          {| Dispatch.store := s1; Dispatch.aiRouter := Dispatch.aiRouter w;
             Dispatch.apiManager := a |}
    end.
Proof.
  intros Hp Hk Hc Hmiss Hm. unfold Dispatch.attempt.
  rewrite (bind_Return _ _ w p w) by (apply resolveProvider_Return, Hp).
  rewrite bind_pure with (x := Storage.getSettings (Dispatch.store w))
    by reflexivity.
  rewrite bind_pure with (x := Storage.getAPIKey (Dispatch.store w) p)
    by reflexivity.
  rewrite Hk, bind_mret.
  rewrite Hc. erewrite bind_Return by (apply onStore_eq, Hmiss).
  cbv beta iota.
  destruct r as [response|e].
  - erewrite bind_Return by (apply onManager_eq; simpl; exact Hm).
    simpl andb. reflexivity.
  - erewrite bind_Throw by (apply onManager_eq; simpl; exact Hm).
    reflexivity.
Qed.

(** A write of the statistics that the storage refuses throws, and leaves
    the cache alone. *)
Lemma trackUsage_refused (now : Z) (e : JS.Error) (p : AIProvider)
    (response : AIResponse) (s : Storage.Store) :
  fst (Dispatch.trackUsage now (Some e) p response s) = Throw e /\
  Storage.cache (snd (Dispatch.trackUsage now (Some e) p response s))
  = Storage.cache s.
Proof.
  unfold Dispatch.trackUsage. destruct (Storage.usage s); simpl; auto.
Qed.

Lemma trackUsage_cache (now : Z) (p : AIProvider) (response : AIResponse)
    (s : Storage.Store) :
  Storage.cache (snd (Dispatch.trackUsage now None p response s))
  = Storage.cache s.
Proof.
  unfold Dispatch.trackUsage. destruct (Storage.usage s); reflexivity.
Qed.

End EntryCases.

(** X7. [sendToAI] without an API key. When the provider that the request
    names, or that is chosen for it, has no key, or an empty one, the answer
    is an error response whose error is "API key not found for" followed by
    the provider; nothing is sent to a provider, the cache is not read,
    nothing is counted: the services are left as they were. *)
Theorem sendToAI_without_key (env : Dispatch.Env) (request : AIRequest)
    (w : Dispatch.World) (p : AIProvider) :
  fst (Dispatch.resolveProvider request w) = Return p ->
  truthy_string (Storage.getAPIKey (Dispatch.store w) p) = false ->
  Dispatch.sendToAI env request w
  = (Dispatch.errorResponse request
       (new_Error ("API key not found for " +:+ AIProvider_name p)), w).
Proof.
  intros Hp Hk. unfold Dispatch.sendToAI.
  rewrite (attempt_missing_key env request w p Hp Hk). reflexivity.
Qed.

Lemma sendToAI_without_key_witness :
  fst (Dispatch.resolveProvider (Sample.ask (Some grok) "hello") Cases.keyless)
  = Return grok /\
  truthy_string (Storage.getAPIKey (Dispatch.store Cases.keyless) grok) = false /\
  Dispatch.sendToAI (Sample.env 1000 (Sample.answered "req-1" "hi"))
    (Sample.ask (Some grok) "hello") Cases.keyless
  = (Dispatch.errorResponse (Sample.ask (Some grok) "hello")
       (new_Error "API key not found for grok"), Cases.keyless).
Proof.
  split; [reflexivity|]. split; [reflexivity|].
  exact (sendToAI_without_key (Sample.env 1000 (Sample.answered "req-1" "hi"))
           (Sample.ask (Some grok) "hello") Cases.keyless grok eq_refl eq_refl).
Defined.


(** X8. [sendToAI] on a cache hit. A live entry under the key of the request is
    answered as it is stored: the manager is not called, so no request id is
    registered and no provider is reached; the usage statistics are not
    touched; the only change is the hit counter of the entry, which grows
    by one. *)
Theorem sendToAI_hit_is_silent (env : Dispatch.Env) (request : AIRequest)
    (w : Dispatch.World) (p : AIProvider) (c : Storage.ResponseCache)
    (entry : Storage.CachedResponse) :
  fst (Dispatch.resolveProvider request w) = Return p ->
  truthy_string (Storage.getAPIKey (Dispatch.store w) p) = true ->
  cacheResponses (Storage.getSettings (Dispatch.store w)) = true ->
  Storage.cache (Dispatch.store w) = Some c ->
  Storage.Map_get (Dispatch.generateCacheKey request) (Storage.entries c)
  = Some entry ->
  Dispatch.cacheReadTime env - Storage.timestamp entry <= Storage.ttl c ->
  Dispatch.setFails env Dispatch.OnCacheRead = None ->
  Dispatch.sendToAI env request w
  = (Storage.response entry,
     {| Dispatch.store :=
          Storage.with_cache
            (Some (Storage.with_entries
                     (Storage.Map_set (Dispatch.generateCacheKey request)
                        (Storage.with_hits (Storage.hits entry + 1) entry)
                        (Storage.entries c)) c))
            (Dispatch.store w);
        Dispatch.aiRouter := Dispatch.aiRouter w;
        Dispatch.apiManager := Dispatch.apiManager w |}).
Proof.
  intros Hp Hk Hc Hs Hg Ht Hf.
  unfold Dispatch.sendToAI, Dispatch.attempt.
  unfold mbind, mret, Dispatch.Task_bind, Dispatch.Task_ret,
    Dispatch.resolveProvider, Dispatch.pure, Dispatch.onStore,
    Dispatch.onManager, Dispatch.throw in *.
  simpl in Hp. rewrite Hp. cbv beta iota. rewrite Hk, Hc. cbv beta iota.
  unfold Storage.getCachedResponse. rewrite Hs, Hg, Hf.
  destruct (Storage.ttl c <? _) eqn:E; [apply Z.ltb_lt in E; lia|].
  reflexivity.
Qed.

Lemma sendToAI_hit_is_silent_witness :
  fst (Dispatch.sendToAI (Sample.env 1000 (Sample.answered "req-1" "hi"))
         Cases.greeting Cases.cachedWorld)
  = Sample.answer claude "hello there" /\
  Dispatch.apiManager
    (snd (Dispatch.sendToAI (Sample.env 1000 (Sample.answered "req-1" "hi"))
            Cases.greeting Cases.cachedWorld))
  = Manager.init /\
  Storage.usage
    (Dispatch.store
       (snd (Dispatch.sendToAI (Sample.env 1000 (Sample.answered "req-1" "hi"))
               Cases.greeting Cases.cachedWorld)))
  = None.
Proof.
  assert (G : Storage.Map_get (Dispatch.generateCacheKey Cases.greeting)
                [(Dispatch.generateCacheKey Cases.greeting,
                  {| Storage.key := Dispatch.generateCacheKey Cases.greeting;
                     Storage.response := Sample.answer claude "hello there";
                     Storage.timestamp := 900; Storage.hits := 0;
                     Storage.provider := claude |})]
              = Some {| Storage.key := Dispatch.generateCacheKey Cases.greeting;
                        Storage.response := Sample.answer claude "hello there";
                        Storage.timestamp := 900; Storage.hits := 0;
                        Storage.provider := claude |})
    by (vm_compute; reflexivity).
  rewrite (sendToAI_hit_is_silent (Sample.env 1000 (Sample.answered "req-1" "hi"))
             Cases.greeting Cases.cachedWorld claude _ _ eq_refl eq_refl eq_refl
             eq_refl G ltac:(simpl; lia) eq_refl).
  repeat split.
Defined.


(** X9. [sendToAI] on a response that carries an error. Such a response, as an
    adapter returns it for a failed call, is returned to the caller and
    counted in the statistics, as a request and as an error of its
    provider, but it is not written to the cache. *)
Theorem sendToAI_error_response_not_cached (env : Dispatch.Env)
    (request : AIRequest) (w : Dispatch.World) (p : AIProvider)
    (response : AIResponse) (a : Manager.State) (s1 : Storage.Store) :
  fst (Dispatch.resolveProvider request w) = Return p ->
  truthy_string (Storage.getAPIKey (Dispatch.store w) p) = true ->
  cacheResponses (Storage.getSettings (Dispatch.store w)) = true ->
  Storage.getCachedResponse (Dispatch.cacheReadTime env)
    (Dispatch.setFails env Dispatch.OnCacheRead)
    (Dispatch.generateCacheKey request) (Dispatch.store w) = (Return None, s1) ->
  Manager.sendRequest (Dispatch.call env) (Dispatch.with_provider p request) p
    (Dispatch.apiManager w) = (Return response, a) ->
  truthy_string (r_error response) = true ->
  Dispatch.setFails env Dispatch.OnUsageWrite = None ->
  fst (Dispatch.sendToAI env request w) = response /\
  Storage.cache (Dispatch.store (snd (Dispatch.sendToAI env request w)))
  = Storage.cache s1 /\
  exists u,
    Storage.usage (Dispatch.store (snd (Dispatch.sendToAI env request w)))
    = Some u /\
    Storage.totalRequests u
    = Storage.totalRequests (default Dispatch.emptyUsage (Storage.usage s1)) + 1 /\
    Storage.pu_errors <$> Storage.byProvider u !! p
    = Some (default 0
              (Storage.pu_errors <$>
               Storage.byProvider
                 (default Dispatch.emptyUsage (Storage.usage s1)) !! p) + 1).
Proof.
  intros Hp Hk Hc Hmiss Hm He Hu.
  unfold Dispatch.sendToAI.
  rewrite (attempt_after_miss env request w p s1 _ a Hp Hk Hc Hmiss Hm).
  rewrite He, Hu. simpl negb. cbv iota. rewrite bind_mret.
  erewrite bind_Return
    by (apply onStore_eq; simpl Dispatch.store; apply trackUsage_accepted).
  simpl. split; [reflexivity|]. split; [apply trackUsage_cache|].
  exists (Dispatch.record (Calendar.isoDate (Dispatch.usageTime env)) p response
            (default Dispatch.emptyUsage (Storage.usage s1))).
  split; [unfold Dispatch.trackUsage;
          destruct (Storage.usage s1); reflexivity|].
  simpl. split; [reflexivity|].
  rewrite lookup_insert_eq. simpl. rewrite He.
  destruct (Storage.byProvider _ !! p); reflexivity.
Qed.

Lemma sendToAI_error_response_not_cached_witness :
  fst (Dispatch.sendToAI (Sample.env 1000 (Cases.refused "req-1"))
         Cases.greeting Sample.world)
  = Manager.with_responseTime 250
      (Adapter.mkResponse claude "claude-3-sonnet-20240229" "" None None
         (Some "Invalid API key") None) /\
  Storage.cache
    (Dispatch.store
       (snd (Dispatch.sendToAI (Sample.env 1000 (Cases.refused "req-1"))
               Cases.greeting Sample.world)))
  = None /\
  exists u,
    Storage.usage
      (Dispatch.store
         (snd (Dispatch.sendToAI (Sample.env 1000 (Cases.refused "req-1"))
                 Cases.greeting Sample.world)))
    = Some u /\
    Storage.totalRequests u = 1 /\
    Storage.pu_errors <$> Storage.byProvider u !! claude = Some 1.
Proof.
  exact (sendToAI_error_response_not_cached
           (Sample.env 1000 (Cases.refused "req-1")) Cases.greeting Sample.world
           claude _ _ Sample.keyedStore eq_refl eq_refl eq_refl eq_refl eq_refl
           eq_refl eq_refl).
Defined.


(** X10. [sendToAI] when the statistics cannot be written. The write of the
    usage statistics is inside the [try] block, after the provider has
    answered and the answer has been cached: when the storage refuses it,
    the caller gets an error response with the message of the storage
    error in place of the answer, although the answer is in the cache
    under the key of the request. *)
Theorem sendToAI_loses_answer_on_usage_failure (env : Dispatch.Env)
    (request : AIRequest) (w : Dispatch.World) (p : AIProvider)
    (response : AIResponse) (a : Manager.State) (s1 : Storage.Store)
    (e : JS.Error) :
  fst (Dispatch.resolveProvider request w) = Return p ->
  truthy_string (Storage.getAPIKey (Dispatch.store w) p) = true ->
  cacheResponses (Storage.getSettings (Dispatch.store w)) = true ->
  Storage.getCachedResponse (Dispatch.cacheReadTime env)
    (Dispatch.setFails env Dispatch.OnCacheRead)
    (Dispatch.generateCacheKey request) (Dispatch.store w) = (Return None, s1) ->
  Manager.sendRequest (Dispatch.call env) (Dispatch.with_provider p request) p
    (Dispatch.apiManager w) = (Return response, a) ->
  truthy_string (r_error response) = false ->
  Dispatch.setFails env Dispatch.OnCacheWrite = None ->
  Dispatch.setFails env Dispatch.OnUsageWrite = Some e ->
  Storage.storeInv (Dispatch.cacheWriteTime env) s1 ->
  fst (Dispatch.sendToAI env request w) = Dispatch.errorResponse request e /\
  exists c entry,
    Storage.cache (Dispatch.store (snd (Dispatch.sendToAI env request w)))
    = Some c /\
    Storage.Map_get (Dispatch.generateCacheKey request) (Storage.entries c)
    = Some entry /\
    Storage.response entry = response.
Proof.
  intros Hp Hk Hc Hmiss Hm He Hw Hu Hinv.
  destruct (setCachedResponse_written (Dispatch.cacheWriteTime env)
              (Dispatch.generateCacheKey request) response p s1 Hinv)
    as (c & Hset & _ & Hget).
  unfold Dispatch.sendToAI.
  rewrite (attempt_after_miss env request w p s1 _ a Hp Hk Hc Hmiss Hm).
  rewrite He, Hw, Hu. simpl negb. cbv iota.
  erewrite bind_Return by (apply onStore_eq; simpl; exact Hset).
  destruct (trackUsage_refused (Dispatch.usageTime env) e p response
              (Storage.with_cache (Some c) s1)) as [T1 T2].
  destruct (Dispatch.trackUsage (Dispatch.usageTime env) (Some e) p response
              (Storage.with_cache (Some c) s1)) as [t s3] eqn:T.
  simpl in T1, T2. subst t.
  erewrite bind_Throw by (apply onStore_eq; simpl Dispatch.store; exact T).
  simpl. split; [reflexivity|].
  exists c. eexists. split; [exact T2|]. split; [exact Hget | reflexivity].
Qed.

Lemma sendToAI_loses_answer_on_usage_failure_witness :
  fst (Dispatch.sendToAI (Cases.quotaEnv 1000 (Sample.answered "req-1" "hi"))
         Cases.greeting Sample.world)
  = Dispatch.errorResponse Cases.greeting (new_Error "QUOTA_BYTES quota exceeded") /\
  exists c entry,
    Storage.cache
      (Dispatch.store
         (snd (Dispatch.sendToAI (Cases.quotaEnv 1000 (Sample.answered "req-1" "hi"))
                 Cases.greeting Sample.world)))
    = Some c /\
    Storage.Map_get (Dispatch.generateCacheKey Cases.greeting) (Storage.entries c)
    = Some entry /\
    Storage.response entry
    = Manager.with_responseTime 250
        (Adapter.mkResponse claude "claude-3-sonnet-20240229" "hi" None None
           None None).
Proof.
  exact (sendToAI_loses_answer_on_usage_failure
           (Cases.quotaEnv 1000 (Sample.answered "req-1" "hi")) Cases.greeting
           Sample.world claude _ _ Sample.keyedStore _ eq_refl eq_refl eq_refl
           eq_refl eq_refl eq_refl eq_refl eq_refl I).
Defined.


(** ** Usage statistics *)

Section AccountingFacts.

Variables (today : string) (p : AIProvider) (response : AIResponse).

Lemma record_providerRequests (u : Storage.UsageStats) :
  Accounting.providerRequests (Dispatch.record today p response u)
  = Accounting.providerRequests u + 1.
Proof.
  unfold Accounting.providerRequests, Dispatch.record, all_providers. simpl.
  destruct p;
    repeat (rewrite lookup_insert_eq || rewrite lookup_insert_ne by discriminate);
    repeat match goal with
           | |- context [Storage.byProvider u !! ?q] =>
               destruct (Storage.byProvider u !! q)
           end;
    simpl; lia.
Qed.

Lemma newDay_balanced : Accounting.balanced (Dispatch.newDay today p response).
Proof.
  unfold Accounting.balanced, Accounting.dayRequests, Dispatch.newDay, all_providers. simpl.
  destruct p; reflexivity.
Qed.

Lemma bumpDay_balanced (d : Storage.DailyUsage) :
  Accounting.balanced d -> Accounting.balanced (Dispatch.bumpDay p response d).
Proof.
  unfold Accounting.balanced, Accounting.dayRequests, Dispatch.bumpDay, all_providers. simpl.
  intros ->.
  destruct p;
    repeat (rewrite lookup_insert_eq || rewrite lookup_insert_ne by discriminate);
    simpl; lia.
Qed.

Lemma bumpFirst_balanced (days updated : list Storage.DailyUsage) :
  Forall Accounting.balanced days ->
  Dispatch.bumpFirst today p response days = Some updated ->
  Forall Accounting.balanced updated.
Proof.
  revert updated. induction days as [|d days IH]; intros updated H; simpl;
    [discriminate|].
  apply Forall_cons in H as [Hd Hdays].
  destruct (String.eqb (Storage.date d) today).
  - intros [= <-]. constructor; [apply bumpDay_balanced, Hd | exact Hdays].
  - destruct (Dispatch.bumpFirst today p response days) as [l|]; [|discriminate].
    intros [= <-]. constructor; [exact Hd | apply IH; auto].
Qed.

Lemma updateDaily_balanced (days : list Storage.DailyUsage) :
  Forall Accounting.balanced days ->
  Forall Accounting.balanced (Dispatch.updateDaily today p response days).
Proof.
  intros H. unfold Dispatch.updateDaily. rewrite slice_last_30.
  apply Forall_drop.
  destruct (Dispatch.bumpFirst today p response days) as [updated|] eqn:B.
  - exact (bumpFirst_balanced days updated H B).
  - apply Forall_app. split; [exact H|].
    constructor; [apply newDay_balanced | constructor].
Qed.

(** The bucket of the day, when it has one, after one more response. *)
Lemma bumpFirst_find (days : list Storage.DailyUsage) (d : Storage.DailyUsage) :
  List.find (fun d => String.eqb (Storage.date d) today) days = Some d ->
  exists updated,
    Dispatch.bumpFirst today p response days = Some updated /\
    length updated = length days /\
    List.find (fun d => String.eqb (Storage.date d) today) updated
    = Some (Dispatch.bumpDay p response d).
Proof.
  induction days as [|d0 days IH]; simpl; [discriminate|].
  destruct (String.eqb (Storage.date d0) today) eqn:E.
  - intros [= ->]. eexists. split; [reflexivity|]. split; [reflexivity|].
    simpl. rewrite E. reflexivity.
  - intros F. destruct (IH F) as (updated & B & L & F').
    rewrite B. eexists. split; [reflexivity|]. split; [simpl; lia|].
    simpl. rewrite E. exact F'.
Qed.

End AccountingFacts.

Lemma tracked_counts (calls : list Accounting.Tracked) (s : Storage.Store) :
  let u0 := default Dispatch.emptyUsage (Storage.usage s) in
  let u := default Dispatch.emptyUsage (Storage.usage (Accounting.tracked calls s)) in
  Storage.totalRequests u = Storage.totalRequests u0 + Z.of_nat (length calls) /\
  Accounting.providerRequests u
  = Accounting.providerRequests u0 + Z.of_nat (length calls) /\
  (Forall Accounting.balanced (Storage.dailyUsage u0) ->
   Forall Accounting.balanced (Storage.dailyUsage u)).
Proof.
  revert s. induction calls as [|[[now p] r] calls IH]; intros s.
  - simpl. repeat split; try lia. auto.
  - simpl Accounting.tracked. cbv zeta in *.
    destruct (IH (snd (Dispatch.trackUsage now None p r s))) as (H1 & H2 & H3).
    assert (E : default Dispatch.emptyUsage
                  (Storage.usage (snd (Dispatch.trackUsage now None p r s)))
                = Dispatch.record (Calendar.isoDate now) p r
                    (default Dispatch.emptyUsage (Storage.usage s))).
    { unfold Dispatch.trackUsage. destruct (Storage.usage s); reflexivity. }
    rewrite E in *. simpl length.
    rewrite record_providerRequests in H2. simpl Storage.totalRequests in H1.
    split; [simpl in *; lia|]. split; [lia|].
    intros H. apply H3. simpl. apply updateDaily_balanced, H.
Qed.

(** X11. The counters of [trackUsage] add up. After any number of responses
    tracked from a store without statistics, the total number of requests
    is the number of responses tracked, the requests counted per provider
    add up to it, and in every daily bucket the requests counted per
    provider add up to the requests of the bucket. *)
Theorem trackUsage_counters_add_up (calls : list Accounting.Tracked)
    (s : Storage.Store) :
  Storage.usage s = None ->
  let u := default Dispatch.emptyUsage (Storage.usage (Accounting.tracked calls s)) in
  Storage.totalRequests u = Z.of_nat (length calls) /\
  Accounting.providerRequests u = Z.of_nat (length calls) /\
  Forall Accounting.balanced (Storage.dailyUsage u).
Proof.
  intros Hs. destruct (tracked_counts calls s) as (H1 & H2 & H3).
  cbv zeta in *. rewrite Hs in *. simpl in H1, H2, H3.
  split; [lia|]. split; [exact H2|]. apply H3. constructor.
Qed.

Lemma trackUsage_counters_add_up_witness :
  Storage.usage Sample.emptyStore = None /\
  let u :=
    default Dispatch.emptyUsage
      (Storage.usage
         (Accounting.tracked
            [(Cases.newYear, claude, Sample.answer claude "a");
             (Cases.newYear, grok, Sample.answer grok "b");
             (Sample.juneNight, claude, Sample.answer claude "c")]
            Sample.emptyStore)) in
  Storage.totalRequests u = 3 /\
  Accounting.providerRequests u = 3 /\
  Forall Accounting.balanced (Storage.dailyUsage u).
Proof.
  split; [reflexivity|].
  exact (trackUsage_counters_add_up
           [(Cases.newYear, claude, Sample.answer claude "a");
            (Cases.newYear, grok, Sample.answer grok "b");
            (Sample.juneNight, claude, Sample.answer claude "c")]
           Sample.emptyStore eq_refl).
Defined.

(** X12. The tokens of a day. When the day of a response has a bucket already,
    [trackUsage] counts the request and adds the cost in it, but leaves its
    [tokens] as they are: the tokens of a day are those of its first
    response. *)
Theorem trackUsage_keeps_day_tokens (now : Z) (p : AIProvider)
    (response : AIResponse) (s : Storage.Store) (u : Storage.UsageStats)
    (d : Storage.DailyUsage) :
  Storage.usage s = Some u ->
  (length (Storage.dailyUsage u) <= 30)%nat ->
  List.find (fun d => String.eqb (Storage.date d) (Calendar.isoDate now))
    (Storage.dailyUsage u) = Some d ->
  exists u' d',
    Storage.usage (snd (Dispatch.trackUsage now None p response s)) = Some u' /\
    List.find (fun d => String.eqb (Storage.date d) (Calendar.isoDate now))
      (Storage.dailyUsage u') = Some d' /\
    Storage.du_tokens d' = Storage.du_tokens d /\
    Storage.du_requests d' = Storage.du_requests d + 1 /\
    Storage.du_cost d'
    = (Storage.du_cost d + or_number (r_cost response) 0)%float /\
    length (Storage.dailyUsage u') = length (Storage.dailyUsage u).
Proof.
  intros Hs Hlen F.
  destruct (bumpFirst_find (Calendar.isoDate now) p response _ d F)
    as (updated & B & L & F').
  exists (Dispatch.record (Calendar.isoDate now) p response u),
         (Dispatch.bumpDay p response d).
  split; [unfold Dispatch.trackUsage; rewrite Hs; reflexivity|].
  simpl Storage.dailyUsage. unfold Dispatch.updateDaily.
  rewrite B, slice_last_30.
  replace (length updated - 30)%nat with 0%nat by lia. rewrite drop_0.
  split; [exact F'|]. repeat split. exact L.
Qed.

Lemma trackUsage_keeps_day_tokens_witness :
  Storage.usage Sample.sparseStore = Some Sample.sparseUsage /\
  (length (Storage.dailyUsage Sample.sparseUsage) <= 30)%nat /\
  exists u' d',
    Storage.usage
      (snd (Dispatch.trackUsage Cases.newYear None claude
              (Adapter.mkResponse claude "m" "hello"
                 (Some {| inputTokens := 10; outputTokens := 20;
                          totalTokens := 30 |})
                 (Some 0.5%float) None None)
              Sample.sparseStore)) = Some u' /\
    List.find (fun d => String.eqb (Storage.date d) "2024-01-01")
      (Storage.dailyUsage u') = Some d' /\
    Storage.du_tokens d' = 0%float /\
    Storage.du_requests d' = 2 /\
    Storage.du_cost d' = 0.5%float /\
    length (Storage.dailyUsage u') = 1%nat.
Proof.
  assert (L : (length (Storage.dailyUsage Sample.sparseUsage) <= 30)%nat)
    by (simpl; lia).
  split; [reflexivity|]. split; [exact L|].
  exact (trackUsage_keeps_day_tokens Cases.newYear claude
           (Adapter.mkResponse claude "m" "hello"
              (Some {| inputTokens := 10; outputTokens := 20; totalTokens := 30 |})
              (Some 0.5%float) None None)
           Sample.sparseStore Sample.sparseUsage _ eq_refl L
           ltac:(vm_compute; reflexivity)).
Defined.

(** ** Cancellation and streaming *)

Section ManagerFacts.

Lemma fold_aborted (A : gset nat) (m : gmap string nat) (c : nat) :
  c ∈ map_fold (fun _ c s => {[c]} ∪ s) A m <->
  c ∈ A \/ exists id, m !! id = Some c.
Proof.
  apply (map_fold_weak_ind
           (fun (b : gset nat) (m : gmap string nat) =>
              c ∈ b <-> c ∈ A \/ exists id, m !! id = Some c)).
  - split; [auto|]. intros [H|[id H]]; [exact H|].
    rewrite lookup_empty in H. discriminate.
  - intros i x m0 r Hi IH. rewrite elem_of_union, elem_of_singleton, IH.
    split.
    + intros [->|[H|[id H]]]; [right; exists i; apply lookup_insert_eq | auto |].
      right. exists id. rewrite lookup_insert_ne; [exact H|].
      intros ->. rewrite Hi in H. discriminate.
    + intros [H|[id H]]; [auto|].
      destruct (decide (i = id)) as [->|Hne].
      * rewrite lookup_insert_eq in H. injection H as ->. auto.
      * rewrite lookup_insert_ne in H by exact Hne. right. right. eauto.
Qed.

(** Steps of other tasks never take an abort back. *)
Lemma step_aborted (m : Manager.State) (s : Manager.Step) (c : nat) :
  c ∈ Manager.aborted m -> c ∈ Manager.aborted (Manager.step m s).
Proof.
  intros H. destruct s as [id| |id c'|id]; simpl; try exact H.
  - unfold Manager.cancelRequest.
    destruct (Manager.activeRequests m !! id); simpl; [|exact H].
    apply elem_of_union. right. exact H.
  - apply fold_aborted. left. exact H.
Qed.

Lemma run_aborted (steps : list Manager.Step) (m : Manager.State) (c : nat) :
  c ∈ Manager.aborted m -> c ∈ Manager.aborted (Manager.run steps m).
Proof.
  revert m. induction steps as [|s steps IH]; intros m H; [exact H|].
  simpl. apply IH, step_aborted, H.
Qed.

Lemma run_sent (steps : list Manager.Step) (m : Manager.State) :
  Manager.notified (Manager.run steps m) = Manager.notified m.
Proof.
  revert m. induction steps as [|s steps IH]; intros m; [reflexivity|].
  simpl. rewrite IH. destruct s as [id| | |]; simpl; try reflexivity.
  unfold Manager.cancelRequest.
  destruct (Manager.activeRequests m !! id); reflexivity.
Qed.

(** Once the signal is aborted and the promise rejected, the chunks that
    follow are dropped. *)
Lemma deliver_aborted (id : string) (c : nat)
    (cs : list (list Manager.Step * Manager.StreamChunk)) (text : string)
    (m : Manager.State) :
  c ∈ Manager.aborted m ->
  exists m',
    Manager.deliver id c cs text true m = (text, true, m') /\
    Manager.notified m' = Manager.notified m.
Proof.
  revert m. induction cs as [|[steps chunk] cs IH]; intros m H.
  - exists m. split; reflexivity.
  - simpl. pose proof (run_aborted steps m c H) as H1.
    rewrite bool_decide_eq_true_2 by exact H1.
    destruct (IH (Manager.run steps m) H1) as (m' & E & S).
    exists m'. split; [exact E|]. rewrite S. apply run_sent.
Qed.

Lemma deliver_app (id : string) (c : nat)
    (l1 l2 : list (list Manager.Step * Manager.StreamChunk)) (text : string)
    (rejected : bool) (m : Manager.State) :
  Manager.deliver id c (l1 ++ l2) text rejected m
  = let '(text1, rejected1, m1) := Manager.deliver id c l1 text rejected m in
    Manager.deliver id c l2 text1 rejected1 m1.
Proof.
  revert text rejected m. induction l1 as [|[steps chunk] l1 IH];
    intros text rejected m; [reflexivity|].
  simpl. destruct (bool_decide _); apply IH.
Qed.

Lemma append_nil_r (s : string) : s +:+ "" = s.
Proof.
  induction s as [|a s IH]; [reflexivity|].
  change (String a (s +:+ "") = String a s). f_equal. exact IH.
Qed.

(** The chunks that arrive while no other task acts are appended and
    forwarded, one notification each. *)
Lemma deliver_undisturbed (id : string) (c : nat)
    (cs : list Manager.StreamChunk) (text : string) (rejected : bool)
    (m : Manager.State) :
  c ∉ Manager.aborted m ->
  Manager.deliver id c ((fun chunk => ([], chunk)) <$> cs) text rejected m
  = (text +:+ foldr (fun chunk rest => Manager.delta chunk +:+ rest) "" cs,
     rejected,
     {| Manager.providers := Manager.providers m;
        Manager.activeRequests := Manager.activeRequests m;
        Manager.aborted := Manager.aborted m;
        Manager.notified := (Manager.notified m ++ (Manager.STREAM_CHUNK id <$> cs))%list |}).
Proof.
  revert text m. induction cs as [|chunk cs IH]; intros text m H; simpl.
  - rewrite app_nil_r, append_nil_r. destruct m. reflexivity.
  - rewrite bool_decide_eq_false_2 by exact H.
    rewrite IH by exact H. simpl. rewrite <- app_assoc. simpl.
    f_equal. f_equal. apply append_assoc.
Qed.

(** With a tab found by every query, every notification goes to it; with
    none found, nothing is sent. *)
Lemma forwarded_to_tab (tabId : Z) (ns : list Manager.Notification) :
  tabId <> 0 ->
  Manager.forwarded (fun _ => Some tabId) ns = (fun n => (tabId, n)) <$> ns.
Proof.
  intros Hid. unfold Manager.forwarded.
  change (omap (fun x => x) (imap (const (Manager.forward (Some tabId))) ns)
          = (fun n => (tabId, n)) <$> ns).
  rewrite imap_const.
  induction ns as [|n ns IH]; [reflexivity|].
  rewrite !fmap_cons. cbn [omap list_omap]. unfold Manager.forward at 1.
  destruct (tabId =? 0) eqn:Z0; [apply Z.eqb_eq in Z0; contradiction|].
  f_equal. exact IH.
Qed.

Lemma forwarded_without_tab (ns : list Manager.Notification) :
  Manager.forwarded (fun _ => None) ns = [].
Proof.
  unfold Manager.forwarded.
  change (omap (fun x => x) (imap (const (Manager.forward None)) ns) = []).
  rewrite imap_const.
  induction ns as [|n ns IH]; [reflexivity|].
  rewrite fmap_cons. cbn [omap list_omap]. exact IH.
Qed.

End ManagerFacts.

(** X13. [cancelAllRequests] aborts what is in flight. Afterwards the
    signal of a controller is aborted exactly when it was aborted before or
    the controller was registered for a request in flight; no request is
    in flight any more; the providers and the notifications handed over
    so far are as they were. *)
Theorem cancelAllRequests_aborts_all (m : Manager.State) (c : nat) :
  (c ∈ Manager.aborted (Manager.cancelAllRequests m) <->
   c ∈ Manager.aborted m \/ exists id, Manager.activeRequests m !! id = Some c) /\
  Manager.activeRequests (Manager.cancelAllRequests m) = ∅ /\
  Manager.providers (Manager.cancelAllRequests m) = Manager.providers m /\
  Manager.notified (Manager.cancelAllRequests m) = Manager.notified m.
Proof.
  split; [apply fold_aborted | repeat split; reflexivity].
Qed.

(** X14. A stream that nothing disturbs. When no other task acts on the
    manager while a streaming request runs and its signal is not aborted,
    the response is the one [streamRequest] settles with, its content
    replaced by the deltas of the chunks in the order of their arrival,
    marked as streaming and stamped with the time the call took; each chunk
    was handed to [sendStreamChunk], in order, and then the end of the
    stream to [sendStreamEnd]; and the request is no longer in flight.
    What is handed over reaches a tab only through the query for the
    active tab that each of these calls makes: when the queries find the
    tab [tabId], the notifications are sent to it, and when they find none,
    nothing is sent. *)
Theorem stream_collects_chunks (call : Manager.Call) (request : AIRequest)
    (p : AIProvider) (a : Adapter.AdapterClass) (m : Manager.State)
    (cs : list Manager.StreamChunk) (finalResponse : AIResponse) :
  Manager.providers m !! p = Some a ->
  stream request = Some true ->
  Manager.chunks call = (fun chunk => ([], chunk)) <$> cs ->
  Manager.during call = [] ->
  Manager.controller call ∉ Manager.aborted m ->
  Manager.final call = Return finalResponse ->
  let handed :=
    ((Manager.STREAM_CHUNK (Manager.requestId call) <$> cs)
     ++ [Manager.STREAM_END (Manager.requestId call)])%list in
  Manager.sendRequest call request p m
  = (Return
       {| r_provider := r_provider finalResponse;
          r_model := r_model finalResponse;
          r_content := foldr (fun chunk rest => Manager.delta chunk +:+ rest) "" cs;
          r_usage := r_usage finalResponse;
          r_cost := r_cost finalResponse;
          r_error := r_error finalResponse;
          r_streaming := Some true;
          r_responseTime := Some (Manager.endTime call - Manager.startTime call) |},
     {| Manager.providers := Manager.providers m;
        Manager.activeRequests :=
          delete (Manager.requestId call) (Manager.activeRequests m);
        Manager.aborted := Manager.aborted m;
        Manager.notified := (Manager.notified m ++ handed)%list |}) /\
  (forall tabId, tabId <> 0 ->
     Manager.forwarded (fun _ => Some tabId) handed
     = (fun n => (tabId, n)) <$> handed) /\
  Manager.forwarded (fun _ => None) handed = [].
Proof.
  intros Hp Hs Hc Hd Ha Hf handed. split; [|split].
  - unfold Manager.sendRequest, Manager.attempt, Manager.handleStreamingRequest.
    rewrite Hp, Hs, Hc, Hd, Hf. rewrite bool_decide_eq_true_2 by reflexivity.
    rewrite deliver_undisturbed by exact Ha. simpl.
    unfold Manager.with_active, Manager.notify, Manager.with_responseTime. simpl.
    rewrite delete_insert_eq, <- app_assoc. reflexivity.
  - intros tabId Hid. apply forwarded_to_tab, Hid.
  - apply forwarded_without_tab.
Qed.

Lemma stream_collects_chunks_witness :
  Manager.providers Manager.init !! claude = Some Adapter.ClaudeAPI /\
  (Manager.controller Cases.twoChunks ∉ Manager.aborted Manager.init) /\
  Manager.sendRequest Cases.twoChunks (Sample.streaming Cases.greeting) claude
    Manager.init
  = (Return
       {| r_provider := claude; r_model := "m"; r_content := "Hello";
          r_usage := None; r_cost := None; r_error := None;
          r_streaming := Some true; r_responseTime := Some 250 |},
     {| Manager.providers := Manager.providers Manager.init;
        Manager.activeRequests := delete "req-2" ∅;
        Manager.aborted := ∅;
        Manager.notified :=
          [Manager.STREAM_CHUNK "req-2" (Sample.piece "He");
           Manager.STREAM_CHUNK "req-2" (Sample.piece "llo");
           Manager.STREAM_END "req-2"] |}) /\
  Manager.forwarded (fun _ => Some 7)
    [Manager.STREAM_CHUNK "req-2" (Sample.piece "He");
     Manager.STREAM_CHUNK "req-2" (Sample.piece "llo");
     Manager.STREAM_END "req-2"]
  = [(7, Manager.STREAM_CHUNK "req-2" (Sample.piece "He"));
     (7, Manager.STREAM_CHUNK "req-2" (Sample.piece "llo"));
     (7, Manager.STREAM_END "req-2")] /\
  Manager.forwarded (fun _ => None)
    [Manager.STREAM_CHUNK "req-2" (Sample.piece "He");
     Manager.STREAM_CHUNK "req-2" (Sample.piece "llo");
     Manager.STREAM_END "req-2"]
  = [].
Proof.
  assert (A : Manager.controller Cases.twoChunks ∉ Manager.aborted Manager.init)
    by apply not_elem_of_empty.
  destruct (stream_collects_chunks Cases.twoChunks
              (Sample.streaming Cases.greeting) claude Adapter.ClaudeAPI
              Manager.init [Sample.piece "He"; Sample.piece "llo"]
              (Sample.answer claude "Hello")
              eq_refl eq_refl eq_refl eq_refl A eq_refl) as (R & T & N).
  split; [reflexivity|]. split; [exact A|]. split; [exact R|].
  split; [exact (T 7 ltac:(discriminate)) | exact N].
Defined.


(** X15. A stream that is cancelled. When the request is cancelled, alone or
    with all the others, while the stream runs undisturbed until then, and
    a chunk arrives afterwards, [sendRequest] throws "Request was
    cancelled", whatever [streamRequest] settles with; the chunks that
    arrived before the cancellation were handed to [sendStreamChunk], and
    none after it; the end of the stream is handed to [sendStreamEnd] when
    [streamRequest] returns all the same. Of what was handed over, nothing
    is sent when the queries for the active tab find none. *)
Theorem cancelled_stream_throws (call : Manager.Call) (request : AIRequest)
    (p : AIProvider) (a : Adapter.AdapterClass) (m : Manager.State)
    (before : list Manager.StreamChunk) (cancel : Manager.Step)
    (more : list Manager.Step) (chunk : Manager.StreamChunk)
    (after : list (list Manager.Step * Manager.StreamChunk)) :
  Manager.providers m !! p = Some a ->
  stream request = Some true ->
  Manager.controller call ∉ Manager.aborted m ->
  cancel = Manager.Cancel (Manager.requestId call) \/ cancel = Manager.CancelAll ->
  Manager.chunks call
  = (((fun chunk => ([], chunk)) <$> before)
     ++ (cancel :: more, chunk) :: after)%list ->
  fst (Manager.sendRequest call request p m) = Throw Manager.cancelled /\
  Manager.notified (snd (Manager.sendRequest call request p m))
  = (Manager.notified m
     ++ (Manager.STREAM_CHUNK (Manager.requestId call) <$> before)
     ++ match Manager.final call with
        | Return _ => [Manager.STREAM_END (Manager.requestId call)]
        | Throw _ => []
        end)%list /\
  Manager.forwarded (fun _ => None)
    (Manager.notified (snd (Manager.sendRequest call request p m))) = [].
Proof.
  intros Hp Hs Ha Hcancel Hc.
  split; [|split; [|apply forwarded_without_tab]].
  all: unfold Manager.sendRequest, Manager.attempt, Manager.handleStreamingRequest.
  all: rewrite Hp, Hs, Hc; rewrite bool_decide_eq_true_2 by reflexivity.
  all: set (m1 := Manager.with_active _ m).
  all: rewrite deliver_app, deliver_undisturbed by exact Ha.
  all: cbv beta iota zeta.
  all: set (m2 := {| Manager.providers := _ |}).
  all: assert (Hreg : Manager.activeRequests m2 !! Manager.requestId call
                      = Some (Manager.controller call))
         by (simpl; apply lookup_insert_eq).
  all: assert (Hab : Manager.controller call
                     ∈ Manager.aborted (Manager.run (cancel :: more) m2))
         by (simpl; apply run_aborted; destruct Hcancel as [->| ->]; simpl;
             [ unfold Manager.cancelRequest; rewrite Hreg; simpl;
               apply elem_of_union; left; apply elem_of_singleton; reflexivity
             | apply fold_aborted; right; eauto ]).
  all: change (Manager.deliver ?i ?c ((?st, ?ch) :: ?r) ?t ?j ?m0)
         with (let m1 := Manager.run st m0 in
               if bool_decide (c ∈ Manager.aborted m1)
               then Manager.deliver i c r t true m1
               else Manager.deliver i c r (t +:+ Manager.delta ch) j
                      (Manager.notify (Manager.STREAM_CHUNK i ch) m1)).
  all: cbv zeta; rewrite bool_decide_eq_true_2 by exact Hab.
  all: destruct (deliver_aborted (Manager.requestId call) (Manager.controller call)
              after ("" +:+ foldr (fun chunk rest => Manager.delta chunk +:+ rest)
                               "" before)
              (Manager.run (cancel :: more) m2) Hab) as (m3 & E & S).
  all: rewrite E; rewrite run_sent in S; simpl in S.
  all: destruct (Manager.final call) as [finalResponse|e]; simpl.
  - reflexivity.
  - reflexivity.
  - rewrite run_sent, S, <- app_assoc. reflexivity.
  - rewrite run_sent, S, app_nil_r. reflexivity.
Qed.

Lemma cancelled_stream_throws_witness :
  (Manager.controller Sample.cancelledStream ∉ Manager.aborted Manager.init) /\
  fst (Manager.sendRequest Sample.cancelledStream
         (Sample.streaming Cases.greeting) claude Manager.init)
  = Throw Manager.cancelled /\
  Manager.notified
    (snd (Manager.sendRequest Sample.cancelledStream
            (Sample.streaming Cases.greeting) claude Manager.init))
  = [Manager.STREAM_CHUNK "req-1" (Sample.piece "He"); Manager.STREAM_END "req-1"].
Proof.
  assert (A : Manager.controller Sample.cancelledStream
              ∉ Manager.aborted Manager.init)
    by apply not_elem_of_empty.
  split; [exact A|].
  destruct (cancelled_stream_throws Sample.cancelledStream
              (Sample.streaming Cases.greeting) claude Adapter.ClaudeAPI
              Manager.init [Sample.piece "He"] Manager.CancelAll []
              (Sample.piece "llo") []
              eq_refl eq_refl A (or_intror eq_refl) eq_refl) as (T & N & _).
  split; [exact T | exact N].
Defined.


(** ** Conversations *)

Section ConversationFacts.

Import Conversations.

Lemma slice_first_100 {A} (l : list A) : Array_slice l 0 100 = take 100 l.
Proof.
  unfold Array_slice, rel_index. simpl.
  replace (Z.to_nat (0 `min` Z.of_nat (length l))) with 0%nat by lia.
  rewrite drop_0. destruct (decide (length l <= 100)%nat) as [H|H].
  - rewrite !take_ge by lia. reflexivity.
  - f_equal. lia.
Qed.

Lemma findIndex_Some (i : string) (l : list Conversation) (n : nat) :
  findIndex i l = Some n ->
  (n < length l)%nat /\
  forall conv, id conv = i -> find i (<[n := conv]> l) = Some conv.
Proof.
  revert n. induction l as [|c l IH]; intros n; simpl; [discriminate|].
  destruct (String.eqb (id c) i) eqn:E.
  - intros [= <-]. split; [lia|]. intros conv Hc. unfold find. simpl.
    rewrite Hc, String.eqb_refl. reflexivity.
  - destruct (findIndex i l) as [k|]; [|discriminate]. intros [= <-].
    destruct (IH k eq_refl) as [Hk Hf]. split; [lia|].
    intros conv Hc. unfold find in *. simpl. rewrite E. apply Hf, Hc.
Qed.

Lemma findIndex_None (i : string) (l : list Conversation) :
  findIndex i l = None -> Forall (fun c => String.eqb (id c) i = false) l.
Proof.
  induction l as [|c l IH]; simpl; [constructor|].
  destruct (String.eqb (id c) i) eqn:E; [discriminate|].
  destruct (findIndex i l); [discriminate|]. constructor; auto.
Qed.

(** Replacing the first conversation of an id by one of the same id leaves
    the ids where they are. *)
Lemma insert_same_id (i : string) (l : list Conversation) (n : nat)
    (conv : Conversation) :
  findIndex i l = Some n -> id conv = i ->
  id <$> <[n := conv]> l = id <$> l.
Proof.
  revert n. induction l as [|c l IH]; intros n; simpl; [discriminate|].
  destruct (String.eqb (id c) i) eqn:E.
  - intros [= <-] Hc. csimpl. apply String.eqb_eq in E. congruence.
  - destruct (findIndex i l) as [k|]; [|discriminate]. intros [= <-] Hc.
    csimpl. rewrite (IH k eq_refl Hc). reflexivity.
Qed.

Lemma find_filter_out (i : string) (l : list Conversation) :
  find i (List.filter (fun c => negb (String.eqb (id c) i)) l) = None.
Proof.
  unfold find. induction l as [|c l IH]; simpl; [reflexivity|].
  destruct (String.eqb (id c) i) eqn:E; simpl; [exact IH|].
  rewrite E. exact IH.
Qed.

Lemma find_filter_other (i i' : string) (l : list Conversation) :
  i' <> i ->
  find i' (List.filter (fun c => negb (String.eqb (id c) i)) l) = find i' l.
Proof.
  intros Hne. unfold find. induction l as [|c l IH]; simpl; [reflexivity|].
  destruct (String.eqb (id c) i) eqn:E; simpl.
  - apply String.eqb_eq in E.
    destruct (String.eqb (id c) i') eqn:E'; [apply String.eqb_eq in E'; congruence|].
    exact IH.
  - rewrite IH. reflexivity.
Qed.

End ConversationFacts.

(** X16. [saveConversation] and [getConversations]. When at most 100
    conversations are stored, as every successful [saveConversation]
    leaves it, a conversation that was saved is the one found under its id
    afterwards; a conversation of a new id is stored first, one of a known
    id where the old one stood; and again at most 100 are stored. *)
Theorem saveConversation_then_find (conversation : Conversations.Conversation)
    (s : Conversations.Stored) :
  (length (Conversations.getConversations s) <= 100)%nat ->
  let after :=
    Conversations.getConversations
      (snd (Conversations.saveConversation None conversation s)) in
  fst (Conversations.saveConversation None conversation s) = Return tt /\
  Conversations.find (Conversations.id conversation) after = Some conversation /\
  (length after <= 100)%nat /\
  after
  = match Conversations.findIndex (Conversations.id conversation)
            (Conversations.getConversations s) with
    | Some index => <[index := conversation]> (Conversations.getConversations s)
    | None => conversation :: take 99 (Conversations.getConversations s)
    end.
Proof.
  intros Hlen. cbv zeta. unfold Conversations.saveConversation.
  simpl. rewrite slice_first_100.
  destruct (Conversations.findIndex _ _) as [n|] eqn:F.
  - destruct (findIndex_Some _ _ _ F) as [Hn Hf].
    rewrite take_ge by (rewrite length_insert; lia).
    split; [reflexivity|]. split; [apply Hf; reflexivity|].
    split; [rewrite length_insert; exact Hlen | reflexivity].
  - split; [reflexivity|]. simpl. unfold Conversations.find. simpl.
    rewrite String.eqb_refl. split; [reflexivity|].
    split; [rewrite length_take; lia | reflexivity].
Qed.

Lemma saveConversation_then_find_witness :
  (length (Conversations.getConversations
             (Some [Cases.chat "c1" "first"; Cases.chat "c2" "second"])) <= 100)%nat /\
  Conversations.find "c2"
    (Conversations.getConversations
       (snd (Conversations.saveConversation None (Cases.chat "c2" "renamed")
               (Some [Cases.chat "c1" "first"; Cases.chat "c2" "second"]))))
  = Some (Cases.chat "c2" "renamed") /\
  Conversations.getConversations
    (snd (Conversations.saveConversation None (Cases.chat "c2" "renamed")
            (Some [Cases.chat "c1" "first"; Cases.chat "c2" "second"])))
  = [Cases.chat "c1" "first"; Cases.chat "c2" "renamed"].
Proof.
  assert (L : (length (Conversations.getConversations
                         (Some [Cases.chat "c1" "first"; Cases.chat "c2" "second"]))
               <= 100)%nat) by (simpl; lia).
  split; [exact L|].
  destruct (saveConversation_then_find (Cases.chat "c2" "renamed")
              (Some [Cases.chat "c1" "first"; Cases.chat "c2" "second"]) L)
    as (_ & F & _ & E).
  split; [exact F | exact E].
Defined.


(** X17. What [saveConversation] keeps. Whatever is stored, a successful
    [saveConversation] leaves at most 100 conversations, and when no two
    stored conversations have the same id, no two have afterwards. *)
Theorem saveConversation_keeps_invariant
    (conversation : Conversations.Conversation) (s : Conversations.Stored) :
  let before := Conversations.getConversations s in
  let after :=
    Conversations.getConversations
      (snd (Conversations.saveConversation None conversation s)) in
  (length after <= 100)%nat /\
  (NoDup (Conversations.id <$> before) -> NoDup (Conversations.id <$> after)).
Proof.
  cbv zeta. unfold Conversations.saveConversation. simpl.
  rewrite slice_first_100. split; [rewrite length_take; lia|].
  intros Hnd. rewrite fmap_take.
  eapply sublist_NoDup; [|apply sublist_take].
  destruct (Conversations.findIndex _ _) as [n|] eqn:F.
  - rewrite (insert_same_id _ _ _ _ F eq_refl). exact Hnd.
  - rewrite fmap_cons. apply NoDup_cons. split; [|exact Hnd].
    intros Hin. apply list_elem_of_fmap in Hin as (c & Hc & Hin).
    pose proof (findIndex_None _ _ F) as Hn.
    rewrite Forall_forall in Hn. specialize (Hn c Hin).
    apply String.eqb_neq in Hn. congruence.
Qed.

Lemma saveConversation_keeps_invariant_witness :
  NoDup (Conversations.id <$> [Cases.chat "c1" "first"; Cases.chat "c2" "second"]) /\
  NoDup (Conversations.id <$>
         Conversations.getConversations
           (snd (Conversations.saveConversation None (Cases.chat "c3" "third")
                   (Some [Cases.chat "c1" "first"; Cases.chat "c2" "second"])))).
Proof.
  assert (N : NoDup (Conversations.id <$>
                     [Cases.chat "c1" "first"; Cases.chat "c2" "second"]))
    by (apply (bool_decide_unpack _); vm_compute; reflexivity).
  split; [exact N|].
  exact (proj2 (saveConversation_keeps_invariant (Cases.chat "c3" "third")
                  (Some [Cases.chat "c1" "first"; Cases.chat "c2" "second"])) N).
Defined.


(** X18. [deleteConversation]. After a successful [deleteConversation] no
    conversation is found under the id that was deleted, and under any
    other id the same conversation is found as before. *)
Theorem deleteConversation_removes (i i' : string) (s : Conversations.Stored) :
  let after :=
    Conversations.getConversations
      (snd (Conversations.deleteConversation None i s)) in
  fst (Conversations.deleteConversation None i s) = Return tt /\
  Conversations.find i' after
  = if String.eqb i' i then None
    else Conversations.find i' (Conversations.getConversations s).
Proof.
  cbv zeta. unfold Conversations.deleteConversation. simpl.
  split; [reflexivity|].
  destruct (String.eqb i' i) eqn:E.
  - apply String.eqb_eq in E as ->. apply find_filter_out.
  - apply String.eqb_neq in E. apply find_filter_other, E.
Qed.

(** ** Prompt templates *)

Section TemplateFacts.

Import Templates.

Lemma template_findIndex_Some (i : string) (l : list PromptTemplate) (n : nat) :
  findIndex i l = Some n ->
  forall t, id t = i ->
    find i (<[n := t]> l) = Some t /\
    forall i', i' <> i -> find i' (<[n := t]> l) = find i' l.
Proof.
  revert n. induction l as [|c l IH]; intros n; simpl; [discriminate|].
  destruct (String.eqb (id c) i) eqn:E.
  - intros [= <-] t Ht. unfold find. simpl. rewrite Ht, String.eqb_refl.
    split; [reflexivity|]. intros i' Hne. apply String.eqb_eq in E. rewrite E.
    destruct (String.eqb i i') eqn:E'; [apply String.eqb_eq in E'; congruence|].
    reflexivity.
  - destruct (findIndex i l) as [k|]; [|discriminate]. intros [= <-] t Ht.
    destruct (IH k eq_refl t Ht) as [H1 H2].
    unfold find in *. simpl. rewrite E. split; [exact H1|].
    intros i' Hne. rewrite (H2 i' Hne). reflexivity.
Qed.

Lemma template_findIndex_None (i : string) (l : list PromptTemplate) :
  findIndex i l = None ->
  forall t, id t = i ->
    find i (l ++ [t]) = Some t /\
    forall i', i' <> i -> find i' (l ++ [t]) = find i' l.
Proof.
  induction l as [|c l IH]; simpl.
  - intros _ t Ht. unfold find. simpl. rewrite Ht, String.eqb_refl.
    split; [reflexivity|]. intros i' Hne.
    destruct (String.eqb i i') eqn:E'; [apply String.eqb_eq in E'; congruence|].
    reflexivity.
  - destruct (String.eqb (id c) i) eqn:E; [discriminate|].
    destruct (findIndex i l); [discriminate|]. intros _ t Ht.
    destruct (IH eq_refl t Ht) as [H1 H2].
    unfold find in *. simpl. rewrite ?E. split; [exact H1|].
    intros i' Hne. rewrite (H2 i' Hne). reflexivity.
Qed.

Lemma filter_builtIn (i : string) (l : list PromptTemplate) :
  Forall (fun t => isBuiltIn t = true) l ->
  List.filter (fun t => negb (String.eqb (id t) i) && negb (isBuiltIn t)) l = [].
Proof.
  induction 1 as [|t l Ht Hl IH]; simpl; [reflexivity|].
  rewrite Ht, andb_false_r. exact IH.
Qed.

End TemplateFacts.

(** X19. [savePromptTemplate] and [getPromptTemplates]. After a successful
    [savePromptTemplate] the template that was saved is the one found
    under its id, and under any other id the same template is found as
    before, a built-in template when none was stored. *)
Theorem savePromptTemplate_then_find (template : Templates.PromptTemplate)
    (i : string) (s : Templates.Stored) :
  let after :=
    Templates.getPromptTemplates
      (snd (Templates.savePromptTemplate None template s)) in
  fst (Templates.savePromptTemplate None template s) = Return tt /\
  Templates.find i after
  = if String.eqb i (Templates.id template) then Some template
    else Templates.find i (Templates.getPromptTemplates s).
Proof.
  cbv zeta. unfold Templates.savePromptTemplate. simpl.
  split; [reflexivity|].
  destruct (Templates.findIndex _ _) as [n|] eqn:F.
  - destruct (template_findIndex_Some _ _ _ F template eq_refl) as [H1 H2].
    destruct (String.eqb i (Templates.id template)) eqn:E.
    + apply String.eqb_eq in E as ->. exact H1.
    + apply String.eqb_neq in E. apply H2, E.
  - destruct (template_findIndex_None _ _ F template eq_refl) as [H1 H2].
    destruct (String.eqb i (Templates.id template)) eqn:E.
    + apply String.eqb_eq in E as ->. exact H1.
    + apply String.eqb_neq in E. apply H2, E.
Qed.

(** X20. [deletePromptTemplate] drops the built-in templates. After a
    successful [deletePromptTemplate] the stored templates are the
    templates of before that are not built in and have another id, in their
    order: every built-in template is gone with the one that was deleted,
    whatever the id was. When nothing was stored, nothing is left: the
    three built-in templates are no longer returned. *)
Theorem deletePromptTemplate_drops_builtins (i : string) (s : Templates.Stored) :
  let after :=
    Templates.getPromptTemplates
      (snd (Templates.deletePromptTemplate None i s)) in
  fst (Templates.deletePromptTemplate None i s) = Return tt /\
  Forall (fun t => Templates.isBuiltIn t = false /\ Templates.id t <> i) after /\
  (forall t, t ∈ Templates.getPromptTemplates s ->
             Templates.isBuiltIn t = false -> Templates.id t <> i -> t ∈ after) /\
  after `sublist_of` Templates.getPromptTemplates s /\
  Templates.getPromptTemplates
    (snd (Templates.deletePromptTemplate None i None)) = [].
Proof.
  cbv zeta. unfold Templates.deletePromptTemplate.
  split; [reflexivity|]. split; [|split; [|split]]; [simpl .. |].
  - apply Forall_forall. intros t Ht. apply list_elem_of_In in Ht.
    apply List.filter_In in Ht as [_ Ht].
    apply andb_true_iff in Ht as [H1 H2].
    apply negb_true_iff in H1, H2. apply String.eqb_neq in H1. auto.
  - intros t Hin Hb Hi. apply list_elem_of_In. apply List.filter_In.
    split; [apply list_elem_of_In, Hin|].
    apply String.eqb_neq in Hi. rewrite Hi, Hb. reflexivity.
  - generalize (Templates.getPromptTemplates s). intros l.
    induction l as [|t l IH]; simpl; [constructor|].
    destruct (_ && _); [apply sublist_skip | apply sublist_cons]; exact IH.
  - change (List.filter
              (fun t => negb (String.eqb (Templates.id t) i)
                        && negb (Templates.isBuiltIn t))
              Templates.getBuiltInPromptTemplates = []).
    apply filter_builtIn. repeat constructor.
Qed.

(** ** What is sent to a provider *)

Section WireFacts.

Lemma take_str_idem (n : nat) (s : string) :
  Text.take_str n (Text.take_str n s) = Text.take_str n s.
Proof.
  revert s. induction n as [|n IH]; intros [|c s]; simpl; try reflexivity.
  rewrite IH. reflexivity.
Qed.

Lemma take_str_truthy (n : nat) (s : option string) :
  truthy_string (Text.take_str (S n) <$> s) = truthy_string s.
Proof. destruct s as [[|c s]|]; reflexivity. Qed.

Lemma take_str_or (n : nat) (s : option string) :
  Text.take_str n (or_string (Text.take_str n <$> s) "")
  = Text.take_str n (or_string s "").
Proof.
  destruct s as [[|c s]|]; simpl; try (destruct n; reflexivity).
  destruct n; simpl; [reflexivity|].
  rewrite take_str_idem. reflexivity.
Qed.

Lemma contextParts_excerpt (a : Adapter.AdapterClass) (c : PageContext) :
  Wire.contextParts a (Wire.excerpt c) = Wire.contextParts a c.
Proof.
  unfold Wire.contextParts, Wire.excerpt.
  cbn [selection visibleText url title].
  destruct (truthy_string (selection c)) eqn:S; cbn [negb].
  - rewrite !andb_false_r. reflexivity.
  - rewrite !andb_true_r, take_str_or.
    rewrite (take_str_truthy 999 (visibleText c)). reflexivity.
Qed.

Lemma wireMessages_excerpt (a : Adapter.AdapterClass) (request : AIRequest) :
  Wire.wireMessages a (Wire.with_context (Wire.excerpt <$> context request) request)
  = Wire.wireMessages a request.
Proof.
  unfold Wire.wireMessages, Wire.with_context, Wire.buildContextMessage.
  cbn [context messages systemPrompt].
  destruct (context request) as [c|]; [|reflexivity].
  cbn [fmap option_fmap option_map mbind option_bind].
  rewrite contextParts_excerpt. reflexivity.
Qed.

End WireFacts.

(** X21. What an adapter reads of the page. The body that [transformRequest]
    builds, for any class and configuration, is the same when the page
    context of the request is replaced by its excerpt: the HTML of the
    page is never sent, the visible text is sent only when there is no
    selection, and then its first 1000 code units only. *)
Theorem transformRequest_sends_excerpt (a : Adapter.AdapterClass)
    (config : Wire.Config) (request : AIRequest) :
  Wire.transformRequest a config
    (Wire.with_context (Wire.excerpt <$> context request) request)
  = Wire.transformRequest a config request.
Proof.
  unfold Wire.transformRequest. rewrite wireMessages_excerpt.
  destruct a; reflexivity.
Qed.

(** X22. The roles that are sent. Every message of a request body has one of the
    roles of its class: the Claude class sends no message as [system] (a
    system message goes out as [assistant]), the Gemini class sends [user]
    and [model] only; and every message of the request is sent with its own
    content, in order, after the system prompt where the class sends one. *)
Theorem transformMessages_roles (a : Adapter.AdapterClass)
    (request : AIRequest) :
  Forall (fun m => m.1 ∈ Wire.wireRoles a) (Wire.wireMessages a request) /\
  exists preamble,
    Wire.transformMessages a (messages request) (systemPrompt request)
    = (preamble ++ ((fun m => (Wire.wireRole a (role m), content m))
                    <$> messages request))%list /\
    (length preamble <= 2)%nat.
Proof.
  assert (R : forall r, Wire.wireRole a r ∈ Wire.wireRoles a).
  { intros r. apply list_elem_of_In. destruct a, r; simpl; tauto. }
  assert (U : "user" ∈ Wire.wireRoles a).
  { apply list_elem_of_In. destruct a; simpl; tauto. }
  assert (T : Forall (fun m : string * string => m.1 ∈ Wire.wireRoles a)
                (Wire.transformMessages a (messages request) (systemPrompt request))).
  { unfold Wire.transformMessages. apply Forall_app. split.
    - destruct a; simpl; try constructor;
        destruct (truthy_string (systemPrompt request));
        repeat constructor; simpl; apply list_elem_of_In; simpl; tauto.
    - apply Forall_fmap, Forall_forall. intros m _. apply R. }
  split.
  - unfold Wire.wireMessages.
    destruct (context request ≫= Wire.buildContextMessage a) as [text|];
      [|exact T].
    destruct a; try (constructor; [exact U | exact T]);
      (apply Forall_app; split; [exact T | constructor; [exact U | constructor]]).
  - unfold Wire.transformMessages. eexists. split; [reflexivity|].
    destruct a; simpl; try lia;
      destruct (truthy_string (systemPrompt request)); simpl; lia.
Qed.

(** ** The helpers of the encryption service *)

Section EncryptionFacts.

Lemma sextet_plain (b5 b4 b3 b2 b1 b0 : bool) :
  Encryption.is_space (Text.sextet b5 b4 b3 b2 b1 b0) = false /\
  Encryption.is_base64 (Text.sextet b5 b4 b3 b2 b1 b0) = true.
Proof. destruct b5, b4, b3, b2, b1, b0; split; reflexivity. Qed.

Lemma quad1_plain (a : ascii) :
  Encryption.is_space (Text.quad1 a) = false /\
  Encryption.is_base64 (Text.quad1 a) = true.
Proof. destruct a. apply sextet_plain. Qed.

Lemma quad2_plain (a b : ascii) :
  Encryption.is_space (Text.quad2 a b) = false /\
  Encryption.is_base64 (Text.quad2 a b) = true.
Proof. destruct a, b. apply sextet_plain. Qed.

Lemma quad3_plain (a b : ascii) :
  Encryption.is_space (Text.quad3 a b) = false /\
  Encryption.is_base64 (Text.quad3 a b) = true.
Proof. destruct a, b. apply sextet_plain. Qed.

Lemma quad4_plain (a : ascii) :
  Encryption.is_space (Text.quad4 a) = false /\
  Encryption.is_base64 (Text.quad4 a) = true.
Proof. destruct a. apply sextet_plain. Qed.

(** The bytes of a group are read back from its characters. *)
Lemma byte1_quads (a b : ascii) :
  Encryption.byte1 (Text.quad1 a) (Text.quad2 a b) = a.
Proof.
  destruct a, b. unfold Encryption.byte1, Text.quad1, Text.quad2.
  rewrite !unsextet_sextet. reflexivity.
Qed.

Lemma byte2_quads (a b c : ascii) :
  Encryption.byte2 (Text.quad2 a b) (Text.quad3 b c) = b.
Proof.
  destruct a, b, c. unfold Encryption.byte2, Text.quad2, Text.quad3.
  rewrite !unsextet_sextet. reflexivity.
Qed.

Lemma byte3_quads (b c : ascii) :
  Encryption.byte3 (Text.quad3 b c) (Text.quad4 c) = c.
Proof.
  destruct b, c. unfold Encryption.byte3, Text.quad3, Text.quad4.
  rewrite !unsextet_sextet. reflexivity.
Qed.

Lemma unpad_cons (c : ascii) (r : string) :
  c <> "="%char -> Encryption.unpad (String c r) = String c (Encryption.unpad r).
Proof.
  intros H. destruct c as [[] [] [] [] [] [] [] []]; try reflexivity.
  contradiction.
Qed.

Lemma mod4_step (n : nat) : (S (S (S (S n))) mod 4 = n mod 4)%nat.
Proof.
  replace (S (S (S (S n)))) with (n + 1 * 4)%nat by lia.
  apply Nat.Div0.mod_add.
Qed.

Ltac unpad_quads :=
  rewrite ?unpad_cons
    by (apply quad1_not_pad || apply quad2_not_pad || apply quad3_not_pad
        || apply quad4_not_pad).

Lemma decodes_bounded (n : nat) :
  forall s : string, (String.length s <= n)%nat -> Encryption.decodes s.
Proof.
  induction n as [n IH] using lt_wf_ind. intros s Hn.
  destruct s as [|a [|b [|c r]]].
  - split; reflexivity.
  - destruct (quad1_plain a) as [S1 B1], (quad2_plain a Ascii.zero) as [S2 B2].
    split; cbn [Text.btoa]; unfold Text.encode1; unpad_quads.
    + simpl. rewrite S1, S2. reflexivity.
    + reflexivity.
    + reflexivity.
    + simpl. rewrite B1, B2. reflexivity.
    + simpl. rewrite byte1_quads. reflexivity.
  - destruct (quad1_plain a) as [S1 B1], (quad2_plain a b) as [S2 B2],
      (quad3_plain b Ascii.zero) as [S3 B3].
    split; cbn [Text.btoa]; unfold Text.encode2; unpad_quads.
    + simpl. rewrite S1, S2, S3. reflexivity.
    + reflexivity.
    + reflexivity.
    + simpl. rewrite B1, B2, B3. reflexivity.
    + simpl. rewrite byte1_quads, byte2_quads. reflexivity.
  - destruct (quad1_plain a) as [S1 B1], (quad2_plain a b) as [S2 B2],
      (quad3_plain b c) as [S3 B3], (quad4_plain c) as [S4 B4].
    destruct (IH (String.length r) ltac:(simpl in Hn; lia) r (le_n _))
      as [R1 R2 R3 R4 R5].
    split; rewrite btoa_group; unpad_quads.
    + simpl. rewrite S1, S2, S3, S4, R1. reflexivity.
    + cbn [String.length]. rewrite mod4_step. exact R2.
    + cbn [String.length]. rewrite mod4_step. exact R3.
    + simpl. rewrite B1, B2, B3, B4, R4. reflexivity.
    + cbn [Encryption.decode]. rewrite R5. simpl.
      rewrite byte1_quads, byte2_quads, byte3_quads. reflexivity.
Qed.

Lemma differences_zero (a b : string) (result : Z) :
  String.length a = String.length b ->
  Encryption.differences a b result = 0 <-> result = 0 /\ a = b.
Proof.
  revert b result. induction a as [|x a IH]; intros [|y b] result H;
    simpl in *; try discriminate.
  - tauto.
  - injection H as H. rewrite (IH b _ H), Z.lor_eq_0_iff, Z.lxor_eq_0_iff.
    unfold Encryption.charCode. split.
    + intros [[-> E] ->]. split; [reflexivity|]. f_equal.
      apply N2Z.inj in E. rewrite <- (ascii_N_embedding x), E.
      apply ascii_N_embedding.
    + intros [-> [= -> ->]]. auto.
Qed.

End EncryptionFacts.

(** X23. [atob] after [btoa]. Decoding the base64 text of a string of bytes
    returns the string: there is nothing that [btoa] writes which [atob]
    refuses or reads as something else. So [base64ToBuffer] gives back the
    bytes that [bufferToBase64] encoded, as decryption needs it for the
    salt, the vector and the ciphertext that encryption stored. *)
Theorem atob_btoa (s : string) (buffer : list Byte.byte) :
  Encryption.atob (Text.btoa s) = Return s /\
  Encryption.base64ToBuffer (Encryption.bufferToBase64 buffer) = Return buffer.
Proof.
  assert (H : forall s, Encryption.atob (Text.btoa s) = Return s).
  { intros s0.
    destruct (decodes_bounded (String.length s0) s0 (le_n _)) as [R1 R2 R3 R4 R5].
    unfold Encryption.atob. cbv zeta. rewrite R1, R2.
    change (0 =? 0)%nat with true. cbv iota.
    rewrite R3, R4, R5. reflexivity. }
  split; [apply H|].
  unfold Encryption.base64ToBuffer, Encryption.bufferToBase64.
  rewrite H. simpl. rewrite list_byte_of_string_of_list_byte. reflexivity.
Qed.

(** X24. [secureCompare] is equality of strings: it answers [true] exactly when
    the two strings have the same length and the same code unit at every
    position. *)
Theorem secureCompare_is_equality (a b : string) :
  Encryption.secureCompare a b = String.eqb a b.
Proof.
  unfold Encryption.secureCompare.
  destruct (String.length a =? String.length b)%nat eqn:L; simpl.
  - apply Nat.eqb_eq in L. pose proof (differences_zero a b 0 L) as D.
    destruct (String.eqb a b) eqn:E.
    + apply String.eqb_eq in E. apply Z.eqb_eq, D. auto.
    + apply String.eqb_neq in E. apply Z.eqb_neq. intros Hz.
      apply D in Hz as [_ Hz]. contradiction.
  - apply Nat.eqb_neq in L. symmetry. apply String.eqb_neq.
    intros ->. contradiction.
Qed.

(** ** The context manager *)

(** X25. A context that was updated is never asked for again. After
    [updateTabContext] for a tab, which the background script calls when
    the tab has finished loading, [getContext] for that tab returns the
    stored context, with the address and title of the tab and whatever
    else was stored for the tab before, without asking the content script:
    the answer does not depend on what the content script would reply, and
    nothing is stored. *)
Theorem getContext_after_update (tabId : Z) (tab_url tab_title : option string)
    (st : Context.State) (reply : option Context.TabContext) :
  let st' := Context.updateTabContext tabId tab_url tab_title st in
  exists context,
    Context.getContext reply tabId st' = (Some context, st') /\
    url (Context.page context) = or_string tab_url "" /\
    title (Context.page context) = or_string tab_title "" /\
    selection (Context.page context)
    = st !! tabId ≫= (fun c => selection (Context.page c)) /\
    visibleText (Context.page context)
    = st !! tabId ≫= (fun c => visibleText (Context.page c)) /\
    fullHtml (Context.page context)
    = st !! tabId ≫= (fun c => fullHtml (Context.page c)).
Proof.
  cbv zeta. unfold Context.getContext, Context.updateTabContext, Context.State in *.
  rewrite lookup_insert_eq. eexists. split; [reflexivity|].
  repeat split.
Qed.

(** X26. The sharing level bounds what is taken from the page. Whenever
    [getContextWithPrivacy] returns, every script it ran in the tab is one
    that the [contextSharing] level allows, and it ran none in sensitive
    mode; and the context holds a selection, a visible text or HTML that is
    not empty only when the script that extracts it was run. *)
Theorem getContextWithPrivacy_respects_level (privacy : Context.PrivacySettings)
    (b : Context.Browser) (context : Context.TabContext)
    (scripts : list Context.Script) :
  Context.getContextWithPrivacy privacy b = Return (context, scripts) ->
  Forall (fun s => Context.permits (Context.contextSharing privacy) s = true /\
                   Context.sensitiveMode privacy = false) scripts /\
  (truthy_string (selection (Context.page context)) = true ->
   Context.ExtractSelection ∈ scripts) /\
  (truthy_string (visibleText (Context.page context)) = true ->
   Context.ExtractVisibleText ∈ scripts) /\
  (truthy_string (fullHtml (Context.page context)) = true ->
   Context.ExtractFullHTML ∈ scripts).
Proof.
  unfold Context.getContextWithPrivacy.
  destruct (Context.tab b) as [[tab_url tab_title]|e]; simpl; [|discriminate].
  destruct (Context.some_excluded b _ _) as [isExcluded|e]; simpl;
    [|discriminate].
  destruct (isExcluded || Context.sensitiveMode privacy) eqn:X.
  - intros [= <- <-]. simpl. split; [constructor|].
    repeat split; discriminate.
  - apply orb_false_iff in X as [_ X].
    destruct (Context.contextSharing privacy); intros [= <- <-]; simpl;
      (split; [repeat constructor; assumption|]);
      repeat split; intros H; try discriminate H;
      apply list_elem_of_In; simpl; tauto.
Qed.

Lemma getContextWithPrivacy_respects_level_witness :
  Context.getContextWithPrivacy Context.defaultPrivacy Cases.browser
  = Return ({| Context.page :=
                 {| url := "https://example.org/"; title := "Example";
                    selection := Some "text"; visibleText := None;
                    fullHtml := None |};
               Context.metadata := None |},
            [Context.ExtractSelection]) /\
  Forall (fun s => Context.permits Context.share_selection s = true /\
                   false = false) [Context.ExtractSelection].
Proof.
  assert (H : Context.getContextWithPrivacy Context.defaultPrivacy Cases.browser
              = Return ({| Context.page :=
                             {| url := "https://example.org/"; title := "Example";
                                selection := Some "text"; visibleText := None;
                                fullHtml := None |};
                           Context.metadata := None |},
                        [Context.ExtractSelection]))
    by reflexivity.
  split; [exact H|].
  exact (proj1 (getContextWithPrivacy_respects_level Context.defaultPrivacy
                  Cases.browser _ _ H)).
Defined.


(** ** Settings updates *)

Section SettingsFacts.

Import Settings.

Lemma assign_object (current : option Value) (source : gmap string Value) :
  assign current (VObject source)
  = VObject (deepMerge (or_empty current) source).
Proof. reflexivity. Qed.

Lemma assign_whole (current : option Value) (v : Value) :
  assigned_whole v = true -> assign current v = v.
Proof. destruct v; simpl; congruence. Qed.

Lemma deepMerge_lookup (target : Value) (source : gmap string Value)
    (key : string) :
  deepMerge target source !! key
  = match source !! key with
    | Some v => Some (assign (spread target !! key) v)
    | None => spread target !! key
    end.
Proof.
  unfold deepMerge. cbv zeta.
  rewrite lookup_union, map_lookup_imap.
  destruct (source !! key) as [v|]; simpl.
  - destruct (spread target !! key); reflexivity.
  - destruct (spread target !! key); reflexivity.
Qed.

Lemma spread_or_empty (current : option Value) :
  spread (or_empty current) = from_option spread ∅ current.
Proof.
  destruct current as [c|]; [|reflexivity].
  unfold or_empty. destruct (truthy c) eqn:E; [reflexivity|].
  destruct c; simpl in *; try reflexivity; try discriminate.
  destruct s; [reflexivity | discriminate].
Qed.

Lemma get_path_or_empty (current : option Value) (key : string)
    (rest : list string) :
  get_path (key :: rest) (or_empty current)
  = current ≫= get_path (key :: rest).
Proof.
  simpl. rewrite spread_or_empty.
  destruct current; [reflexivity | simpl; rewrite lookup_empty; reflexivity].
Qed.

Lemma deepMerge_writes (path : list string) :
  forall (target : Value) (source : gmap string Value) (v : Value),
  assigned_whole v = true ->
  get_path path (VObject source) = Some v ->
  get_path path (VObject (deepMerge target source)) = Some v.
Proof.
  induction path as [|key rest IH]; intros target source v Hv Hp.
  - simpl in Hp. injection Hp as <-. discriminate.
  - simpl in *. rewrite deepMerge_lookup.
    destruct (source !! key) as [c|]; [|discriminate]. simpl in *.
    destruct rest as [|key' rest].
    + simpl in *. injection Hp as ->. rewrite assign_whole; trivial.
    + destruct c; try exact Hp.
      rewrite assign_object. apply IH; trivial.
Qed.

Lemma deepMerge_keeps (path : list string) :
  forall (target : Value) (source : gmap string Value),
  untouched source path ->
  get_path path (VObject (deepMerge target source)) = get_path path target.
Proof.
  induction path as [|key rest IH]; intros target source Hu; [destruct Hu|].
  destruct rest as [|key' rest].
  - simpl in *. rewrite deepMerge_lookup, Hu. reflexivity.
  - change (untouched source (key :: key' :: rest))
      with (source !! key = None \/
            exists inner, source !! key = Some (VObject inner) /\
                          untouched inner (key' :: rest)) in Hu.
    change (get_path (key :: key' :: rest) (VObject (deepMerge target source)))
      with (deepMerge target source !! key ≫= get_path (key' :: rest)).
    change (get_path (key :: key' :: rest) target)
      with (spread target !! key ≫= get_path (key' :: rest)).
    rewrite deepMerge_lookup.
    destruct Hu as [E | (inner & E & Hu)]; rewrite E; [reflexivity|].
    rewrite assign_object.
    change (Some (VObject (deepMerge (or_empty (spread target !! key)) inner))
            ≫= get_path (key' :: rest))
      with (get_path (key' :: rest)
              (VObject (deepMerge (or_empty (spread target !! key)) inner))).
    rewrite (IH _ _ Hu). apply get_path_or_empty.
Qed.

Lemma depth_lookup (m : gmap string Value) (key : string) (v : Value) :
  m !! key = Some v -> (depth v < depth (VObject m))%nat.
Proof.
  simpl. intros H. apply Nat.lt_succ_r. revert key v H.
  apply (map_fold_weak_ind
           (fun r (m : gmap string Value) =>
              forall key v, m !! key = Some v -> (depth v <= r)%nat)).
  - intros key v H. rewrite lookup_empty in H. discriminate.
  - intros i x m' r Hi IH key v H.
    destruct (decide (key = i)) as [->|Hne].
    + rewrite lookup_insert_eq in H. injection H as ->. lia.
    + rewrite lookup_insert_ne in H by congruence.
      specialize (IH _ _ H). lia.
Qed.

Lemma assign_again (n : nat) :
  forall (v : Value) (current : option Value),
  (depth v < n)%nat ->
  assign (Some (assign current v)) v = assign current v.
Proof.
  induction n as [|n IH]; intros v current Hn; [lia|].
  destruct v; try reflexivity.
  rewrite !assign_object. f_equal.
  change (or_empty (Some (VObject (deepMerge (or_empty current) properties))))
    with (VObject (deepMerge (or_empty current) properties)).
  apply map_eq. intros key.
  rewrite deepMerge_lookup.
  change (spread (VObject (deepMerge (or_empty current) properties)))
    with (deepMerge (or_empty current) properties).
  rewrite deepMerge_lookup.
  destruct (properties !! key) as [v|] eqn:E; [|reflexivity].
  f_equal. apply IH.
  pose proof (depth_lookup _ _ _ E). lia.
Qed.

Lemma deepMerge_again (target : Value) (source : gmap string Value) :
  deepMerge (VObject (deepMerge target source)) source
  = deepMerge target source.
Proof.
  apply map_eq. intros key.
  rewrite deepMerge_lookup.
  change (spread (VObject (deepMerge target source)))
    with (deepMerge target source).
  rewrite deepMerge_lookup.
  destruct (source !! key) as [v|] eqn:E; [|reflexivity].
  f_equal. apply (assign_again (S (depth v))). lia.
Qed.

(** X27. [updateSettings] and [deepMerge]. After an
    update that is written, the settings hold, at its path, every value of
    the update that is not itself an object to merge (a primitive, [null],
    an array), and every path that leaves the objects of the update at its
    last key reads as it did before. *)
Theorem updateSettings_merges (updates : gmap string Value)
    (stored : option Value) :
  let after := (updateSettings None updates stored).2 in
  (forall path v,
     assigned_whole v = true ->
     get_path path (VObject updates) = Some v ->
     after ≫= get_path path = Some v) /\
  (forall path,
     untouched updates path ->
     after ≫= get_path path = get_path path (getSettings stored)).
Proof.
  cbv zeta. unfold updateSettings. simpl. split.
  - intros path v Hv Hp. apply deepMerge_writes; trivial.
  - intros path Hu. apply deepMerge_keeps; trivial.
Qed.

Lemma updateSettings_merges_witness :
  Settings.assigned_whole (Settings.VNumber 60000) = true /\
  Settings.get_path ["advanced"; "cacheTTL"]
    (Settings.VObject Cases.shorterCache) = Some (Settings.VNumber 60000) /\
  Settings.untouched Cases.shorterCache ["advanced"; "cacheResponses"] /\
  (Settings.updateSettings None Cases.shorterCache None).2
    ≫= Settings.get_path ["advanced"; "cacheTTL"]
  = Some (Settings.VNumber 60000) /\
  (Settings.updateSettings None Cases.shorterCache None).2
    ≫= Settings.get_path ["advanced"; "cacheResponses"]
  = Some (Settings.VBool true).
Proof.
  assert (Settings.untouched Cases.shorterCache ["advanced"; "cacheResponses"])
    as Hu.
  { right. eexists. split; [vm_compute; reflexivity | vm_compute; reflexivity]. }
  destruct (updateSettings_merges Cases.shorterCache None) as [W K].
  split; [reflexivity|]. split; [vm_compute; reflexivity|].
  split; [exact Hu|]. split.
  - apply W; [reflexivity | vm_compute; reflexivity].
  - rewrite (K _ Hu). vm_compute. reflexivity.
Defined.

(** X28. [updateSettings] twice. Making the
    same update a second time changes nothing: the settings after the
    second update are those after the first. *)
Theorem updateSettings_twice (updates : gmap string Value)
    (stored : option Value) :
  (updateSettings None updates (updateSettings None updates stored).2).2
  = (updateSettings None updates stored).2.
Proof.
  unfold updateSettings, getSettings. simpl. f_equal. f_equal.
  apply deepMerge_again.
Qed.

End SettingsFacts.

(** ** The message handler *)

Section MessageFacts.

Import Messages.

Lemma handleMessage_cases (sv : Services) (message : ExtensionMessage)
    (sender : MessageSender) :
  (exists r, responses (handleMessage sv message sender) = [r] /\
             ~ (tab sender = None /\ type message ∈ for_tabs)) \/
  (responses (handleMessage sv message sender) = [] /\
   tab sender = None /\ type message ∈ for_tabs).
Proof.
  assert (forall t, t ∈ for_tabs <->
            t = "GET_CONTEXT" \/ t = "TOGGLE_SIDEBAR" \/
            t = "OPEN_COMMAND_PALETTE") as Hin.
  { intros t. unfold for_tabs. rewrite list_elem_of_In. simpl.
    intuition congruence. }
  unfold handleMessage, dispatch, field.
  repeat match goal with
  | |- context [String.eqb (type message) ?s] =>
      destruct (String.eqb_spec (type message) s)
  end;
  try (destruct (tab sender) as [tabId|] eqn:Et;
       [ left;
         repeat match goal with
         | |- context [getContext sv ?a] => destruct (getContext sv a)
         end; simpl; eexists;
         (split; [reflexivity | intros [? _]; discriminate])
       | right; simpl; split; [reflexivity|]; split; [reflexivity|]; apply Hin; tauto ]);
  left;
  destruct (payload message) as [p|]; simpl;
  repeat match goal with
  | |- context [sendToAI sv ?a] => destruct (sendToAI sv a)
  | |- context [getSettings sv] => destruct (getSettings sv)
  | |- context [updateSettings sv ?a] => destruct (updateSettings sv a)
  | |- context [saveConversation sv ?a] => destruct (saveConversation sv a)
  | |- context [getConversations sv] => destruct (getConversations sv)
  | |- context [clearConversations sv] => destruct (clearConversations sv)
  | |- context [saveAPIKey sv ?a ?b ?c] => destruct (saveAPIKey sv a b c)
  end; simpl; eexists; (split; [reflexivity|]);
  intros [_ H]; apply Hin in H; destruct H as [H | [H | H]]; congruence.
Qed.

(** X29. [handleMessage]. A message is answered at
    most once, whatever the calls it awaits do, and it is left without any
    answer exactly when it is one of GET_CONTEXT, TOGGLE_SIDEBAR and
    OPEN_COMMAND_PALETTE from a sender without a tab id, or with the tab
    id 0. *)
Theorem handleMessage_answers (sv : Services) (message : ExtensionMessage)
    (sender : MessageSender) :
  (length (responses (handleMessage sv message sender)) <= 1)%nat /\
  (responses (handleMessage sv message sender) = [] <->
   tab sender = None /\ type message ∈ for_tabs).
Proof.
  destruct (handleMessage_cases sv message sender)
    as [(r & -> & Hn) | (-> & Ht)].
  - split; [simpl; lia|]. split; [discriminate | intros H; destruct (Hn H)].
  - split; [simpl; lia|]. split; trivial.
Qed.

End MessageFacts.
